(** * sigma-permit: license trust and validation subsystem

    A shallow embedding of the license issuing / verification code of
    [app/routers/licenses.py], [app/crud.py], [app/schemas.py],
    [app/crypto_utils.py] and of the renewal loop of
    [license_controller/main.py], together with the properties stated
    for them; then of the other endpoints and helpers of those files,
    and of [common/crypto.py], [license_server/main.py],
    [license_validator/validator.py] and
    [license_controller/k8s_client.py]. *)

From Stdlib Require Import ZArith Arith List String Ascii Bool Lia ZifyNat.
From Stdlib Require Import DecimalString DecimalZ.
Import ListNotations.
Open Scope string_scope.
Open Scope list_scope.
Open Scope Z_scope.

(** ** Python exceptions and the outcome of a call *)

(** The exception classes the modelled code can meet.  All of them
    derive from [Exception], so an [except Exception] clause (and a bare
    [except:]) catches every value of this type. *)
Inductive exn : Type :=
| TypeError
| ValueError
| AttributeError
| KeyError
| LookupError
| UnboundLocalError
| OverflowError
| UnicodeError
| BinasciiError
| InvalidTag
| CryptoError
| JSONDecodeError
| IOError
| RequestException
| HTTPException (status_code : Z) (detail : string).

Inductive outcome (A : Type) : Type :=
| Returned (a : A)
| Raised (e : exn).
Arguments Returned {A} a.
Arguments Raised {A} e.

Definition bind {A B} (m : outcome A) (k : A -> outcome B) : outcome B :=
  match m with
  | Returned a => k a
  | Raised e => Raised e
  end.

(** [try: m  except Exception as e: h e] *)
Definition try_except {A} (m : outcome A) (h : exn -> outcome A) : outcome A :=
  match m with
  | Returned a => Returned a
  | Raised e => h e
  end.

Declare Scope py_scope.
Delimit Scope py_scope with py.
Notation "x <- m ;; k" := (bind m (fun x => k))
  (at level 61, m at next level, right associativity) : py_scope.
Notation "m ;;; k" := (bind m (fun _ => k))
  (at level 61, right associativity) : py_scope.
Open Scope py_scope.

Definition is_http_exception (e : exn) : bool :=
  match e with HTTPException _ _ => true | _ => false end.

(** ** Dates: the parts of [datetime] and [calendar] the code calls *)

Module PyDate.

(** [datetime._is_leap] / [calendar.isleap] *)
Definition is_leap (year : Z) : bool :=
  (year mod 4 =? 0) && (negb (year mod 100 =? 0) || (year mod 400 =? 0)).

(** [datetime._DAYS_IN_MONTH] *)
Definition DAYS_IN_MONTH (month : Z) : Z :=
  match month with
  | 1 => 31 | 2 => 28 | 3 => 31 | 4 => 30 | 5 => 31 | 6 => 30
  | 7 => 31 | 8 => 31 | 9 => 30 | 10 => 31 | 11 => 30 | 12 => 31
  | _ => -1
  end.

(** [datetime._DAYS_BEFORE_MONTH] *)
Definition DAYS_BEFORE_MONTH (month : Z) : Z :=
  match month with
  | 1 => 0 | 2 => 31 | 3 => 59 | 4 => 90 | 5 => 120 | 6 => 151
  | 7 => 181 | 8 => 212 | 9 => 243 | 10 => 273 | 11 => 304 | 12 => 334
  | _ => -1
  end.

Definition days_before_year (year : Z) : Z :=
  let y := year - 1 in y * 365 + y / 4 - y / 100 + y / 400.

Definition days_in_month (year month : Z) : Z :=
  if (month =? 2) && is_leap year then 29 else DAYS_IN_MONTH month.

Definition days_before_month (year month : Z) : Z :=
  DAYS_BEFORE_MONTH month + (if (2 <? month) && is_leap year then 1 else 0).

Definition ymd2ord (year month day : Z) : Z :=
  days_before_year year + days_before_month year month + day.

Definition MINYEAR : Z := 1.
Definition MAXYEAR : Z := 9999.
Definition MAXORDINAL : Z := 3652059.

(** [datetime._check_date_fields] as a test *)
Definition valid_date (year month day : Z) : bool :=
  (MINYEAR <=? year) && (year <=? MAXYEAR) &&
  (1 <=? month) && (month <=? 12) &&
  (1 <=? day) && (day <=? days_in_month year month).

(** [datetime._ord2ymd] *)
Definition ord2ymd (n0 : Z) : Z * Z * Z :=
  let n := n0 - 1 in
  let n400 := n / 146097 in
  let n := n mod 146097 in
  let year := n400 * 400 + 1 in
  let n100 := n / 36524 in
  let n := n mod 36524 in
  let n4 := n / 1461 in
  let n := n mod 1461 in
  let n1 := n / 365 in
  let n := n mod 365 in
  let year := year + n100 * 100 + n4 * 4 + n1 in
  if (n1 =? 4) || (n100 =? 4) then (year - 1, 12, 31)
  else
    let leapyear := (n1 =? 3) && (negb (n4 =? 24) || (n100 =? 3)) in
    let month := Z.shiftr (n + 50) 5 in
    let preceding :=
      DAYS_BEFORE_MONTH month + (if (2 <? month) && leapyear then 1 else 0) in
    if n <? preceding then
      let month := month - 1 in
      let preceding :=
        preceding - (DAYS_IN_MONTH month
                     + (if (month =? 2) && leapyear then 1 else 0)) in
      (year, month, n - preceding + 1)
    else (year, month, n - preceding + 1).

Definition US_PER_DAY : Z := 86400000000.

(** A [datetime] value: calendar date, time of day in microseconds
    since midnight, and [tzinfo] as the UTC offset in microseconds
    ([None] for a naive value). *)
Record datetime : Type := mkdt {
  year : Z;
  month : Z;
  day : Z;
  tod : Z;
  tzinfo : option Z
}.

Definition toordinal (d : datetime) : Z := ymd2ord (year d) (month d) (day d).

(** A [timedelta], held as its total number of microseconds. *)
Definition timedelta : Type := Z.

(** [timedelta.days]: Python normalises so that the remainder is
    non-negative, which is floor division. *)
Definition td_days (t : timedelta) : Z := t / US_PER_DAY.

(** [timedelta(days=n)]; [n] beyond +-999999999 is an OverflowError. *)
Definition timedelta_days (n : Z) : outcome timedelta :=
  if (-999999999 <=? n) && (n <=? 999999999) then Returned (n * US_PER_DAY)
  else Raised OverflowError.

(** [a - b] on two datetimes ([datetime.__sub__]). *)
Definition dt_sub (a b : datetime) : outcome timedelta :=
  let base := (toordinal a - toordinal b) * US_PER_DAY + (tod a - tod b) in
  match tzinfo a, tzinfo b with
  | None, None => Returned base
  | Some oa, Some ob => Returned (base + ob - oa)
  | _, _ => Raised TypeError
  end.

(** [a + t] ([datetime.__add__]). *)
Definition dt_add (a : datetime) (t : timedelta) : outcome datetime :=
  let total := toordinal a * US_PER_DAY + tod a + t in
  let days := total / US_PER_DAY in
  if (0 <? days) && (days <=? MAXORDINAL) then
    let '(y, m, d) := ord2ymd days in
    Returned (mkdt y m d (total mod US_PER_DAY) (tzinfo a))
  else Raised OverflowError.

(** [d.replace(year=y)] *)
Definition replace_year (d : datetime) (y : Z) : outcome datetime :=
  if valid_date y (month d) (day d)
  then Returned (mkdt y (month d) (day d) (tod d) (tzinfo d))
  else Raised ValueError.

(** [d.replace(tzinfo=timezone.utc)] *)
Definition replace_tz_utc (d : datetime) : datetime :=
  mkdt (year d) (month d) (day d) (tod d) (Some 0).

(** [if d.tzinfo is None: d = d.replace(tzinfo=timezone.utc)] *)
Definition ensure_aware (d : datetime) : datetime :=
  match tzinfo d with None => replace_tz_utc d | Some _ => d end.

(** Microseconds since the epoch of ordinal 0, in UTC, of an aware value. *)
Definition instant (d : datetime) (off : Z) : Z :=
  toordinal d * US_PER_DAY + tod d - off.

(** [a <= b]; mixing naive and aware raises TypeError. *)
Definition dt_le (a b : datetime) : outcome bool :=
  match tzinfo a, tzinfo b with
  | None, None => Returned (instant a 0 <=? instant b 0)
  | Some oa, Some ob => Returned (instant a oa <=? instant b ob)
  | _, _ => Raised TypeError
  end.

(** [a > b] *)
Definition dt_gt (a b : datetime) : outcome bool :=
  x <- dt_le a b ;; Returned (negb x).

(** [calendar.monthrange(year, month)[1]] *)
Definition monthrange_ndays (y m : Z) : outcome Z :=
  if (1 <=? m) && (m <=? 12) then Returned (days_in_month y m)
  else Raised ValueError.

End PyDate.

Import PyDate.

(** ** Strings *)

Module PyStr.

(** [sub in s] for two [str] values *)
Fixpoint contains (s sub : string) : bool :=
  prefix sub s ||
  match s with
  | EmptyString => false
  | String _ rest => contains rest sub
  end.

(** truth value of a [str] *)
Definition truthy (s : string) : bool :=
  match s with EmptyString => false | _ => true end.

(** [len(s)] *)
Definition len (s : string) : Z := Z.of_nat (String.length s).

(** [s[:n]] for [n >= 0] *)
Definition take (n : nat) (s : string) : string := substring 0 n s.

(** [s[-n:]] for [n > 0] *)
Definition take_last (n : nat) (s : string) : string :=
  substring (String.length s - n) n s.

Definition digit (n : Z) : ascii := ascii_of_nat (48 + Z.to_nat (n mod 10)).

(** [n] written in decimal on exactly [width] digits (["%0*d"]) *)
Fixpoint pad_num (width : nat) (n : Z) : string :=
  match width with
  | O => EmptyString
  | S w => (pad_num w (n / 10) ++ String (digit n) EmptyString)%string
  end.

End PyStr.

(** [datetime.isoformat()] *)
Definition isoformat (d : datetime) : string :=
  let secs := tod d / 1000000 in
  let us := tod d mod 1000000 in
  let base :=
    (PyStr.pad_num 4 (year d) ++ "-" ++ PyStr.pad_num 2 (month d) ++ "-"
     ++ PyStr.pad_num 2 (day d) ++ "T" ++ PyStr.pad_num 2 (secs / 3600) ++ ":"
     ++ PyStr.pad_num 2 (secs / 60 mod 60) ++ ":"
     ++ PyStr.pad_num 2 (secs mod 60))%string in
  let frac :=
    if us =? 0 then "" else ("." ++ PyStr.pad_num 6 us)%string in
  let off :=
    match tzinfo d with
    | None => ""
    | Some o =>
        let m := Z.abs o / 60000000 in
        let sign := if o <? 0 then "-" else "+" in
        (sign ++ PyStr.pad_num 2 (m / 60) ++ ":"
         ++ PyStr.pad_num 2 (m mod 60))%string
    end in
  (base ++ frac ++ off)%string.

(** ** JSON values, as [json.loads] builds them and Python reads them *)

#[local] Set Warnings "-register-all".
Inductive json : Type :=
| JNull
| JBool (b : bool)
| JInt (n : Z)
| JFloat (mantissa exponent : Z)
| JStr (s : string)
| JArr (items : list json)
| JObj (fields : list (string * json)).

Module PyJson.

Fixpoint assoc (k : string) (l : list (string * json)) : option json :=
  match l with
  | [] => None
  | (k', v) :: rest => if String.eqb k k' then Some v else assoc k rest
  end.

Definition is_str (k : string) (v : json) : bool :=
  match v with JStr s => String.eqb k s | _ => false end.

(** [k in v] for a [str] key [k] *)
Definition contains (k : string) (v : json) : outcome bool :=
  match v with
  | JObj l => Returned (match assoc k l with Some _ => true | None => false end)
  | JArr l => Returned (existsb (is_str k) l)
  | JStr s => Returned (PyStr.contains s k)
  | _ => Raised TypeError
  end.

(** [v[k]] for a [str] key [k] *)
Definition getitem (v : json) (k : string) : outcome json :=
  match v with
  | JObj l => match assoc k l with Some x => Returned x | None => Raised KeyError end
  | _ => Raised TypeError
  end.

(** [v.get(k, default)]; only a [dict] has the method *)
Definition get_default (v : json) (k : string) (default : json) : outcome json :=
  match v with
  | JObj l => Returned (match assoc k l with Some x => x | None => default end)
  | _ => Raised AttributeError
  end.

(** [v.get(k)] *)
Definition get (v : json) (k : string) : outcome json := get_default v k JNull.

(** truth value *)
Definition truthy (v : json) : bool :=
  match v with
  | JNull => false
  | JBool b => b
  | JInt n => negb (n =? 0)
  | JFloat m _ => negb (m =? 0)
  | JStr s => PyStr.truthy s
  | JArr l => match l with [] => false | _ => true end
  | JObj l => match l with [] => false | _ => true end
  end.

(** [d[k] = v] on a [dict] held as an association list: the value is
    replaced in place when the key exists, appended otherwise. *)
Fixpoint setitem (l : list (string * json)) (k : string) (v : json)
  : list (string * json) :=
  match l with
  | [] => [(k, v)]
  | (k', v') :: rest =>
      if String.eqb k k' then (k, v) :: rest else (k', v') :: setitem rest k v
  end.

Definition of_opt_str (o : option string) : json :=
  match o with Some s => JStr s | None => JNull end.

Definition of_opt_int (o : option Z) : json :=
  match o with Some n => JInt n | None => JNull end.

End PyJson.

(** ** The stored records ([app/models.py]) *)

Module models.

Record Tenant : Type := mkTenant {
  tenant_id : string;
  tenant_name : string;
  tenant_is_active : bool;
  max_licenses : Z
}.

Record License : Type := mkLicense {
  id : string;
  license_key : string;
  license_secret : string;
  license_tenant_id : string;
  template_id : option string;
  linked_subscription : option string;
  issued_at : option datetime;
  validity_days : option Z;
  payload : json
}.

(** [Template]; [License.template_id] refers to [tpl_id]. *)
Record Template : Type := mkTemplate {
  tpl_id : string;
  tpl_name : string;
  tpl_description : option string;
  payload_schema : json;
  validation_rules : json;
  tpl_is_active : bool;
  tpl_created_at : option datetime
}.

Record MasterKey : Type := mkMasterKey {
  mk_id : string;
  public_key : string;
  private_key : string;
  is_active : bool;
  created_at : option datetime;
  updated_at : option datetime
}.

(** The values of [billing_interval]: the column is declared
    [Enum('monthly', 'yearly')] (line 163) and [schemas.BillingInterval]
    has the same two members. *)
Inductive BillingInterval : Type :=
| monthly
| yearly.

(** The [str] a value compares equal to. *)
Definition BillingInterval_value (b : BillingInterval) : string :=
  match b with
  | monthly => "monthly"
  | yearly => "yearly"
  end.

(** A [PlanDefinition] object as a query returns it. *)
Record PlanDefinition : Type := mkPlan {
  plan_id : string;
  billing_interval : BillingInterval
}.

(** A row of [plan_definitions] as the table holds it: the interval is
    stored as text. *)
Record PlanDefinitionRow : Type := mkPlanRow {
  row_id : string;
  row_billing_interval : string
}.

(** What the [Enum] type of the column makes of the stored text when a
    row is read: the value when the text is one of the two, and
    [LookupError] for any other text. *)
Definition Enum_billing_interval (stored : string) : outcome BillingInterval :=
  if String.eqb stored "monthly" then Returned monthly
  else if String.eqb stored "yearly" then Returned yearly
  else Raised LookupError.

(** The object built from a row. *)
Definition PlanDefinition_of_row (row : PlanDefinitionRow)
  : outcome PlanDefinition :=
  b <- Enum_billing_interval (row_billing_interval row) ;;
  Returned (mkPlan (row_id row) b).

Record Subscription : Type := mkSubscription {
  subscription_id : string;
  subscription_plan_id : string;
  status : string;
  issue_date : option datetime;
  end_date : option datetime
}.

(** The tables a request handler reads through its [Session]; a list
    is in the order the table returns its rows. *)
Record Db : Type := mkDb {
  tenants : list Tenant;
  licenses : list License;
  master_keys : list MasterKey;
  plan_definitions : list PlanDefinitionRow;
  subscriptions : list Subscription;
  templates : list Template
}.

(** truth value of an optional [str] column *)
Definition truthy_opt (o : option string) : bool :=
  match o with Some s => PyStr.truthy s | None => false end.

(** [db.query(License).filter(License.license_key == k).first()] *)
Definition license_by_key (db : Db) (k : string) : option License :=
  find (fun l => String.eqb (license_key l) k) (licenses db).

(** [db.query(MasterKey).first()] *)
Definition first_master_key (db : Db) : option MasterKey :=
  hd_error (master_keys db).

(** [db.query(MasterKey).filter(MasterKey.is_active == True).first()] *)
Definition active_master_key (db : Db) : option MasterKey :=
  find is_active (master_keys db).

End models.
Import models.

(** ** [app/schemas.py]: the creation request *)

Module schemas.

Record LicenseCreate : Type := mkLicenseCreate {
  tenant_id : string;
  template_id : option string;
  linked_subscription : option string;
  issued_at : option datetime;
  validity_days : option Z;
  payload : json
}.

(** The request body as it arrives.  For the optional field
    [linked_subscription] the body may leave the key out ([None]), or
    give it, possibly as [null] ([Some None]). *)
Record LicenseCreateBody : Type := mkBody {
  body_tenant_id : string;
  body_template_id : option string;
  body_linked_subscription : option (option string);
  body_issued_at : option datetime;
  body_validity_days : option Z;
  body_payload : json
}.

(** A value held in [values.data] while the model is being validated. *)
Inductive field_value : Type :=
| FStr (s : option string)
| FDate (d : option datetime)
| FInt (n : option Z).

Definition is_none (v : option field_value) : bool :=
  match v with
  | None => true
  | Some (FStr None) | Some (FDate None) | Some (FInt None) => true
  | Some _ => false
  end.

(** [values.data.get(k)] *)
Fixpoint data_get (data : list (string * field_value)) (k : string)
  : option field_value :=
  match data with
  | [] => None
  | (k', v) :: rest => if String.eqb k k' then Some v else data_get rest k
  end.

(** [LicenseCreate.validate_subscription_fields(cls, v, values)]
    ([app/schemas.py], lines 95-111) *)
Definition validate_subscription_fields
    (v : option string) (data : list (string * field_value))
  : outcome (option string) :=
  let linked_subscription := v in
  let issued_at := data_get data "issued_at" in
  let validity_days := data_get data "validity_days" in
  if truthy_opt linked_subscription then
    if negb (is_none issued_at) || negb (is_none validity_days)
    then Raised ValueError
    else Returned v
  else
    if is_none issued_at || is_none validity_days
    then Raised ValueError
    else Returned v.

(** Validation of a body into a [LicenseCreate].  The fields are
    validated in the order the class declares them (tenant_id,
    template_id, linked_subscription, issued_at, validity_days,
    payload); a field validator sees in [values.data] the fields
    validated before its own, and it runs only on a value the body
    gives, not on the default.  [validity_days] carries [gt=0]. *)
Definition validate (b : LicenseCreateBody) : outcome LicenseCreate :=
  let data0 := [("tenant_id", FStr (Some (body_tenant_id b)));
                ("template_id", FStr (body_template_id b))] in
  linked <- match body_linked_subscription b with
            | None => Returned None
            | Some v => validate_subscription_fields v data0
            end ;;
  days <- match body_validity_days b with
          | None => Returned None
          | Some n => if 0 <? n then Returned (Some n) else Raised ValueError
          end ;;
  Returned (mkLicenseCreate (body_tenant_id b) (body_template_id b) linked
              (body_issued_at b) days (body_payload b)).

End schemas.

(** The expressions on dates that every call site repeats. *)

(** [x.year], [x - y] ... on an attribute that may be [None] *)
Definition attr_of_date (d : option datetime) : outcome datetime :=
  match d with Some x => Returned x | None => Raised AttributeError end.

(** [(subscription.end_date - subscription.issue_date).days]; the
    subtraction of [None] is a TypeError. *)
Definition end_minus_issue_days (e : datetime) (i : option datetime) : outcome Z :=
  match i with
  | None => Raised TypeError
  | Some i => t <- dt_sub e i ;; Returned (td_days t)
  end.

(** [calendar.monthrange(issue_date.year, issue_date.month)[1]] *)
Definition monthly_days (i : datetime) : outcome Z :=
  monthrange_ndays (year i) (month i).

(** [next_year_date = issue_date.replace(year=issue_date.year + 1)]
    [(next_year_date - issue_date).days] *)
Definition yearly_days (i : datetime) : outcome Z :=
  next_year_date <- replace_year i (year i + 1) ;;
  t <- dt_sub next_year_date i ;;
  Returned (td_days t).

(** ** [app/crud.py] *)

Module crud.

(** [get_tenant] *)
Definition get_tenant (db : Db) (tid : string) : option Tenant :=
  find (fun t => String.eqb (tenant_id t) tid) (tenants db).

(** [get_subscription] *)
Definition get_subscription (db : Db) (sid : string) : option Subscription :=
  find (fun s => String.eqb (subscription_id s) sid) (subscriptions db).

(** [get_plan_definition]: the first row with that identifier, read
    into an object; a row whose interval is outside the [Enum] cannot
    be read. *)
Definition get_plan_definition (db : Db) (pid : string)
  : outcome (option PlanDefinition) :=
  match find (fun p => String.eqb (row_id p) pid) (plan_definitions db) with
  | Some row => plan <- PlanDefinition_of_row row ;; Returned (Some plan)
  | None => Returned None
  end.

(** [get_tenant_license_count] *)
Definition get_tenant_license_count (db : Db) (tid : string) : Z :=
  Z.of_nat (List.length
    (filter (fun l => String.eqb (license_tenant_id l) tid) (licenses db))).

(** The relationship attribute [subscription.plan]: the plan row the
    subscription refers to, read on access. *)
Definition subscription_plan (db : Db) (s : Subscription)
  : outcome (option PlanDefinition) :=
  get_plan_definition db (subscription_plan_id s).

(** The window [create_license] writes into [license_data] when the
    request names a subscription: [issued_at] and [validity_days]
    ([app/crud.py], lines 99-131). *)
Definition create_license_window (db : Db) (sid : string)
  : outcome (option datetime * option Z) :=
  match get_subscription db sid with
  | None => Raised ValueError
  | Some subscription =>
      days <-
        match end_date subscription with
        | Some e => end_minus_issue_days e (issue_date subscription)
        | None =>
            plan <- get_plan_definition db (subscription_plan_id subscription) ;;
            match plan, issue_date subscription with
            | Some plan, Some i =>
                if String.eqb (BillingInterval_value (billing_interval plan)) "monthly"
                then monthly_days i
                else if String.eqb (BillingInterval_value (billing_interval plan)) "yearly"
                then yearly_days i
                else Returned 30
            | _, _ => Returned 30
            end
        end ;;
      Returned (issue_date subscription, Some days)
  end.

(** [create_license(db, license)] ([app/crud.py], lines 85-142).
    [keypair] is what
    [generate_license_keypair()] returns and [new_id] the primary key
    the column default draws.  The result is the stored record and the
    tables after [db.add] / [db.commit]. *)
Definition create_license (db : Db) (license : schemas.LicenseCreate)
    (keypair : string * string) (new_id : string) : outcome (License * Db) :=
  let '(license_key, license_secret) := keypair in
  window <-
    (match schemas.linked_subscription license with
     | Some sid =>
         if PyStr.truthy sid then create_license_window db sid
         else Returned (schemas.issued_at license, schemas.validity_days license)
     | None => Returned (schemas.issued_at license, schemas.validity_days license)
     end) ;;
  let db_license :=
    mkLicense new_id license_key license_secret
      (schemas.tenant_id license) (schemas.template_id license)
      (schemas.linked_subscription license) (fst window) (snd window)
      (schemas.payload license) in
  Returned (db_license,
            mkDb (tenants db) (licenses db ++ [db_license]) (master_keys db)
                 (plan_definitions db) (subscriptions db) (templates db)).

End crud.


(** ** [base64] and [os.urandom] *)

Definition bytes : Type := list Byte.byte.

Module Base64.

Definition alphabet : string :=
  "ABCDEFGHIJKLMNOPQRSTUVWXYZabcdefghijklmnopqrstuvwxyz0123456789+/".

Definition PAD : ascii := "="%char.

(** [table_b2a_base64] *)
Definition b2a (n : nat) : ascii :=
  match String.get n alphabet with Some c => c | None => PAD end.

Fixpoint index_of (c : ascii) (s : string) (i : nat) : option nat :=
  match s with
  | EmptyString => None
  | String c' rest => if Ascii.eqb c c' then Some i else index_of c rest (S i)
  end.

(** [table_a2b_base64]: the value of an alphabet character *)
Definition a2b (c : ascii) : option nat := index_of c alphabet 0.

Definition byte_of_nat (n : nat) : Byte.byte :=
  match Byte.of_nat (n mod 256) with Some b => b | None => Byte.x00 end.

(** [binascii.b2a_base64(s, newline=False)], which is what
    [base64.b64encode] returns *)
Fixpoint b64encode (l : bytes) : string :=
  match l with
  | [] => EmptyString
  | [x] =>
      let a := Byte.to_nat x in
      String (b2a (a / 4)) (String (b2a ((a mod 4) * 16))
        (String PAD (String PAD EmptyString)))
  | [x; y] =>
      let a := Byte.to_nat x in let b := Byte.to_nat y in
      String (b2a (a / 4)) (String (b2a ((a mod 4) * 16 + b / 16))
        (String (b2a ((b mod 16) * 4)) (String PAD EmptyString)))
  | x :: y :: z :: rest =>
      let a := Byte.to_nat x in let b := Byte.to_nat y in
      let c := Byte.to_nat z in
      String (b2a (a / 4)) (String (b2a ((a mod 4) * 16 + b / 16))
        (String (b2a ((b mod 16) * 4 + c / 64))
          (String (b2a (c mod 64)) (b64encode rest))))
  end%nat.

(** The loop of [binascii.a2b_base64] with [strict_mode] off: a
    character outside the alphabet is skipped, a pad that completes a
    quad ends the parse, a quad left open at the end is an error.
    [acc] holds the bytes written so far, last first. *)
Fixpoint a2b_loop (s : string) (quad_pos leftchar pads : nat) (acc : bytes)
  : outcome bytes :=
  match s with
  | EmptyString =>
      if Nat.eqb quad_pos 0 then Returned (rev acc) else Raised BinasciiError
  | String this_ch rest =>
      if Ascii.eqb this_ch PAD then
        if Nat.leb 2 quad_pos then
          if Nat.leb 4 (quad_pos + S pads) then Returned (rev acc)
          else a2b_loop rest quad_pos leftchar (S pads) acc
        else a2b_loop rest quad_pos leftchar pads acc
      else
        match a2b this_ch with
        | None => a2b_loop rest quad_pos leftchar pads acc
        | Some v =>
            match quad_pos with
            | 0 => a2b_loop rest 1 v 0 acc
            | 1 => a2b_loop rest 2 (v mod 16) 0
                     (byte_of_nat (leftchar * 4 + v / 16) :: acc)
            | 2 => a2b_loop rest 3 (v mod 4) 0
                     (byte_of_nat (leftchar * 16 + v / 4) :: acc)
            | _ => a2b_loop rest 0 0 0
                     (byte_of_nat (leftchar * 64 + v) :: acc)
            end
        end
  end%nat.

Fixpoint all_ascii (s : string) : bool :=
  match s with
  | EmptyString => true
  | String c rest => (nat_of_ascii c <? 128)%nat && all_ascii rest
  end.

(** [base64.b64decode(s)] on a [str]: the text must be ASCII
    ([ValueError] otherwise), then [binascii.a2b_base64]. *)
Definition b64decode (s : string) : outcome bytes :=
  if all_ascii s then a2b_loop s 0 0 0 [] else Raised ValueError.

End Base64.

(** The number of colons in a text. *)
Fixpoint count_colon (s : string) : nat :=
  match s with
  | EmptyString => O
  | String c rest => ((if Ascii.eqb c ":"%char then 1 else 0) + count_colon rest)%nat
  end.

(** An entropy source: the bytes [os.urandom] and the padding schemes
    will draw, in order. *)
Definition entropy : Type := nat -> Byte.byte.

(** [os.urandom(n)]: the next [n] bytes, and the source after them. *)
Definition urandom (n : nat) (e : entropy) : bytes * entropy :=
  (map e (seq 0 n), fun i => e (i + n)%nat).

(** ** [app/crypto_utils.py] *)

Module crypto_utils.

(** What the code takes from the [cryptography] package and from the
    [str] codec: RSA keys with their DER form, RSA-OAEP and RSA-PSS with
    SHA-256, AES-GCM, and UTF-8. *)
Class Primitives : Type := {
  public_key_t : Type;
  private_key_t : Type;
  (** [rsa.generate_private_key(public_exponent=65537, key_size=2048)] *)
  generate_private_key : entropy -> private_key_t * entropy;
  (** [private_key.public_key()] *)
  public_key_of : private_key_t -> public_key_t;
  (** [public_bytes(DER, SubjectPublicKeyInfo)] *)
  public_bytes : public_key_t -> bytes;
  (** [private_bytes(DER, PKCS8, NoEncryption())] *)
  private_bytes : private_key_t -> bytes;
  load_der_public_key : bytes -> outcome public_key_t;
  load_der_private_key : bytes -> outcome private_key_t;
  (** [public_key.encrypt(m, OAEP(MGF1(SHA256), SHA256, None))] *)
  oaep_encrypt : public_key_t -> entropy -> bytes -> outcome bytes;
  (** [private_key.decrypt(c, OAEP(...))] *)
  oaep_decrypt : private_key_t -> bytes -> outcome bytes;
  (** [private_key.sign(m, PSS(MGF1(SHA256), MAX_LENGTH), SHA256())] *)
  pss_sign : private_key_t -> entropy -> bytes -> outcome bytes;
  (** [public_key.verify(sig, m, PSS(...), SHA256())]; raises on a bad
      signature *)
  pss_verify : public_key_t -> bytes -> bytes -> outcome unit;
  (** [Cipher(AES(key), GCM(iv)).encryptor()]: [update(m) + finalize()]
      and [.tag] *)
  aes_gcm_encrypt : bytes -> bytes -> bytes -> outcome (bytes * bytes);
  (** [Cipher(AES(key), GCM(iv, tag)).decryptor()]: [update(c) + finalize()] *)
  aes_gcm_decrypt : bytes -> bytes -> bytes -> bytes -> outcome bytes;
  (** [s.encode('utf-8')] and [b.decode('utf-8')] *)
  utf8_encode : string -> outcome bytes;
  utf8_decode : bytes -> outcome string
}.

(** The contracts of those primitives. *)
Class PrimitiveLaws (P : Primitives) : Prop := {
  load_public_bytes :
    forall pk, load_der_public_key (public_bytes pk) = Returned pk;
  load_private_bytes :
    forall sk, load_der_private_key (private_bytes sk) = Returned sk;
  oaep_roundtrip :
    forall sk e m, (List.length m <= 190)%nat ->
      exists c, oaep_encrypt (public_key_of sk) e m = Returned c
                /\ oaep_decrypt sk c = Returned m;
  pss_roundtrip :
    forall sk e m,
      exists sg, pss_sign sk e m = Returned sg
                 /\ pss_verify (public_key_of sk) sg m = Returned tt;
  gcm_roundtrip :
    forall key iv m, List.length key = 32%nat -> List.length iv = 12%nat ->
      exists c tag, aes_gcm_encrypt key iv m = Returned (c, tag)
                    /\ List.length tag = 16%nat
                    /\ aes_gcm_decrypt key iv tag c = Returned m;
  utf8_roundtrip :
    forall s, exists b, utf8_encode s = Returned b /\ utf8_decode b = Returned s
}.

Section WithPrimitives.
Context {P : Primitives}.

(** [generate_rsa_keypair()]; [generate_license_keypair()] has the
    same body. *)
Definition generate_rsa_keypair (e : entropy) : (string * string) * entropy :=
  let '(private_key, e') := generate_private_key e in
  let public_key := public_key_of private_key in
  let public_der := public_bytes public_key in
  let private_der := private_bytes private_key in
  ((Base64.b64encode public_der, Base64.b64encode private_der), e').

Definition generate_license_keypair (e : entropy) : (string * string) * entropy :=
  let '(private_key, e') := generate_private_key e in
  let private_der := private_bytes private_key in
  let public_key := public_key_of private_key in
  let public_der := public_bytes public_key in
  ((Base64.b64encode public_der, Base64.b64encode private_der), e').

(** [sign_payload(payload, license_secret)] (lines 59-82) *)
Definition sign_payload (e : entropy) (payload license_secret : string)
  : outcome string :=
  private_der <- Base64.b64decode license_secret ;;
  private_key <- load_der_private_key private_der ;;
  m <- utf8_encode payload ;;
  signature <- pss_sign private_key e m ;;
  Returned (Base64.b64encode signature).

(** [base64.b64decode(x)] on a value read from JSON: anything but a
    [str] is a TypeError. *)
Definition b64decode_json (x : json) : outcome bytes :=
  match x with
  | JStr s => Base64.b64decode s
  | _ => Raised TypeError
  end.

(** [verify_signature(payload, signature, license_key)] (lines
    85-110): loading the
    key is outside the [try]; everything the bare [except] covers
    answers [False]. *)
Definition verify_signature (payload : string) (signature : json)
    (license_key : string) : outcome bool :=
  public_der <- Base64.b64decode license_key ;;
  public_key <- load_der_public_key public_der ;;
  try_except
    (sg <- b64decode_json signature ;;
     m <- utf8_encode payload ;;
     pss_verify public_key sg m ;;;
     Returned true)
    (fun _ => Returned false).

(** [hybrid_encrypt(data, rsa_public_key_b64)] (lines 243-277) *)
Definition hybrid_encrypt (e : entropy) (data rsa_public_key_b64 : string)
  : outcome string :=
  let '(aes_key, e) := urandom 32 e in
  let '(iv, e) := urandom 12 e in
  m <- utf8_encode data ;;
  ct <- aes_gcm_encrypt aes_key iv m ;;
  let '(ciphertext, tag) := ct in
  let aes_encrypted := iv ++ tag ++ ciphertext in
  rsa_public_der <- Base64.b64decode rsa_public_key_b64 ;;
  rsa_public_key <- load_der_public_key rsa_public_der ;;
  encrypted_aes_key <- oaep_encrypt rsa_public_key e aes_key ;;
  Returned (Base64.b64encode encrypted_aes_key ++ ":"
            ++ Base64.b64encode aes_encrypted)%string.

(** [s.split(":", 1)]: the text before the first colon and, when
    there is one, the text after it. *)
Fixpoint split_colon (s : string) : string * option string :=
  match s with
  | EmptyString => (EmptyString, None)
  | String c rest =>
      if Ascii.eqb c ":"%char then (EmptyString, Some rest)
      else let '(a, b) := split_colon rest in (String c a, b)
  end.

(** [hybrid_decrypt(encrypted_data, rsa_private_key_b64)] (lines
    279-316) *)
Definition hybrid_decrypt (encrypted_data rsa_private_key_b64 : string)
  : outcome string :=
  match split_colon encrypted_data with
  | (_, None) => Raised ValueError
  | (encrypted_aes_key_b64, Some aes_encrypted_b64) =>
      rsa_private_der <- Base64.b64decode rsa_private_key_b64 ;;
      rsa_private_key <- load_der_private_key rsa_private_der ;;
      encrypted_aes_key <- Base64.b64decode encrypted_aes_key_b64 ;;
      aes_key <- oaep_decrypt rsa_private_key encrypted_aes_key ;;
      aes_encrypted <- Base64.b64decode aes_encrypted_b64 ;;
      let iv := firstn 12 aes_encrypted in
      let tag := firstn 16 (skipn 12 aes_encrypted) in
      let ciphertext := skipn 28 aes_encrypted in
      plaintext <- aes_gcm_decrypt aes_key iv tag ciphertext ;;
      utf8_decode plaintext
  end.

End WithPrimitives.

End crypto_utils.

(** ** [app/routers/licenses.py] *)

Module routers_licenses.

Import crud crypto_utils.

(** What the handlers take from [json], [str] and [datetime]:
    [json.dumps(x, separators=(',', ':'))], [json.loads], [str(x)] on a
    decoded value, and [datetime.fromisoformat]. *)
Class Runtime : Type := {
  json_dumps : json -> string;
  json_loads : string -> outcome json;
  py_str : json -> string;
  fromisoformat : string -> outcome datetime
}.

(** [str(e)], the message of an exception (only its place in a reply
    matters here). *)
Definition str_exn (e : exn) : string :=
  match e with
  | TypeError => "TypeError"
  | ValueError => "ValueError"
  | AttributeError => "AttributeError"
  | KeyError => "KeyError"
  | LookupError => "LookupError"
  | UnboundLocalError => "UnboundLocalError"
  | OverflowError => "OverflowError"
  | UnicodeError => "UnicodeError"
  | BinasciiError => "binascii.Error"
  | InvalidTag => "InvalidTag"
  | CryptoError => "CryptoError"
  | JSONDecodeError => "JSONDecodeError"
  | IOError => "IOError"
  | RequestException => "RequestException"
  | HTTPException _ detail => detail
  end.

(** White space for [str.strip()]: a character of a [string] is a code
    point below 256, and among these [str.isspace] holds of 9-13,
    28-32, 133 (next line) and 160 (no-break space). *)
Definition is_space (c : ascii) : bool :=
  let n := nat_of_ascii c in
  ((9 <=? n) && (n <=? 13) || (28 <=? n) && (n <=? 32)
   || (n =? 133) || (n =? 160))%nat.

Fixpoint lstrip (s : string) : string :=
  match s with
  | String c rest => if is_space c then lstrip rest else s
  | EmptyString => EmptyString
  end.

Fixpoint rstrip (s : string) : string :=
  match s with
  | EmptyString => EmptyString
  | String c rest =>
      match rstrip rest with
      | EmptyString => if is_space c then EmptyString else String c EmptyString
      | r => String c r
      end
  end.

(** [s.strip()] *)
Definition strip (s : string) : string := rstrip (lstrip s).

(** [s.replace('Z', '+00:00')] *)
Fixpoint replace_Z (s : string) : string :=
  match s with
  | EmptyString => EmptyString
  | String c rest =>
      if Ascii.eqb c "Z"%char then ("+00:00" ++ replace_Z rest)%string
      else String c (replace_Z rest)
  end.

(** [datetime.now(timezone.utc)]: the clock reading, aware, in UTC. *)
Definition now_utc (clock : datetime) : datetime := replace_tz_utc clock.

(** *** [get_master_keys] *)

Definition json_of_date (d : option datetime) : json :=
  match d with Some x => JStr (isoformat x) | None => JNull end.

(** The lines that compute [private_key_masked] (lines 77-86). *)
Definition private_key_masked (db : Db) : string :=
  match first_master_key db with
  | Some master_key_record =>
      let private_key := private_key master_key_record in
      if PyStr.truthy private_key then
        if 40 <? PyStr.len private_key
        then (PyStr.take 20 private_key ++ "..." ++ PyStr.take_last 20 private_key)%string
        else private_key
      else "Not generated"
  | None => "Not generated"
  end.

Definition master_key_entry (masked : string) (mk : MasterKey) : json :=
  JObj [("id", JStr (mk_id mk));
        ("public_key", JStr (public_key mk));
        ("private_key_masked", JStr masked);
        ("is_active", JBool (is_active mk));
        ("created_at", json_of_date (created_at mk));
        ("updated_at", json_of_date (updated_at mk))].

(** [get_master_keys] (lines 71-96); [is_superuser] is the flag of the
    current user. *)
Definition get_master_keys (db : Db) (is_superuser : bool) : outcome (list json) :=
  if negb is_superuser
  then Raised (HTTPException 403 "Superuser access required")
  else Returned (map (master_key_entry (private_key_masked db)) (master_keys db)).

(** *** [issue_license_file] *)

(** [validity_days] and [expires_at] as the handler leaves them before
    it builds the claims (lines 203-233). *)
Definition issue_window (db : Db) (db_license : License)
  : outcome (option Z * option string) :=
  let validity_days := validity_days db_license in
  match linked_subscription db_license with
  | None => Returned (validity_days, None)
  | Some sid =>
    if negb (PyStr.truthy sid) then Returned (validity_days, None) else
    match get_subscription db sid with
    | None => Returned (validity_days, None)
    | Some subscription =>
      match end_date subscription with
      | Some e =>
          days <- end_minus_issue_days e (issue_date subscription) ;;
          Returned (Some days, Some (isoformat e))
      | None =>
          related <- subscription_plan db subscription ;;
          match related, issue_date subscription with
          | Some _, Some i =>
              plan <- get_plan_definition db (subscription_plan_id subscription) ;;
              match plan with
              | None => Returned (validity_days, None)
              | Some plan =>
                  validity_days <-
                    (if String.eqb (BillingInterval_value (billing_interval plan))
                          "monthly"
                     then d <- monthly_days i ;; Returned (Some d)
                     else if String.eqb (BillingInterval_value (billing_interval plan))
                               "yearly"
                     then d <- yearly_days i ;; Returned (Some d)
                     else Returned validity_days) ;;
                  (* [validity_days - 1]: TypeError on [None] *)
                  n <- match validity_days with
                       | Some n => Returned n
                       | None => Raised TypeError
                       end ;;
                  t <- timedelta_days (n - 1) ;;
                  expiry_date <- dt_add i t ;;
                  Returned (validity_days, Some (isoformat expiry_date))
              end
          | _, _ => Returned (validity_days, None)
          end
      end
    end
  end.

(** [license_data["license"]] as built and then completed with
    [expires_at] (lines 235-250). *)
Definition issue_claims (db_license : License)
    (validity_days : option Z) (expires_at : option string) : json :=
  let fields :=
    [("id", JStr (id db_license));
     ("tenant_id", JStr (license_tenant_id db_license));
     ("linked_subscription", PyJson.of_opt_str (linked_subscription db_license));
     ("issued_at", json_of_date (issued_at db_license));
     ("validity_days", PyJson.of_opt_int validity_days);
     ("payload", payload db_license)] in
  match expires_at with
  | Some s =>
      if PyStr.truthy s then JObj (PyJson.setitem fields "expires_at" (JStr s))
      else JObj fields
  | None => JObj fields
  end.

(** *** [validate_license] *)

(** Inside [validate_license] the statement
    [from datetime import datetime, timezone] binds the local name
    [datetime] to the class, so the later [datetime.timedelta] is an
    attribute the class does not have. *)
Definition datetime_class_timedelta : outcome (Z -> outcome timedelta) :=
  Raised AttributeError.

Definition invalid_reply (error details : string) : json :=
  JObj [("valid", JBool false); ("error", JStr error); ("details", JStr details)].

(** [strftime('%Y-%m-%d')] *)
Definition strftime_ymd (d : datetime) : string :=
  (PyStr.pad_num 4 (year d) ++ "-" ++ PyStr.pad_num 2 (month d) ++ "-"
   ++ PyStr.pad_num 2 (day d))%string.

(** The reply for a license found valid. *)
Definition valid_reply (db_license : License) (issued_at : datetime)
    (validity_days : option Z) (expiry_date : datetime) : json :=
  JObj [("valid", JBool true);
        ("license",
         JObj [("id", JStr (id db_license));
               ("license_key",
                JStr (if 50 <? PyStr.len (license_key db_license)
                      then (PyStr.take 50 (license_key db_license) ++ "...")%string
                      else license_key db_license));
               ("tenant_id", JStr (license_tenant_id db_license));
               ("template_id", PyJson.of_opt_str (template_id db_license));
               ("linked_subscription",
                PyJson.of_opt_str (linked_subscription db_license));
               ("issued_at", JStr (isoformat issued_at));
               ("validity_days", PyJson.of_opt_int validity_days);
               ("expires_at", JStr (isoformat expiry_date));
               ("payload", payload db_license)]);
        ("message", JStr "License is valid and active")].

(** The last step: [if expiry_date and now > expiry_date] (lines
    504-527). *)
Definition validate_license_verdict (db_license : License) (now issued_at : datetime)
    (validity_days : option Z) (expiry_date : datetime) : outcome json :=
  expired <- dt_gt now expiry_date ;;
  if expired
  then Returned (invalid_reply "License has expired"
                   ("Expired on " ++ strftime_ymd expiry_date)%string)
  else Returned (valid_reply db_license issued_at validity_days expiry_date).

(** The branch for a license linked to a subscription, after the
    subscription was found active (lines 462-495). *)
Definition validate_license_linked (db : Db) (now : datetime)
    (db_license : License) (subscription : Subscription) : outcome json :=
  issued_at <- attr_of_date (issue_date subscription) ;;
  let issued_at := ensure_aware issued_at in
  validity_days <-
    match end_date subscription with
    | Some e =>
        d <- end_minus_issue_days e (issue_date subscription) ;; Returned (Some d)
    | None =>
        related <- subscription_plan db subscription ;;
        match related with
        | None => Returned (validity_days db_license)
        | Some _ =>
            plan <- get_plan_definition db (subscription_plan_id subscription) ;;
            match plan, issue_date subscription with
            | Some plan, Some i =>
                if String.eqb (BillingInterval_value (billing_interval plan)) "monthly"
                then d <- monthly_days i ;; Returned (Some d)
                else if String.eqb (BillingInterval_value (billing_interval plan))
                          "yearly"
                then d <- yearly_days i ;; Returned (Some d)
                else Returned (Some 30)
            | _, _ => Returned (validity_days db_license)
            end
        end
    end ;;
  expiry_date <-
    match end_date subscription with
    | Some e => Returned (ensure_aware e)
    | None =>
        (* [issued_at + datetime.timedelta(days=validity_days - 1)] *)
        mk <- datetime_class_timedelta ;;
        n <- match validity_days with
             | Some n => Returned n | None => Raised TypeError end ;;
        t <- mk (n - 1) ;;
        dt_add issued_at t
    end ;;
  validate_license_verdict db_license now issued_at validity_days expiry_date.

(** The branch for a license with its own dates (lines 497-502). *)
Definition validate_license_own (now : datetime) (db_license : License)
  : outcome json :=
  issued_at <- attr_of_date (issued_at db_license) ;;
  let issued_at := ensure_aware issued_at in
  (* [issued_at + datetime.timedelta(days=db_license.validity_days)] *)
  mk <- datetime_class_timedelta ;;
  n <- match validity_days db_license with
       | Some n => Returned n | None => Raised TypeError end ;;
  t <- mk n ;;
  expiry_date <- dt_add issued_at t ;;
  validate_license_verdict db_license now issued_at (validity_days db_license)
    expiry_date.

(** [validate_license(license_key, db)] (lines 418-532).  An
    [HTTPException] raised in
    the body is raised again; any other exception becomes an
    [HTTPException] with status 500. *)
Definition validate_license (db : Db) (clock : datetime) (license_key : string)
  : outcome json :=
  let body :=
    match license_by_key db license_key with
    | None => Raised (HTTPException 404 "License not found")
    | Some db_license =>
        let inactive :=
          invalid_reply "License is inactive"
            "Associated tenant is inactive or not found" in
        match get_tenant db (license_tenant_id db_license) with
        | None => Returned inactive
        | Some tenant =>
            if negb (tenant_is_active tenant) then Returned inactive else
            let now := now_utc clock in
            match linked_subscription db_license with
            | None => validate_license_own now db_license
            | Some sid =>
                if negb (PyStr.truthy sid) then validate_license_own now db_license
                else
                  match get_subscription db sid with
                  | None =>
                      Returned (invalid_reply "License validation failed"
                                  "Linked subscription not found")
                  | Some subscription =>
                      if negb (String.eqb (status subscription) "active")
                      then Returned (invalid_reply "License is inactive"
                                       ("Linked subscription is "
                                        ++ status subscription)%string)
                      else validate_license_linked db now db_license subscription
                  end
            end
        end
    end in
  try_except body
    (fun e => if is_http_exception e then Raised e
              else Raised (HTTPException 500
                             ("Validation error: " ++ str_exn e)%string)).

(** *** [validate_license_file] *)

Definition failed_reply (error : string) : json :=
  JObj [("parsing", JStr "failed");
        ("validity", JStr "invalid");
        ("signature", JStr "verification_failed");
        ("error", JStr error)].

(** Inside [validate_license_file] the statements
    [from datetime import timedelta] (in the [end_date] branch and in
    the yearly branch) make [timedelta] a local name of the whole
    function; it has a value only once one of them has run. *)
Definition local_timedelta (bound : bool) : outcome (Z -> outcome timedelta) :=
  if bound then Returned timedelta_days else Raised UnboundLocalError.

(** [x - 1] on a number read from JSON (an integer or a boolean; a
    fractional day count is not followed further). *)
Definition json_minus_one (x : json) : outcome Z :=
  match x with
  | JInt n => Returned (n - 1)
  | JBool b => Returned ((if b then 1 else 0) - 1)
  | _ => Raised TypeError
  end.

(** The inner [try] of step 6 for claims that name a subscription
    (lines 617-662); the result is [validity_status], which starts as
    ["invalid"]. *)
Definition file_validity_linked (db : Db) (now : datetime) (sid : string)
  : outcome string :=
  match get_subscription db sid with
  | None => Returned "invalid"
  | Some subscription =>
    if negb (String.eqb (status subscription) "active") then Returned "invalid" else
    i <- attr_of_date (issue_date subscription) ;;
    let issued_at := ensure_aware i in
    match end_date subscription with
    | Some e =>
        (* [validity_days] and [expiry_date] are computed; no comparison
           with [now] follows, [validity_status] keeps its value *)
        validity_days <- end_minus_issue_days e (issue_date subscription) ;;
        let expiry_date := ensure_aware e in
        Returned "invalid"
    | None =>
        related <- subscription_plan db subscription ;;
        match related with
        | None => Returned "invalid"
        | Some _ =>
            plan <- get_plan_definition db (subscription_plan_id subscription) ;;
            match plan with
            | None => Returned "invalid"
            | Some plan =>
                w <-
                  (if String.eqb (BillingInterval_value (billing_interval plan))
                        "monthly"
                   then d <- monthly_days i ;; Returned (d, false)
                   else if String.eqb (BillingInterval_value (billing_interval plan))
                             "yearly"
                   then d <- yearly_days i ;; Returned (d, true)
                   else Returned (30, false)) ;;
                let '(validity_days, timedelta_bound) := w in
                mk <- local_timedelta timedelta_bound ;;
                t <- mk (validity_days - 1) ;;
                expiry_date <- dt_add issued_at t ;;
                ok <- dt_le now expiry_date ;;
                Returned (if ok then "valid" else "invalid")
            end
        end
    end
  end.

Section Handlers.
Context {P : Primitives} {R : Runtime}.

(** [issue_license_file(encoded_license_key, db)] (lines 184-282; the
    file repeats the same function at lines 717-815): the text written
    to [license.lic].  [e_sign] and [e_enc] are the entropy the signature
    and the encryption draw. *)
Definition issue_license_file (db : Db) (e_sign e_enc : entropy)
    (encoded_license_key : string) : outcome string :=
  license_key <-
    try_except
      (b <- Base64.b64decode encoded_license_key ;; utf8_decode b)
      (fun _ => Raised (HTTPException 400 "Invalid base64 encoded license key")) ;;
  match license_by_key db license_key with
  | None => Raised (HTTPException 404 "License not found")
  | Some db_license =>
      w <- issue_window db db_license ;;
      let claims := issue_claims db_license (fst w) (snd w) in
      let license_json := json_dumps claims in
      signature <- sign_payload e_sign license_json (license_secret db_license) ;;
      let license_data := JObj [("license", claims); ("signature", JStr signature)] in
      match first_master_key db with
      | None => Raised (HTTPException 500 "Master key not configured")
      | Some master_key_record =>
          let complete_json := json_dumps license_data in
          hybrid_encrypt e_enc complete_json (public_key master_key_record)
      end
  end.

(** The standard branch of step 6: claims that name no subscription
    (lines 666-695). *)
Definition file_validity_own (now : datetime) (license_info : json)
  : outcome string :=
  has_issued <- PyJson.contains "issued_at" license_info ;;
  has_days <- (if has_issued then PyJson.contains "validity_days" license_info
               else Returned false) ;;
  if has_issued && has_days then
    issued_at_str <- PyJson.getitem license_info "issued_at" ;;
    validity_days <- PyJson.getitem license_info "validity_days" ;;
    issued_at <-
      match issued_at_str with
      | JStr s =>
          match fromisoformat (replace_Z s) with
          | Raised ValueError => fromisoformat s
          | r => r
          end
      | v => fromisoformat (py_str v)
      end ;;
    let issued_at := ensure_aware issued_at in
    mk <- local_timedelta false ;;
    n <- json_minus_one validity_days ;;
    t <- mk n ;;
    expiry_date <- dt_add issued_at t ;;
    ok <- dt_le now expiry_date ;;
    Returned (if ok then "valid" else "invalid")
  else Returned "invalid".

(** Step 6, the [try] that starts after [license_info] is read (lines
    610-699). *)
Definition file_validity (db : Db) (now : datetime) (license_info : json)
  : string :=
  let block :=
    linked_subscription <- PyJson.get license_info "linked_subscription" ;;
    if PyJson.truthy linked_subscription then
      let sid := match linked_subscription with
                 | JStr x => x | v => py_str v end in
      try_except (file_validity_linked db now sid)
                 (fun _ => Returned "invalid")
    else file_validity_own now license_info in
  match block with
  | Returned v => v
  | Raised _ => "invalid"
  end.

(** Steps 5 to 7, on the decoded [license_data] (lines 598-707). *)
Definition validate_license_data (db : Db) (now : datetime)
    (db_license : License) (license_data : json) : outcome json :=
  let parsing_status := "success" in
  (* step 5 *)
  has_license <- PyJson.contains "license" license_data ;;
  has_signature <- (if has_license then PyJson.contains "signature" license_data
                    else Returned false) ;;
  signature_status <-
    (if has_license && has_signature then
       claims <- PyJson.getitem license_data "license" ;;
       let license_json := json_dumps claims in
       sg <- PyJson.getitem license_data "signature" ;;
       signature_verified <-
         verify_signature license_json sg (license_key db_license) ;;
       Returned (if signature_verified then "verified" else "verification_failed")
     else Returned "verification_failed") ;;
  (* step 6 *)
  has_license <- PyJson.contains "license" license_data ;;
  validity_status <-
    (if has_license then
       license_info <- PyJson.getitem license_data "license" ;;
       Returned (file_validity db now license_info)
     else Returned "invalid") ;;
  (* step 7 *)
  license_info <- PyJson.get_default license_data "license" (JObj []) ;;
  Returned (JObj [("parsing", JStr parsing_status);
                  ("validity", JStr validity_status);
                  ("signature", JStr signature_status);
                  ("license_info", license_info)]).

(** [validate_license_file(license_key, file, db)] (lines 534-715);
    [file] is what [file.file.read()] returns. *)
Definition validate_license_file (db : Db) (clock : datetime)
    (license_key : string) (file : bytes) : outcome json :=
  let body :=
    match (b <- Base64.b64decode license_key ;; utf8_decode b) with
    | Raised e =>
        Returned (failed_reply ("Invalid base64 license key: " ++ str_exn e)%string)
    | Returned search_key =>
      match license_by_key db search_key with
      | None => Returned (failed_reply "License key not found in database")
      | Some db_license =>
          text <- utf8_decode file ;;
          let encrypted_content := strip text in
          match first_master_key db with
          | None => Returned (failed_reply "Master key not configured")
          | Some master_key_record =>
              match (decrypted_content <-
                       hybrid_decrypt encrypted_content
                         (private_key master_key_record) ;;
                     json_loads decrypted_content) with
              | Raised e =>
                  Returned (failed_reply
                    ("Failed to decrypt or parse license file: " ++ str_exn e)%string)
              | Returned license_data =>
                  validate_license_data db (now_utc clock) db_license license_data
              end
          end
      end
    end in
  try_except body
    (fun e => Returned (failed_reply ("Unexpected error: " ++ str_exn e)%string)).

End Handlers.

End routers_licenses.

(** ** [common/models.py] *)

Module common_models.

(** [SignedLicense]: the two declared fields. *)
Record SignedLicense : Type := mkSignedLicense {
  encrypted_payload : string;
  signature : string
}.

(** The constructor called with the keys of [data] as keyword
    arguments: [data] must be a mapping, and both fields must be there
    as [str]. *)
Definition SignedLicense_init (data : json) : outcome SignedLicense :=
  match data with
  | JObj l =>
      match PyJson.assoc "encrypted_payload" l, PyJson.assoc "signature" l with
      | Some (JStr p), Some (JStr s) => Returned (mkSignedLicense p s)
      | _, _ => Raised ValueError
      end
  | _ => Raised TypeError
  end.

(** Reading a data attribute of a [SignedLicense] by name: the class
    declares [encrypted_payload] and [signature] and nothing else. *)
Definition SignedLicense_getattr (o : SignedLicense) (name : string)
  : outcome json :=
  if String.eqb name "encrypted_payload" then Returned (JStr (encrypted_payload o))
  else if String.eqb name "signature" then Returned (JStr (signature o))
  else Raised AttributeError.

End common_models.

(** ** [license_controller/main.py] *)

Module license_controller.

Import common_models.

Record Settings : Type := mkSettings {
  LICENSE_FILE_PATH : string;
  PUBLIC_KEY : string;
  FETCH_URL : string;
  RENEW_THRESHOLD_DAYS : Z;
  CHECK_INTERVAL_SECONDS : Z
}.

(** What [requests.post] returns. *)
Record Response : Type := mkResponse {
  status_code : Z;
  text : string;
  (** [resp.json()] *)
  json_body : outcome json
}.

(** How [open(path, "w")] followed by [json.dump] ends: both succeed,
    [open] fails (the file is untouched), or the dump fails after [open]
    truncated the file (what is left is [partial]). *)
Inductive write_result : Type :=
| WriteOk
| OpenFailed (e : exn)
| DumpFailed (e : exn) (partial : string).

(** What the surroundings answer during one iteration. *)
Record TickEnv : Type := mkTickEnv {
  (** [datetime.datetime.utcnow()] *)
  utcnow : datetime;
  (** an error of [open(path, "r")] or of reading, if any *)
  read_error : option exn;
  (** [requests.post(FETCH_URL, json=..., timeout=15)] *)
  post : outcome Response;
  write : write_result
}.

(** The local artifact: [None] when the path does not exist. *)
Record World : Type := mkWorld { artifact : option string }.

Inductive event : Type :=
| LogInfo (msg : string)
| LogError (msg : string)
| HttpPost (url : string) (body : json)
| Sleep (seconds : Z).

Section Controller.

(** [json.load], [json.dump] and [dateutil.parser.isoparse] *)
Variable json_loads : string -> outcome json.
Variable json_dumps : json -> string.
Variable isoparse : string -> outcome datetime.
Variable settings : Settings.

(** [days_until(expiry_iso)] *)
Definition days_until (now : datetime) (expiry_iso : json) : outcome Z :=
  match expiry_iso with
  | JStr s =>
      d <- isoparse s ;;
      t <- dt_sub d now ;;
      Returned (td_days t)
  | _ => Raised TypeError
  end.

(** [x.dict()] on the value of an attribute of a [SignedLicense]: the
    declared attributes are [str], which has no such method. *)
Definition call_dict (x : json) : outcome json :=
  match x with
  | JObj l => Returned (JObj l)
  | _ => Raised AttributeError
  end.

(** The body of the first [try] (lines 20-23), reached when the path
    exists with content [text]. *)
Definition read_license (env : TickEnv) (text : string) : outcome Z :=
  match read_error env with
  | Some e => Raised e
  | None =>
      license_data <- json_loads text ;;
      signed <- SignedLicense_init license_data ;;
      payload <- SignedLicense_getattr signed "payload" ;;
      license_json <- call_dict payload ;;
      expires_at <- PyJson.getitem license_json "expires_at" ;;
      days_until (utcnow env) expires_at
  end.

(** The first [try ... except Exception]: [remaining] and what is logged. *)
Definition check_license (env : TickEnv) (w : World) : Z * list event :=
  match artifact w with
  | None => (-1, [LogInfo "License file not found"])
  | Some text =>
      match read_license env text with
      | Returned remaining => (remaining, [LogInfo "License remaining %d days"])
      | Raised _ => (-1, [LogInfo "License invalid or missing"])
      end
  end.

(** The second [try ... except Exception]: the fetch. *)
Definition fetch_license (env : TickEnv) (w : World) : World * list event :=
  let request :=
    HttpPost (FETCH_URL settings) (JObj [("public_key", JStr (PUBLIC_KEY settings))]) in
  match post env with
  | Raised _ => (w, [request; LogError "Error calling license server: %s"])
  | Returned resp =>
      if status_code resp =? 200 then
        match json_body resp with
        | Raised _ => (w, [request; LogError "Error calling license server: %s"])
        | Returned new_lic =>
            match write env with
            | WriteOk =>
                (mkWorld (Some (json_dumps new_lic)),
                 [request; LogInfo "License updated at %s"])
            | OpenFailed _ =>
                (w, [request; LogError "Error calling license server: %s"])
            | DumpFailed _ partial =>
                (mkWorld (Some partial),
                 [request; LogError "Error calling license server: %s"])
            end
        end
      else (w, [request; LogError "Fetch failed %s %s"])
  end.

(** The test [remaining < 0 or remaining <= settings.RENEW_THRESHOLD_DAYS] *)
Definition needs_fetch (remaining : Z) : bool :=
  (remaining <? 0) || (remaining <=? RENEW_THRESHOLD_DAYS settings).

(** One iteration of [while True] (lines 13-45).  An exception that leaves the body
    would end the loop; the result says whether one does. *)
Definition tick (env : TickEnv) (w : World) : outcome (World * list event) :=
  let '(remaining, log1) := check_license env w in
  let '(w', log2) :=
    if needs_fetch remaining then
      let '(w', l) := fetch_license env w in
      (w', LogInfo "Fetching new license from server" :: l)
    else (w, []) in
  Returned (w', log1 ++ log2 ++ [Sleep (CHECK_INTERVAL_SECONDS settings)]).

(** The state of [loop()] after it was given time for [fuel] iterations. *)
Inductive loop_state : Type :=
| Running (w : World) (trace : list event)
| Stopped (e : exn) (w : World) (trace : list event).

(** [loop()], followed for [fuel] iterations; [envs k] is what the
    surroundings answer during iteration [k]. *)
Fixpoint loop (fuel : nat) (envs : nat -> TickEnv) (k : nat) (w : World)
    (trace : list event) : loop_state :=
  match fuel with
  | O => Running w trace
  | S fuel' =>
      match tick (envs k) w with
      | Raised e => Stopped e w trace
      | Returned (w', t) => loop fuel' envs (S k) w' (trace ++ t)
      end
  end.

End Controller.

End license_controller.

(** * The rest of the cited files *)

(** ** [app/crypto_utils.py]: the other helpers on RSA keys *)

Module rsa_helpers.

Import crypto_utils.

Section WithPrimitives.
Context {P : Primitives}.

(** [get_public_key_from_secret(license_secret)] (lines 38-56) *)
Definition get_public_key_from_secret (license_secret : string) : outcome string :=
  private_der <- Base64.b64decode license_secret ;;
  private_key <- load_der_private_key private_der ;;
  let public_key := public_key_of private_key in
  let public_der := public_bytes public_key in
  Returned (Base64.b64encode public_der).

(** [rsa_encrypt(data, public_key_b64)] (lines 206-222) *)
Definition rsa_encrypt (e : entropy) (data public_key_b64 : string)
  : outcome string :=
  public_der <- Base64.b64decode public_key_b64 ;;
  public_key <- load_der_public_key public_der ;;
  m <- utf8_encode data ;;
  encrypted <- oaep_encrypt public_key e m ;;
  Returned (Base64.b64encode encrypted).

(** [rsa_decrypt(encrypted_b64, private_key_b64)] (lines 224-241) *)
Definition rsa_decrypt (encrypted_b64 private_key_b64 : string) : outcome string :=
  private_der <- Base64.b64decode private_key_b64 ;;
  private_key <- load_der_private_key private_der ;;
  encrypted <- Base64.b64decode encrypted_b64 ;;
  decrypted <- oaep_decrypt private_key encrypted ;;
  utf8_decode decrypted.

End WithPrimitives.

End rsa_helpers.

(** ** [app/schemas.py]: [LicenseUpdate] and [LicenseResponse] *)

Module schemas_license.

Import schemas.

(** A [LicenseUpdate]: every field is optional, and the model keeps
    which ones the body set ([None]: the key is left out, [Some None]:
    it is [null]). *)
Record LicenseUpdate : Type := mkLicenseUpdate {
  tenant_id : option (option string);
  template_id : option (option string);
  linked_subscription : option (option string);
  issued_at : option (option datetime);
  validity_days : option (option Z);
  payload : option (option json)
}.

(** [LicenseUpdate.validate_subscription_fields(cls, v, values)]
    (lines 143-156) *)
Definition validate_subscription_fields
    (v : option string) (data : list (string * field_value))
  : outcome (option string) :=
  let linked_subscription := v in
  let issued_at := data_get data "issued_at" in
  let validity_days := data_get data "validity_days" in
  match linked_subscription with
  | Some _ =>
      if negb (is_none issued_at) || negb (is_none validity_days)
      then Raised ValueError
      else Returned v
  | None => Returned v
  end.

Definition flatten {A} (o : option (option A)) : option A :=
  match o with Some x => x | None => None end.

(** Validation of a body into a [LicenseUpdate], field by field in the
    order of the class (tenant_id, template_id, linked_subscription,
    issued_at, validity_days, payload).  The validator of
    [linked_subscription] runs on a value the body gives and sees in
    [values.data] the two fields before it; [validity_days] carries
    [gt=0] and [payload] must be a mapping. *)
Definition validate (b : LicenseUpdate) : outcome LicenseUpdate :=
  let data0 := [("tenant_id", FStr (flatten (tenant_id b)));
                ("template_id", FStr (flatten (template_id b)))] in
  linked <- match linked_subscription b with
            | None => Returned None
            | Some v => x <- validate_subscription_fields v data0 ;; Returned (Some x)
            end ;;
  days <- match validity_days b with
          | Some (Some n) =>
              if 0 <? n then Returned (Some (Some n)) else Raised ValueError
          | o => Returned o
          end ;;
  payload <- match payload b with
             | Some (Some (JObj l)) => Returned (Some (Some (JObj l)))
             | Some (Some _) => Raised ValueError
             | o => Returned o
             end ;;
  Returned (mkLicenseUpdate (tenant_id b) (template_id b) linked
              (issued_at b) days payload).

(** [LicenseResponse] (lines 165-177): what the reading endpoints
    return; it has no field for [license_secret]. *)
Record LicenseResponse : Type := mkLicenseResponse {
  resp_id : string;
  resp_license_key : string;
  resp_tenant_id : string;
  resp_tenant_name : string;
  resp_template_id : option string;
  resp_linked_subscription : option string;
  resp_issued_at : option datetime;
  resp_validity_days : option Z;
  resp_payload : json
}.

(** [LicenseResponse(id=..., ..., payload=...)]: the constructor
    validates its arguments; [validity_days] carries [gt=0] and
    [payload] must be a mapping.  A [ValidationError] is a
    [ValueError]. *)
Definition LicenseResponse_init
    (id license_key tenant_id tenant_name : string)
    (template_id linked_subscription : option string)
    (issued_at : option datetime) (validity_days : option Z) (payload : json)
  : outcome LicenseResponse :=
  let days_ok := match validity_days with Some n => 0 <? n | None => true end in
  let payload_ok := match payload with JObj _ => true | _ => false end in
  if days_ok && payload_ok
  then Returned (mkLicenseResponse id license_key tenant_id tenant_name
                   template_id linked_subscription issued_at validity_days payload)
  else Raised ValueError.

End schemas_license.

(** ** [app/crud.py]: reading and deleting licenses *)

Module crud_licenses.

Import crud.

(** [get_license(db, license_id)] (lines 76-77) *)
Definition get_license (db : Db) (license_id : string) : option License :=
  find (fun l => String.eqb (id l) license_id) (licenses db).

(** [query.offset(skip).limit(limit).all()], for the non-negative
    [skip] and [limit] the endpoints pass *)
Definition offset_limit {A} (skip limit : nat) (rows : list A) : list A :=
  firstn limit (skipn skip rows).

(** [get_licenses(db, skip, limit, tenant_id)] (lines 79-83) *)
Definition get_licenses (db : Db) (skip limit : nat) (tenant_id : option string)
  : list License :=
  let query :=
    match tenant_id with
    | Some t => filter (fun l => String.eqb (license_tenant_id l) t) (licenses db)
    | None => licenses db
    end in
  offset_limit skip limit query.

(** [get_template(db, template_id)] (lines 44-45) *)
Definition get_template (db : Db) (template_id : string) : option Template :=
  find (fun t => String.eqb (tpl_id t) template_id) (templates db).

(** The rows [db.delete(db_license)] marks for deletion beside the
    license itself: [License.template] is declared with [cascade="all"]
    ([models.py], line 53), so the template the license refers to goes
    with it; [tenant] and [subscription] carry no delete cascade. *)
Definition cascade_template (db_license : License) (rows : list Template)
  : list Template :=
  match template_id db_license with
  | Some t => filter (fun x => negb (String.eqb (tpl_id x) t)) rows
  | None => rows
  end.

(** [delete_license(db, license_id)] (lines 154-160): the answer and
    the tables after [db.delete] / [db.commit].  The default SQLite
    database enforces no foreign key, so the rows that still refer to
    a deleted template stay as they are. *)
Definition delete_license (db : Db) (license_id : string) : bool * Db :=
  match find (fun l => String.eqb (id l) license_id) (licenses db) with
  | Some db_license =>
      (true,
       mkDb (tenants db)
            (filter (fun l => negb (String.eqb (id l) (id db_license))) (licenses db))
            (master_keys db) (plan_definitions db) (subscriptions db)
            (cascade_template db_license (templates db)))
  | None => (false, db)
  end.

(** The block that recomputes [validity_days] for a license linked to
    a subscription; [get_licenses_with_tenant] (lines 178-201) and
    [get_license_with_tenant] (lines 229-252) hold the same text. *)
Definition response_validity_days (db : Db) (license : License)
  : outcome (option Z) :=
  let validity_days := validity_days license in
  match models.linked_subscription license with
  | None => Returned validity_days
  | Some sid =>
    if negb (PyStr.truthy sid) then Returned validity_days else
    match get_subscription db sid with
    | None => Returned validity_days
    | Some subscription =>
      match end_date subscription with
      | Some e =>
          days <- end_minus_issue_days e (issue_date subscription) ;;
          Returned (Some days)
      | None =>
          related <- subscription_plan db subscription ;;
          match related, issue_date subscription with
          | Some _, Some i =>
              plan <- get_plan_definition db (subscription_plan_id subscription) ;;
              match plan with
              | None => Returned validity_days
              | Some plan =>
                  if String.eqb (BillingInterval_value (billing_interval plan))
                       "monthly"
                  then d <- monthly_days i ;; Returned (Some d)
                  else if String.eqb (BillingInterval_value (billing_interval plan))
                            "yearly"
                  then d <- yearly_days i ;; Returned (Some d)
                  else Returned validity_days
              end
          | _, _ => Returned validity_days
          end
      end
    end
  end.

(** [license_dict] and the [schemas.LicenseResponse] built from it
    (lines 203-214 and 255-267); [license.tenant] is the row the
    foreign key names. *)
Definition license_response (db : Db) (license : License)
  : outcome schemas_license.LicenseResponse :=
  validity_days <- response_validity_days db license ;;
  let tenant_name :=
    match get_tenant db (license_tenant_id license) with
    | Some tenant => models.tenant_name tenant
    | None => "Unknown Tenant"
    end in
  schemas_license.LicenseResponse_init (id license) (license_key license)
    (license_tenant_id license) tenant_name (models.template_id license)
    (models.linked_subscription license) (models.issued_at license)
    validity_days (models.payload license).

(** The loop [for license in licenses: ... result.append(...)] *)
Fixpoint collect_responses (db : Db) (licenses : list License)
  : outcome (list schemas_license.LicenseResponse) :=
  match licenses with
  | [] => Returned []
  | license :: rest =>
      r <- license_response db license ;;
      result <- collect_responses db rest ;;
      Returned (r :: result)
  end.

(** [get_licenses_with_tenant(db, skip, limit, tenant_id)] (lines
    165-216) *)
Definition get_licenses_with_tenant (db : Db) (skip limit : nat)
    (tenant_id : option string)
  : outcome (list schemas_license.LicenseResponse) :=
  let query :=
    match tenant_id with
    | Some t => filter (fun l => String.eqb (license_tenant_id l) t) (licenses db)
    | None => licenses db
    end in
  let licenses := offset_limit skip limit query in
  collect_responses db licenses.

(** [get_license_with_tenant(db, license_id)] (lines 218-267) *)
Definition get_license_with_tenant (db : Db) (license_id : string)
  : outcome (option schemas_license.LicenseResponse) :=
  match find (fun l => String.eqb (id l) license_id) (licenses db) with
  | None => Returned None
  | Some license => r <- license_response db license ;; Returned (Some r)
  end.

End crud_licenses.

(** ** [app/routers/licenses.py]: the other endpoints *)

Module licenses_endpoints.

Import crypto_utils routers_licenses.

(** [create_license(license, current_user, db)] (lines 40-69): the
    answer and the tables after the request.  [keypair] and [new_id]
    are as in [crud.create_license]. *)
Definition create_license (db : Db) (license : schemas.LicenseCreate)
    (keypair : string * string) (new_id : string)
  : outcome schemas_license.LicenseResponse * Db :=
  match crud.get_tenant db (schemas.tenant_id license) with
  | None => (Raised (HTTPException 404 "Tenant not found"), db)
  | Some tenant =>
      let current_count :=
        crud.get_tenant_license_count db (schemas.tenant_id license) in
      if max_licenses tenant <=? current_count
      then (Raised (HTTPException 400 "Maximum licenses reached for this tenant"), db)
      else
        match crud.create_license db license keypair new_id with
        | Raised e => (Raised e, db)
        | Returned (db_license, db') =>
            (schemas_license.LicenseResponse_init (id db_license) (license_key db_license)
               (license_tenant_id db_license) (tenant_name tenant)
               (models.template_id db_license) None
               (models.issued_at db_license) (models.validity_days db_license)
               (models.payload db_license),
             db')
        end
  end.

(** [read_license(license_id, current_user, db)] (lines 384-393) *)
Definition read_license (db : Db) (license_id : string)
  : outcome schemas_license.LicenseResponse :=
  license_with_tenant <- crud_licenses.get_license_with_tenant db license_id ;;
  match license_with_tenant with
  | None => Raised (HTTPException 404 "License not found")
  | Some r => Returned r
  end.

(** [delete_license(license_id, current_user, db)] (lines 407-416) *)
Definition delete_license (db : Db) (license_id : string) : outcome json * Db :=
  let '(success, db') := crud_licenses.delete_license db license_id in
  if negb success
  then (Raised (HTTPException 404 "License not found"), db')
  else (Returned (JObj [("message", JStr "License deleted successfully")]), db').

(** [db.query(MasterKey).filter(MasterKey.is_active == True)
       .update({"is_active": False})]: the rows stay in place;
    [updated_at] carries [onupdate=func.now()]. *)
Definition deactivate (now : datetime) (mk : MasterKey) : MasterKey :=
  if is_active mk
  then mkMasterKey (mk_id mk) (public_key mk) (private_key mk) false
         (created_at mk) (Some now)
  else mk.

(** [db.add(new_master_key)]; [db.commit()]: the new row comes last. *)
Definition replace_active_key (now : datetime) (db : Db) (new_master_key : MasterKey)
  : Db :=
  mkDb (tenants db) (licenses db)
       (map (deactivate now) (master_keys db) ++ [new_master_key])
       (plan_definitions db) (subscriptions db) (templates db).

Definition new_master_key_reply (message : string) (mk : MasterKey) : json :=
  JObj [("message", JStr message);
        ("new_master_key",
         JObj [("id", JStr (mk_id mk));
               ("public_key", JStr (public_key mk));
               ("is_active", JBool (is_active mk));
               ("created_at", json_of_date (created_at mk))])].

Section WithPrimitives.
Context {P : Primitives}.

(** [rotate_master_key(db, current_user)] (lines 98-129).  [now] is the
    time of the database, [e] the entropy of the key generation,
    [new_id] the primary key the column default draws. *)
Definition rotate_master_key (db : Db) (is_superuser : bool)
    (now : datetime) (e : entropy) (new_id : string) : outcome json * Db :=
  if negb is_superuser
  then (Raised (HTTPException 403 "Superuser access required"), db)
  else
    let '(public_key, private_key) := fst (generate_rsa_keypair e) in
    let new_master_key :=
      mkMasterKey new_id public_key private_key true (Some now) (Some now) in
    (Returned (new_master_key_reply "Master key rotated successfully" new_master_key),
     replace_active_key now db new_master_key).

End WithPrimitives.

(** [override_master_key(public_key, private_key, db, current_user)]
    (lines 131-167) *)
Definition override_master_key (db : Db) (is_superuser : bool)
    (now : datetime) (new_id : string) (public_key private_key : string)
  : outcome json * Db :=
  if negb is_superuser
  then (Raised (HTTPException 403 "Superuser access required"), db)
  else if negb (PyStr.truthy public_key) || negb (PyStr.truthy private_key)
  then (Raised (HTTPException 400 "Both public_key and private_key are required"), db)
  else
    let new_master_key :=
      mkMasterKey new_id public_key private_key true (Some now) (Some now) in
    (Returned (new_master_key_reply "Master key overridden successfully" new_master_key),
     replace_active_key now db new_master_key).

(** [get_current_master_private_key(db, current_user)] (lines 169-181) *)
Definition get_current_master_private_key (db : Db) (is_superuser : bool)
  : outcome json :=
  if negb is_superuser
  then Raised (HTTPException 403 "Superuser access required")
  else
    match active_master_key db with
    | None => Raised (HTTPException 404 "No active master key found")
    | Some master_key_record =>
        Returned (JObj [("private_key", JStr (private_key master_key_record))])
    end.

End licenses_endpoints.

(** * The license server, the validator and the cluster client *)

(** ** [common/crypto.py] *)

Module common_crypto.

(** [bytes.hex()] *)
Definition hex_digit (n : nat) : ascii :=
  match String.get n "0123456789abcdef" with Some c => c | None => "0"%char end.

Fixpoint hex (b : bytes) : string :=
  match b with
  | [] => EmptyString
  | x :: rest =>
      String (hex_digit (Byte.to_nat x / 16))
        (String (hex_digit (Byte.to_nat x mod 16)) (hex rest))
  end.

(** The value of a hexadecimal digit, in either case. *)
Definition hex_value (c : ascii) : option nat :=
  let n := nat_of_ascii c in
  if ((48 <=? n) && (n <=? 57))%nat then Some (n - 48)%nat
  else if ((97 <=? n) && (n <=? 102))%nat then Some (n - 87)%nat
  else if ((65 <=? n) && (n <=? 70))%nat then Some (n - 55)%nat
  else None.

(** ASCII white space, as [bytes.fromhex] tests it: tab, line feed,
    vertical tab, form feed, carriage return and space. *)
Definition is_ascii_space (c : ascii) : bool :=
  let n := nat_of_ascii c in
  ((9 <=? n) && (n <=? 13) || (n =? 32))%nat.

(** [bytes.fromhex(s)]: two digits per byte, ASCII white space between
    bytes is skipped, anything else is a [ValueError]. *)
Fixpoint fromhex (s : string) : outcome bytes :=
  match s with
  | EmptyString => Returned []
  | String c rest =>
      if is_ascii_space c then fromhex rest
      else
        match rest with
        | EmptyString => Raised ValueError
        | String d rest' =>
            match hex_value c, hex_value d with
            | Some h, Some l =>
                r <- fromhex rest' ;;
                Returned (Base64.byte_of_nat (16 * h + l) :: r)
            | _, _ => Raised ValueError
            end
        end
  end.

(** What the module takes from [nacl.signing], from [cryptography] and
    from [json]. *)
Class Primitives : Type := {
  signing_key_t : Type;
  verify_key_t : Type;
  rsa_public_t : Type;
  rsa_private_t : Type;
  (** [json.dumps(data, separators=(',', ':'), sort_keys=True).encode()] *)
  dumps_sorted : json -> bytes;
  (** [json.loads(b.decode())] *)
  loads_bytes : bytes -> outcome json;
  (** [s.encode()] *)
  encode : string -> outcome bytes;
  (** [signing.SigningKey.generate()] *)
  SigningKey_generate : entropy -> signing_key_t * entropy;
  (** [signing.SigningKey(seed)], [sk.encode()], [sk.verify_key.encode()] *)
  SigningKey : bytes -> outcome signing_key_t;
  signing_key_bytes : signing_key_t -> bytes;
  verify_key_bytes : signing_key_t -> bytes;
  (** [sk.sign(m).signature] *)
  sign : signing_key_t -> bytes -> bytes;
  (** [signing.VerifyKey(b)] and [vk.verify(m, sig)], which raises on a
      bad signature *)
  VerifyKey : bytes -> outcome verify_key_t;
  verify : verify_key_t -> bytes -> bytes -> outcome unit;
  (** [rsa.generate_private_key(65537, 2048)] with the two PEM forms *)
  rsa_generate : entropy -> rsa_private_t * entropy;
  private_pem : rsa_private_t -> string;
  public_pem : rsa_private_t -> string;
  load_pem_public_key : bytes -> outcome rsa_public_t;
  load_pem_private_key : bytes -> outcome rsa_private_t;
  (** RSA-OAEP with SHA-256 *)
  encrypt : rsa_public_t -> entropy -> bytes -> outcome bytes;
  decrypt : rsa_private_t -> bytes -> outcome bytes
}.

(** The contracts of those primitives. *)
Class PrimitiveLaws (P : Primitives) : Prop := {
  SigningKey_bytes : forall sk, SigningKey (signing_key_bytes sk) = Returned sk;
  sign_verifies :
    forall sk m, exists vk,
      VerifyKey (verify_key_bytes sk) = Returned vk
      /\ verify vk m (sign sk m) = Returned tt;
  public_pem_loads :
    forall sk, exists b pk,
      encode (public_pem sk) = Returned b
      /\ load_pem_public_key b = Returned pk
      /\ forall e m, (List.length m <= 190)%nat ->
           exists c, encrypt pk e m = Returned c /\ decrypt sk c = Returned m;
  private_pem_loads :
    forall sk, exists b,
      encode (private_pem sk) = Returned b
      /\ load_pem_private_key b = Returned sk
}.

Section WithPrimitives.
Context {P : Primitives}.

(** [canonical_json(data)] (lines 10-11) *)
Definition canonical_json (data : json) : bytes := dumps_sorted data.

(** [generate_keypair()] (lines 13-15): the private half first *)
Definition generate_keypair (e : entropy) : (string * string) * entropy :=
  let '(sk, e') := SigningKey_generate e in
  ((hex (signing_key_bytes sk), hex (verify_key_bytes sk)), e').

(** [sign_payload(payload, private_key_hex)] (lines 17-20);
    [bytes.fromhex(None)] is a [TypeError]. *)
Definition sign_payload (payload : json) (private_key_hex : option string)
  : outcome string :=
  match private_key_hex with
  | None => Raised TypeError
  | Some private_key_hex =>
      seed <- fromhex private_key_hex ;;
      sk <- SigningKey seed ;;
      let signature := sign sk (canonical_json payload) in
      Returned (hex signature)
  end.

(** [verify_signature(payload, signature_hex, public_key_hex)] (lines
    22-30): every exception answers [False]. *)
Definition verify_signature (payload : json) (signature_hex public_key_hex : string)
  : bool :=
  match (b <- fromhex public_key_hex ;;
         vk <- VerifyKey b ;;
         let m := canonical_json payload in
         sg <- fromhex signature_hex ;;
         verify vk m sg) with
  | Returned _ => true
  | Raised _ => false
  end.

(** [generate_rsa_keypair()] (lines 33-51): the private PEM first. *)
Definition generate_rsa_keypair (e : entropy) : (string * string) * entropy :=
  let '(private_key, e') := rsa_generate e in
  ((private_pem private_key, public_pem private_key), e').

(** [encrypt_payload(payload, public_key_pem)] (lines 53-67) *)
Definition encrypt_payload (e : entropy) (payload : json) (public_key_pem : string)
  : outcome string :=
  pem <- encode public_key_pem ;;
  public_key <- load_pem_public_key pem ;;
  let payload_bytes := canonical_json payload in
  encrypted <- encrypt public_key e payload_bytes ;;
  Returned (hex encrypted).

(** [decrypt_payload(encrypted_hex, private_key_pem)] (lines 69-84) *)
Definition decrypt_payload (encrypted_hex private_key_pem : string) : outcome json :=
  pem <- encode private_key_pem ;;
  private_key <- load_pem_private_key pem ;;
  c <- fromhex encrypted_hex ;;
  decrypted <- decrypt private_key c ;;
  loads_bytes decrypted.

End WithPrimitives.

End common_crypto.

(** ** [license_server/main.py] *)

Module license_server.

Import common_crypto.

(** [IssueRequest] and [VerifyRequest] (lines 62-74); a [dict] is the
    list of its items. *)
Record IssueRequest : Type := mkIssueRequest {
  validator_public_key : string;
  issue_payload : list (string * json);
  expires_in_days : Z
}.

Record VerifyRequest : Type := mkVerifyRequest {
  public_key : string;
  verify_payload : list (string * json);
  verify_signature_hex : string
}.

(** [SignedResponse] *)
Record SignedResponse : Type := mkSignedResponse {
  payload : list (string * json);
  signature : string
}.

(** [s.replace('Z', '')] *)
Fixpoint remove_Z (s : string) : string :=
  match s with
  | EmptyString => EmptyString
  | String c rest =>
      if Ascii.eqb c "Z"%char then remove_Z rest else String c (remove_Z rest)
  end.

Section Server.
Context {P : Primitives}.

(** [settings.MASTER_KEY]: the environment variable, [None] when it is
    not set. *)
Variable MASTER_KEY : option string.
Variable fromisoformat : string -> outcome datetime.

(** [issue_license(req)] (lines 81-97); [now] is [utcnow()]. *)
Definition issue_license (now : datetime) (e : entropy) (req : IssueRequest)
  : outcome SignedResponse :=
  t <- timedelta_days (expires_in_days req) ;;
  expiry <- dt_add now t ;;
  let expires_at := (isoformat expiry ++ "Z")%string in
  let license_payload :=
    PyJson.setitem (issue_payload req) "expires_at" (JStr expires_at) in
  encrypted_payload <-
    encrypt_payload e (JObj license_payload) (validator_public_key req) ;;
  signature <-
    sign_payload (JObj [("encrypted_payload", JStr encrypted_payload)]) MASTER_KEY ;;
  Returned (mkSignedResponse [("encrypted_payload", JStr encrypted_payload)]
              signature).

Definition valid_reply (b : bool) : json := JObj [("valid", JBool b)].

(** The JSON body that carries a [SignedResponse]. *)
Definition SignedResponse_json (r : SignedResponse) : json :=
  JObj [("payload", JObj (payload r)); ("signature", JStr (signature r))].

(** [verify(req)] (lines 107-130); [now] is [utcnow()]; only a
    [ValueError] of the parse or the comparison is caught. *)
Definition verify (now : datetime) (req : VerifyRequest) : outcome json :=
  if negb (verify_signature (JObj (verify_payload req)) (verify_signature_hex req)
             (public_key req))
  then Returned (valid_reply false)
  else
    match PyJson.assoc "expires_at" (verify_payload req) with
    | None => Returned (valid_reply false)
    | Some expires_at =>
        let checked :=
          s <- match expires_at with
               | JStr s => Returned (remove_Z s)
               | _ => Raised AttributeError
               end ;;
          expiration_time <- fromisoformat s ;;
          expired <- dt_gt now expiration_time ;;
          Returned expired in
        match checked with
        | Returned true => Returned (valid_reply false)
        | Returned false => Returned (valid_reply true)
        | Raised ValueError => Returned (valid_reply false)
        | Raised e => Raised e
        end
    end.

End Server.

End license_server.

(** ** [license_validator/validator.py] *)

Module license_validator.

Import common_crypto common_models.

Section Validator.
Context {P : Primitives}.

(** [VALIDATOR_PRIVATE_KEY], and [json.load] and
    [datetime.fromisoformat] *)
Variable VALIDATOR_PRIVATE_KEY : string.
Variable json_loads : string -> outcome json.
Variable fromisoformat : string -> outcome datetime.

(** [x != trusted_public_key] for a value read from JSON *)
Definition differs (x : json) (s : string) : bool :=
  match x with JStr t => negb (String.eqb t s) | _ => true end.

(** The body of the [try] of [validate] (lines 27-62); [file] is what
    opening and reading the path gives. *)
Definition validate_body (trusted_public_key : string) (now : datetime)
    (file : outcome string) : outcome bool :=
  text <- file ;;
  data <- json_loads text ;;
  lic <- SignedLicense_init data ;;
  if negb (verify_signature
             (JObj [("encrypted_payload", JStr (encrypted_payload lic))])
             (signature lic) trusted_public_key)
  then Returned false
  else
    match decrypt_payload (encrypted_payload lic) VALIDATOR_PRIVATE_KEY with
    | Raised _ => Returned false
    | Returned decrypted_payload =>
        issuer <- PyJson.get decrypted_payload "issuer_public_key" ;;
        if differs issuer trusted_public_key then Returned false
        else
          expires_at <- PyJson.get decrypted_payload "expires_at" ;;
          if negb (PyJson.truthy expires_at) then Returned false
          else
            s <- match expires_at with
                 | JStr s => Returned (license_server.remove_Z s)
                 | _ => Raised AttributeError
                 end ;;
            expiration_time <- fromisoformat s ;;
            expired <- dt_gt now expiration_time ;;
            Returned (negb expired)
    end.

(** [validate(license_path)] (lines 18-67): [trusted_public_key] is
    the environment variable [TRUSTED_PUBLIC_KEY], [now] is
    [datetime.utcnow()]. *)
Definition validate (trusted_public_key : option string) (now : datetime)
    (file : outcome string) : bool :=
  match trusted_public_key with
  | None => false
  | Some trusted_public_key =>
      if negb (PyStr.truthy trusted_public_key) then false
      else
        match validate_body trusted_public_key now file with
        | Returned b => b
        | Raised _ => false
        end
  end.

End Validator.

End license_validator.

(** ** [license_controller/k8s_client.py] *)

Module k8s_client.

Section Client.
Context {P : crypto_utils.Primitives}.




End Client.

End k8s_client.


(** * A concrete setting: small stand-ins for the primitives, and tables *)

Module Toy.

Import crypto_utils routers_licenses.

Fixpoint bytes_eqb (a b : bytes) : bool :=
  match a, b with
  | [], [] => true
  | x :: a', y :: b' => Byte.eqb x y && bytes_eqb a' b'
  | _, _ => false
  end.

Definition toy_tag : bytes := repeat Byte.x2a 16.

(** Stand-ins with the interface of the primitives: a key is four
    bytes and is its own public half, encryption reverses the message,
    a signature is the key followed by the message. *)
Definition toy_primitives : Primitives := {|
  public_key_t := bytes;
  private_key_t := bytes;
  generate_private_key := urandom 4;
  public_key_of := fun sk => sk;
  public_bytes := fun pk => pk;
  private_bytes := fun sk => sk;
  load_der_public_key := fun b => Returned b;
  load_der_private_key := fun b => Returned b;
  oaep_encrypt := fun _ _ m => Returned (rev m);
  oaep_decrypt := fun _ c => Returned (rev c);
  pss_sign := fun sk _ m => Returned (sk ++ m);
  pss_verify := fun pk sg m =>
    if bytes_eqb sg (pk ++ m) then Returned tt else Raised CryptoError;
  aes_gcm_encrypt := fun _ _ m => Returned (rev m, toy_tag);
  aes_gcm_decrypt := fun _ _ tag c =>
    if bytes_eqb tag toy_tag then Returned (rev c) else Raised InvalidTag;
  utf8_encode := fun s => Returned (list_byte_of_string s);
  utf8_decode := fun b => Returned (string_of_list_byte b)
|}.

(** A compact JSON printer and a reader for what it prints (text
    without escapes, integers, arrays, objects). *)
Definition dquote : ascii := ascii_of_nat 34.

Definition quote (s : string) : string :=
  String dquote (s ++ String dquote EmptyString).

Fixpoint dumps (v : json) : string :=
  match v with
  | JNull => "null"
  | JBool true => "true"
  | JBool false => "false"
  | JInt n => NilZero.string_of_int (Z.to_int n)
  | JFloat m e =>
      (NilZero.string_of_int (Z.to_int m) ++ "e"
       ++ NilZero.string_of_int (Z.to_int e))%string
  | JStr s => quote s
  | JArr l =>
      ("[" ++ (fix items (l : list json) : string :=
                 match l with
                 | [] => EmptyString
                 | x :: r =>
                     (dumps x ++ match r with
                                 | [] => EmptyString
                                 | _ => "," ++ items r
                                 end)%string
                 end) l ++ "]")%string
  | JObj l =>
      ("{" ++ (fix fields (l : list (string * json)) : string :=
                 match l with
                 | [] => EmptyString
                 | (k, x) :: r =>
                     (quote k ++ ":" ++ dumps x
                      ++ match r with
                         | [] => EmptyString
                         | _ => "," ++ fields r
                         end)%string
                 end) l ++ "}")%string
  end.

(** [s] without the prefix [p], when it starts with it. *)
Fixpoint strip_prefix (p s : string) : option string :=
  match p, s with
  | EmptyString, _ => Some s
  | String a p', String b s' => if Ascii.eqb a b then strip_prefix p' s' else None
  | _, EmptyString => None
  end.

(** The text up to the next double quote, and what follows the quote. *)
Fixpoint until_quote (s : string) : option (string * string) :=
  match s with
  | EmptyString => None
  | String c r =>
      if Ascii.eqb c dquote then Some (EmptyString, r)
      else match until_quote r with
           | Some (a, b) => Some (String c a, b)
           | None => None
           end
  end.

Definition is_num_char (c : ascii) : bool :=
  let n := nat_of_ascii c in ((48 <=? n) && (n <=? 57) || (n =? 45))%nat.

Fixpoint span_num (s : string) : string * string :=
  match s with
  | EmptyString => (EmptyString, EmptyString)
  | String c r =>
      if is_num_char c then let '(a, b) := span_num r in (String c a, b)
      else (EmptyString, s)
  end.

Fixpoint parse_value (fuel : nat) (s : string) : option (json * string) :=
  match fuel with
  | O => None
  | S f =>
      match strip_prefix "null" s with Some r => Some (JNull, r) | None =>
      match strip_prefix "true" s with Some r => Some (JBool true, r) | None =>
      match strip_prefix "false" s with Some r => Some (JBool false, r) | None =>
      match strip_prefix (String dquote EmptyString) s with
      | Some r =>
          match until_quote r with
          | Some (a, r') => Some (JStr a, r')
          | None => None
          end
      | None =>
      match strip_prefix "[]" s with Some r => Some (JArr [], r) | None =>
      match strip_prefix "{}" s with Some r => Some (JObj [], r) | None =>
      match strip_prefix "[" s with
      | Some r =>
          match parse_items f r with
          | Some (l, r') => Some (JArr l, r')
          | None => None
          end
      | None =>
      match strip_prefix "{" s with
      | Some r =>
          match parse_fields f r with
          | Some (l, r') => Some (JObj l, r')
          | None => None
          end
      | None =>
          let '(a, r) := span_num s in
          match NilZero.int_of_string a with
          | Some n => Some (JInt (Z.of_int n), r)
          | None => None
          end
      end end end end end end end end
  end
with parse_items (fuel : nat) (s : string) : option (list json * string) :=
  match fuel with
  | O => None
  | S f =>
      match parse_value f s with
      | Some (v, r) =>
          match strip_prefix "," r with
          | Some r' =>
              match parse_items f r' with
              | Some (l, r'') => Some (v :: l, r'')
              | None => None
              end
          | None =>
              match strip_prefix "]" r with
              | Some r' => Some ([v], r')
              | None => None
              end
          end
      | None => None
      end
  end
with parse_fields (fuel : nat) (s : string)
  : option (list (string * json) * string) :=
  match fuel with
  | O => None
  | S f =>
      match strip_prefix (String dquote EmptyString) s with
      | None => None
      | Some r =>
          match until_quote r with
          | None => None
          | Some (k, r1) =>
              match strip_prefix ":" r1 with
              | None => None
              | Some r2 =>
                  match parse_value f r2 with
                  | None => None
                  | Some (v, r3) =>
                      match strip_prefix "," r3 with
                      | Some r4 =>
                          match parse_fields f r4 with
                          | Some (l, r5) => Some ((k, v) :: l, r5)
                          | None => None
                          end
                      | None =>
                          match strip_prefix "}" r3 with
                          | Some r4 => Some ([(k, v)], r4)
                          | None => None
                          end
                      end
                  end
              end
          end
      end
  end.

Definition loads (s : string) : outcome json :=
  match parse_value (S (String.length s)) s with
  | Some (v, EmptyString) => Returned v
  | _ => Raised JSONDecodeError
  end.

Definition num_at (a b : nat) (s : string) : option Z :=
  option_map Z.of_int (NilZero.int_of_string (substring a b s)).

(** A reader for [YYYY-MM-DDTHH:MM:SS], naive or followed by [+00:00]. *)
Definition toy_fromisoformat (s : string) : outcome datetime :=
  match num_at 0 4 s, num_at 5 2 s, num_at 8 2 s,
        num_at 11 2 s, num_at 14 2 s, num_at 17 2 s with
  | Some y, Some m, Some d, Some hh, Some mm, Some ss =>
      if valid_date y m d then
        let t := ((hh * 60 + mm) * 60 + ss) * 1000000 in
        if (String.length s =? 19)%nat then Returned (mkdt y m d t None)
        else if String.eqb (substring 19 6 s) "+00:00"
             then Returned (mkdt y m d t (Some 0))
             else Raised ValueError
      else Raised ValueError
  | _, _, _, _, _, _ => Raised ValueError
  end.

Definition toy_runtime : Runtime := {|
  json_dumps := dumps;
  json_loads := loads;
  py_str := fun v => match v with JStr s => s | _ => dumps v end;
  fromisoformat := toy_fromisoformat
|}.

(** Keys of the stand-in scheme, base64 of the four bytes. *)
Definition key_of (a b c d : Byte.byte) : string := Base64.b64encode [a; b; c; d].

Definition master_old : MasterKey :=
  mkMasterKey "mk-old" (key_of Byte.x01 Byte.x02 Byte.x03 Byte.x04)
    (key_of Byte.x01 Byte.x02 Byte.x03 Byte.x04) false None None.

Definition master_new : MasterKey :=
  mkMasterKey "mk-new" (key_of Byte.x05 Byte.x06 Byte.x07 Byte.x08)
    (key_of Byte.x05 Byte.x06 Byte.x07 Byte.x08) true None None.

Definition utc (y m d : Z) : datetime := mkdt y m d 0 (Some 0).

Definition plan_monthly : PlanDefinitionRow := mkPlanRow "plan-m" "monthly".
Definition plan_yearly : PlanDefinitionRow := mkPlanRow "plan-y" "yearly".

(** An active subscription with an end date far ahead. *)
Definition sub_end : Subscription :=
  mkSubscription "sub-end" "plan-y" "active" (Some (utc 2024 1 1))
    (Some (utc 2030 1 1)).

(** An active yearly subscription issued on a 29 February. *)
Definition sub_feb29 : Subscription :=
  mkSubscription "sub-feb29" "plan-y" "active" (Some (utc 2024 2 29)) None.

Definition sub_yearly : Subscription :=
  mkSubscription "sub-yearly" "plan-y" "active" (Some (utc 2024 3 1)) None.

Definition tenant1 : Tenant := mkTenant "tenant-1" "Acme" true 10.

(** A license with its own dates: issued 2024-01-01, 30 days. *)
Definition lic_own : License :=
  mkLicense "lic-own" (key_of Byte.x11 Byte.x12 Byte.x13 Byte.x14)
    (key_of Byte.x11 Byte.x12 Byte.x13 Byte.x14) "tenant-1" None None
    (Some (utc 2024 1 1)) (Some 30) (JObj [("seats", JInt 5)]).

Definition lic_end : License :=
  mkLicense "lic-end" (key_of Byte.x21 Byte.x22 Byte.x23 Byte.x24)
    (key_of Byte.x21 Byte.x22 Byte.x23 Byte.x24) "tenant-1" None
    (Some "sub-end") None None (JObj []).

Definition lic_gone : License :=
  mkLicense "lic-gone" (key_of Byte.x41 Byte.x42 Byte.x43 Byte.x44)
    (key_of Byte.x41 Byte.x42 Byte.x43 Byte.x44) "tenant-1" None
    (Some "sub-gone") None (Some 7) (JObj []).

Definition lic_yearly : License :=
  mkLicense "lic-yearly" (key_of Byte.x51 Byte.x52 Byte.x53 Byte.x54)
    (key_of Byte.x51 Byte.x52 Byte.x53 Byte.x54) "tenant-1" None
    (Some "sub-yearly") None None (JObj []).

(** The tables: the master key created first is no longer active. *)
Definition db0 : Db :=
  mkDb [tenant1] [lic_own; lic_end; lic_gone; lic_yearly]
       [master_old; master_new]
       [plan_monthly; plan_yearly]
       [sub_end; sub_feb29; sub_yearly]
       [].

(** What a client sends for a license key: base64 of its text. *)
Definition encoded (k : string) : string :=
  Base64.b64encode (list_byte_of_string k).

Definition constant_entropy : entropy := fun _ => Byte.x07.


Definition request_linked : schemas.LicenseCreate :=
  schemas.mkLicenseCreate "tenant-1" None (Some "sub-yearly") None None (JObj []).

Definition new_keypair : string * string :=
  (key_of Byte.x61 Byte.x62 Byte.x63 Byte.x64,
   key_of Byte.x61 Byte.x62 Byte.x63 Byte.x64).

(** A creation request that names a subscription and gives dates too. *)
Definition body_both : schemas.LicenseCreateBody :=
  schemas.mkBody "tenant-1" None (Some (Some "sub-yearly"))
    (Some (utc 2020 1 1)) (Some 5) (JObj []).

(** The artifact issued for a license of [db0], and the bytes of the
    file that holds it. *)
Definition artifact_of (l : License) : outcome string :=
  issue_license_file (P := toy_primitives) (R := toy_runtime)
    db0 constant_entropy constant_entropy (encoded (license_key l)).

Definition file_of (l : License) : bytes :=
  match artifact_of l with
  | Returned a => list_byte_of_string a
  | Raised _ => []
  end.

(** The file-based verification of the artifact issued for a license. *)
Definition verify_issued (l : License) (clock : datetime) : outcome json :=
  validate_license_file (P := toy_primitives) (R := toy_runtime)
    db0 clock (encoded (license_key l)) (file_of l).

End Toy.

(** * What the statements speak of *)

(** A reply of the shape [{parsing, validity, signature, ...}] with the
    three fields in their two-valued ranges. *)
Definition tri_state (r : json) : Prop :=
  exists p v s rest,
    r = JObj (("parsing", JStr p) :: ("validity", JStr v)
              :: ("signature", JStr s) :: rest)
    /\ (p = "success" \/ p = "failed")
    /\ (v = "valid" \/ v = "invalid")
    /\ (s = "verified" \/ s = "verification_failed").

(** A text without white space. *)
Fixpoint no_space (s : string) : bool :=
  match s with
  | EmptyString => true
  | String c r => negb (routers_licenses.is_space c) && no_space r
  end.

(** [pub] and [priv] are the two halves, in base64 of DER, of the key
    [sk]. *)
Definition key_pair_of {P : crypto_utils.Primitives}
    (sk : crypto_utils.private_key_t) (pub priv : string) : Prop :=
  pub = Base64.b64encode
          (crypto_utils.public_bytes (crypto_utils.public_key_of sk))
  /\ priv = Base64.b64encode (crypto_utils.private_bytes sk).

(** The signed envelope that is encrypted into an artifact. *)
Definition envelope (claims : json) (signature : string) : json :=
  JObj [("license", claims); ("signature", JStr signature)].

(** The reply of the file-based verifier on an artifact it could open. *)
Definition opened_reply (validity signature : string) (license_info : json) : json :=
  JObj [("parsing", JStr "success");
        ("validity", JStr validity);
        ("signature", JStr signature);
        ("license_info", license_info)].


(** A reply of the shape [{valid: ..., ...}]. *)
Definition valid_shape (r : json) (b : bool) : Prop :=
  exists rest, r = JObj (("valid", JBool b) :: rest).

(** [json.loads] reads back what [json.dumps] writes, on the envelope
    that issuance builds for the license [l]. *)
Definition codec_faithful_on_issue
    {P : crypto_utils.Primitives} {R : routers_licenses.Runtime}
    (db : Db) (e_sign : entropy) (l : License) : Prop :=
  forall w sg,
    routers_licenses.issue_window db l = Returned w ->
    crypto_utils.sign_payload e_sign
      (routers_licenses.json_dumps
         (routers_licenses.issue_claims l (fst w) (snd w)))
      (license_secret l) = Returned sg ->
    routers_licenses.json_loads
      (routers_licenses.json_dumps
         (envelope (routers_licenses.issue_claims l (fst w) (snd w)) sg))
    = Returned (envelope (routers_licenses.issue_claims l (fst w) (snd w)) sg).

(** A request to the issuance endpoint occurs in a trace. *)
Definition fetch_attempted (trace : list license_controller.event) : Prop :=
  exists url body, In (license_controller.HttpPost url body) trace.

(** A trace ends with the pause before the next iteration. *)
Definition ends_with_sleep (trace : list license_controller.event) : Prop :=
  exists t seconds, trace = t ++ [license_controller.Sleep seconds].

(** An ASCII character that base64 decoding skips: it is neither in
    the alphabet nor the pad. *)
Definition skipped_by_base64 (c : ascii) : bool :=
  (nat_of_ascii c <? 128)%nat && negb (Ascii.eqb c Base64.PAD)
  && match Base64.a2b c with None => true | Some _ => false end.

(** * Further cases *)

Module Cases.

(** An active subscription that ends on the day it was issued. *)
Definition sub_short : Subscription :=
  mkSubscription "sub-short" "plan-m" "active" (Some (Toy.utc 2024 1 1))
    (Some (Toy.utc 2024 1 1)).

Definition db_short : Db :=
  mkDb [Toy.tenant1] [Toy.lic_own] [Toy.master_new]
       [Toy.plan_monthly; Toy.plan_yearly]
       [sub_short; Toy.sub_feb29]
       [].

(** A creation request that names it. *)
Definition request_short : schemas.LicenseCreate :=
  schemas.mkLicenseCreate "tenant-1" None (Some "sub-short") None None (JObj []).

(** A license linked to the yearly subscription issued on a 29
    February, after one with its own dates. *)
Definition lic_feb29 : License :=
  mkLicense "lic-feb29" (Toy.key_of Byte.x71 Byte.x72 Byte.x73 Byte.x74)
    (Toy.key_of Byte.x71 Byte.x72 Byte.x73 Byte.x74) "tenant-1" None
    (Some "sub-feb29") None None (JObj []).

Definition db_feb29 : Db :=
  mkDb [Toy.tenant1] [Toy.lic_own; lic_feb29] [Toy.master_new]
       [Toy.plan_monthly; Toy.plan_yearly]
       [sub_short; Toy.sub_feb29]
       [].

(** Stand-ins with the interface of [common_crypto.Primitives]: a
    signature is the key followed by the message, a PEM text is the
    text of the key, encryption reverses the message. *)
Definition toy_common : common_crypto.Primitives := {|
  common_crypto.signing_key_t := bytes;
  common_crypto.verify_key_t := bytes;
  common_crypto.rsa_public_t := bytes;
  common_crypto.rsa_private_t := bytes;
  common_crypto.dumps_sorted := fun data => list_byte_of_string (Toy.dumps data);
  common_crypto.loads_bytes := fun b => Toy.loads (string_of_list_byte b);
  common_crypto.encode := fun s => Returned (list_byte_of_string s);
  common_crypto.SigningKey_generate := urandom 4;
  common_crypto.SigningKey := fun b => Returned b;
  common_crypto.signing_key_bytes := fun sk => sk;
  common_crypto.verify_key_bytes := fun sk => sk;
  common_crypto.sign := fun sk m => sk ++ m;
  common_crypto.VerifyKey := fun b => Returned b;
  common_crypto.verify := fun vk m sg =>
    if Toy.bytes_eqb sg (vk ++ m) then Returned tt else Raised CryptoError;
  common_crypto.rsa_generate := urandom 4;
  common_crypto.private_pem := string_of_list_byte;
  common_crypto.public_pem := string_of_list_byte;
  common_crypto.load_pem_public_key := fun b => Returned b;
  common_crypto.load_pem_private_key := fun b => Returned b;
  common_crypto.encrypt := fun _ _ m => Returned (rev m);
  common_crypto.decrypt := fun _ c => Returned (rev c)
|}.

(** A request to the license server. *)
Definition issue_request : license_server.IssueRequest :=
  license_server.mkIssueRequest "pem" [("seats", JInt 5)] 30.

(** A row of [plan_definitions] whose stored interval is outside the
    [Enum] of the column, an active subscription without end date that
    refers to it, a license linked to that subscription, and the tables
    that hold them. *)
Definition plan_weekly : PlanDefinitionRow := mkPlanRow "plan-w" "weekly".

Definition sub_weekly : Subscription :=
  mkSubscription "sub-weekly" "plan-w" "active" (Some (Toy.utc 2024 1 1)) None.

Definition lic_weekly : License :=
  mkLicense "lic-weekly" (Toy.key_of Byte.x31 Byte.x32 Byte.x33 Byte.x34)
    (Toy.key_of Byte.x31 Byte.x32 Byte.x33 Byte.x34) "tenant-1" None
    (Some "sub-weekly") (Some (Toy.utc 2024 1 1)) (Some 10) (JObj []).

Definition db_weekly : Db :=
  mkDb [Toy.tenant1] [Toy.lic_yearly; lic_weekly] [Toy.master_new]
       [Toy.plan_monthly; Toy.plan_yearly; plan_weekly]
       [Toy.sub_yearly; sub_weekly]
       [].

(** A creation request that names that subscription. *)
Definition request_weekly : schemas.LicenseCreate :=
  schemas.mkLicenseCreate "tenant-1" None (Some "sub-weekly") None None (JObj []).

(** The controller with its default settings, on 2024-01-01; the
    issuance endpoint answers 200 with a new artifact and the file can
    be written. *)
Definition controller_settings : license_controller.Settings :=
  license_controller.mkSettings "/var/license/license.json" "pk"
    "http://license-server:8000/admin/licenses/fetch" 7 86400.

Definition tick_env : license_controller.TickEnv :=
  license_controller.mkTickEnv (mkdt 2024 1 1 0 None) None
    (Returned (license_controller.mkResponse 200 "{}"
                 (Returned (JObj [("encrypted_payload", JStr "00");
                                  ("signature", JStr "11")]))))
    license_controller.WriteOk.

(** A local artifact with the two fields of [SignedLicense] and a
    payload that expires a year after that day. *)
Definition local_license : json :=
  JObj [("encrypted_payload", JStr "aa"); ("signature", JStr "bb");
        ("payload", JObj [("expires_at", JStr "2025-01-01T00:00:00")])].

End Cases.

(** * Properties *)

(** ** Calendar arithmetic *)

Lemma is_leap_succ (y : Z) : is_leap y = true -> is_leap (y + 1) = false.
Proof.
  unfold is_leap. intros H.
  apply andb_true_iff in H. destruct H as [H4 _].
  apply Z.eqb_eq in H4.
  apply andb_false_iff. left. apply Z.eqb_neq.
  Z.div_mod_to_equations. lia.
Qed.

Lemma days_before_year_succ (y : Z) :
  days_before_year (y + 1) - days_before_year y
  = 365 + (if is_leap y then 1 else 0).
Proof.
  unfold days_before_year, is_leap.
  replace (y + 1 - 1) with y by lia.
  destruct (Z.eqb_spec (y mod 4) 0), (Z.eqb_spec (y mod 100) 0),
           (Z.eqb_spec (y mod 400) 0); cbn [andb orb negb];
    Z.div_mod_to_equations; lia.
Qed.

Lemma td_days_whole (n : Z) : td_days (n * US_PER_DAY) = n.
Proof. unfold td_days, US_PER_DAY. apply Z.div_mul. lia. Qed.

Lemma dt_sub_same_clock (a b : datetime) :
  tod a = tod b -> tzinfo a = tzinfo b ->
  dt_sub a b = Returned ((toordinal a - toordinal b) * US_PER_DAY).
Proof.
  intros Ht Hz. unfold dt_sub. rewrite Ht, Hz.
  destruct (tzinfo b); f_equal; lia.
Qed.

(** For every date but a 29 February (and below the last year the
    calendar has), the yearly count is the distance to the same date of
    the next year: 365, or 366 when a 29 February lies in between. *)
Lemma yearly_days_value (i : datetime) :
  valid_date (year i) (month i) (day i) = true ->
  year i < MAXYEAR ->
  ~ (month i = 2 /\ day i = 29) ->
  yearly_days i
  = Returned (365 + (if month i <=? 2
                     then (if is_leap (year i) then 1 else 0)
                     else (if is_leap (year i + 1) then 1 else 0))).
Proof.
  intros Hv Hy Hn. unfold yearly_days, replace_year.
  unfold valid_date in Hv.
  repeat (apply andb_true_iff in Hv; destruct Hv as [Hv ?]).
  repeat match goal with H : (_ <=? _) = true |- _ => apply Z.leb_le in H end.
  assert (Hv' : valid_date (year i + 1) (month i) (day i) = true).
  { unfold valid_date, MINYEAR, MAXYEAR in *.
    repeat (apply andb_true_iff; split); apply Z.leb_le; try lia.
    unfold days_in_month in *.
    destruct (Z.eqb_spec (month i) 2) as [E|E]; cbn [andb] in *.
    - rewrite E in *. destruct (is_leap (year i)), (is_leap (year i + 1));
        cbn in *; lia.
    - assumption. }
  rewrite Hv'. cbn [bind].
  rewrite dt_sub_same_clock by reflexivity. cbn [bind].
  rewrite td_days_whole. f_equal.
  unfold toordinal, ymd2ord; cbn [year month day].
  pose proof (days_before_year_succ (year i)) as Hs.
  unfold days_before_month.
  destruct (Z.leb_spec (month i) 2) as [L|L];
    destruct (Z.ltb_spec 2 (month i)); try lia; cbn [andb].
  - lia.
  - destruct (is_leap (year i)) eqn:El.
    + rewrite (is_leap_succ _ El). lia.
    + destruct (is_leap (year i + 1)); lia.
Qed.

Lemma yearly_days_365_or_366 (i : datetime) :
  valid_date (year i) (month i) (day i) = true ->
  year i < MAXYEAR ->
  ~ (month i = 2 /\ day i = 29) ->
  yearly_days i = Returned 365 \/ yearly_days i = Returned 366.
Proof.
  intros Hv Hy Hn. rewrite (yearly_days_value i Hv Hy Hn).
  destruct (month i <=? 2), (is_leap (year i)), (is_leap (year i + 1));
    auto.
Qed.

(** C6, at the date the code misses: for a subscription issued on a
    29 February the yearly computation returns no day count at all;
    [replace(year=year + 1)] raises ValueError, whatever the time of day
    and the time zone. *)
Theorem C6_yearly_days_feb29_raises (i : datetime) :
  valid_date (year i) (month i) (day i) = true ->
  month i = 2 -> day i = 29 ->
  yearly_days i = Raised ValueError.
Proof.
  intros Hv Hm Hd. unfold yearly_days, replace_year.
  assert (Hl : is_leap (year i) = true).
  { unfold valid_date in Hv. rewrite Hm, Hd in Hv.
    apply andb_true_iff in Hv. destruct Hv as [_ Hv].
    unfold days_in_month in Hv. cbn [Z.eqb andb] in Hv.
    destruct (is_leap (year i)); [reflexivity | discriminate]. }
  assert (Hv' : valid_date (year i + 1) (month i) (day i) = false).
  { unfold valid_date. rewrite Hm, Hd. unfold days_in_month.
    rewrite (is_leap_succ _ Hl). cbn. apply andb_false_r. }
  rewrite Hv'. reflexivity.
Qed.

Lemma C6_yearly_days_feb29_witness :
  yearly_days (mkdt 2024 2 29 0 (Some 0)) = Raised ValueError.
Proof.
  apply (C6_yearly_days_feb29_raises (mkdt 2024 2 29 0 (Some 0)));
    reflexivity.
Defined.

(** ** Strings *)

Lemma length_append (a b : string) :
  String.length (a ++ b)%string = (String.length a + String.length b)%nat.
Proof. induction a as [|c a IH]; cbn; [reflexivity | now rewrite IH]. Qed.

Lemma substring_all (s : string) : substring 0 (String.length s) s = s.
Proof. induction s as [|c s IH]; cbn; [reflexivity | now rewrite IH]. Qed.

(** A string is its first [n] characters followed by the rest. *)
Lemma substring_split (s : string) (n : nat) :
  (n <= String.length s)%nat ->
  s = (substring 0 n s ++ substring n (String.length s - n) s)%string.
Proof.
  revert n. induction s as [|c s IH]; intros [|n] H; cbn in *.
  - reflexivity.
  - lia.
  - now rewrite substring_all.
  - rewrite <- IH by lia. reflexivity.
Qed.

Lemma length_substring (s : string) (n m : nat) :
  (n + m <= String.length s)%nat -> String.length (substring n m s) = m.
Proof.
  revert n m. induction s as [|c s IH]; intros [|n] [|m] H; cbn in *;
    try reflexivity; try lia.
  - now rewrite IH by lia.
  - apply IH. lia.
  - apply IH. lia.
Qed.

Lemma substring_prefix_append (a b : string) (n : nat) :
  (n <= String.length a)%nat ->
  substring 0 n (a ++ b)%string = substring 0 n a.
Proof.
  revert n. induction a as [|c a IH]; intros [|n] H; cbn in *;
    try reflexivity; try lia.
  - destruct b; reflexivity.
  - now rewrite IH by lia.
Qed.

Lemma append_assoc (a b c : string) :
  ((a ++ b) ++ c = a ++ (b ++ c))%string.
Proof. induction a as [|x a IH]; cbn; [reflexivity | now rewrite IH]. Qed.

(** The shape of a masked key: the first 20 and the last 20 characters
    of the key, with three dots for what lies between. *)
Lemma mask_shape (k : string) :
  (40 < String.length k)%nat ->
  exists pre mid suf,
    k = (pre ++ mid ++ suf)%string
    /\ String.length pre = 20%nat /\ String.length suf = 20%nat
    /\ (PyStr.take 20 k ++ "..." ++ PyStr.take_last 20 k
        = pre ++ "..." ++ suf)%string.
Proof.
  intros H. unfold PyStr.take, PyStr.take_last.
  set (n := String.length k) in *.
  pose proof (substring_split k (n - 20) ltac:(lia)) as Hs.
  fold n in Hs. replace (n - (n - 20))%nat with 20%nat in Hs by lia.
  set (p2 := substring 0 (n - 20) k) in *.
  set (suf := substring (n - 20) 20 k) in *.
  assert (Lp2 : String.length p2 = (n - 20)%nat)
    by (apply length_substring; fold n; lia).
  pose proof (substring_split p2 20 ltac:(lia)) as Hp.
  exists (substring 0 20 p2), (substring 20 (String.length p2 - 20) p2), suf.
  repeat split.
  - rewrite <- append_assoc. rewrite <- Hp. exact Hs.
  - apply length_substring. lia.
  - apply length_substring. fold n. lia.
  - f_equal. rewrite Hs at 1. apply substring_prefix_append. lia.
Qed.

Lemma truthy_nonempty (s : string) : s <> EmptyString -> PyStr.truthy s = true.
Proof. destruct s; [congruence | reflexivity]. Qed.

Import routers_licenses.

(** C10: the listing has one entry per master-key record, in table
    order, with that record's own id, public key and active flag; the
    [private_key_masked] field of every entry is one and the same value,
    computed from the private key of the first record of the table: the
    key itself when it has 40 characters or fewer (["Not generated"] for
    an empty key), and otherwise its first 20 characters, three dots and
    its last 20 characters. *)
Theorem C10_get_master_keys_mask
    (db : Db) (mk0 : MasterKey) (rest : list MasterKey) :
  master_keys db = mk0 :: rest ->
  exists masked entries,
    get_master_keys db true = Returned entries
    /\ Forall2 (fun mk e =>
                  PyJson.getitem e "id" = Returned (JStr (mk_id mk))
                  /\ PyJson.getitem e "public_key" = Returned (JStr (public_key mk))
                  /\ PyJson.getitem e "is_active" = Returned (JBool (is_active mk))
                  /\ PyJson.getitem e "private_key_masked" = Returned (JStr masked))
               (master_keys db) entries
    /\ (private_key mk0 = EmptyString -> masked = "Not generated")
    /\ (private_key mk0 <> EmptyString ->
        (String.length (private_key mk0) <= 40)%nat -> masked = private_key mk0)
    /\ ((40 < String.length (private_key mk0))%nat ->
        exists pre mid suf,
          private_key mk0 = (pre ++ mid ++ suf)%string
          /\ String.length pre = 20%nat /\ String.length suf = 20%nat
          /\ masked = (pre ++ "..." ++ suf)%string).
Proof.
  intros Hk.
  exists (private_key_masked db),
         (map (master_key_entry (private_key_masked db)) (master_keys db)).
  split; [reflexivity|]. split.
  - generalize (private_key_masked db) as m. clear Hk.
    induction (master_keys db) as [|mk l IH]; intros m; cbn [map]; constructor.
    + repeat split; reflexivity.
    + apply IH.
  - unfold private_key_masked, first_master_key. rewrite Hk. cbn [hd_error].
    unfold PyStr.len. split; [|split].
    + intros ->. reflexivity.
    + intros Hne Hle. rewrite (truthy_nonempty _ Hne).
      destruct (Z.ltb_spec 40 (Z.of_nat (String.length (private_key mk0))));
        [lia | reflexivity].
    + intros Hgt.
      assert (Hne : private_key mk0 <> EmptyString)
        by (intros E; rewrite E in Hgt; cbn in Hgt; lia).
      rewrite (truthy_nonempty _ Hne).
      destruct (Z.ltb_spec 40 (Z.of_nat (String.length (private_key mk0))));
        [| lia].
      destruct (mask_shape _ Hgt) as (pre & mid & suf & E & Lp & Ls & Em).
      exists pre, mid, suf. auto.
Qed.

(** ** Base64 *)

Import Base64.

Lemma a2b_b2a (n : nat) : (n < 64)%nat -> a2b (b2a n) = Some n.
Proof.
  intros H.
  do 64 (destruct n as [|n]; [reflexivity|]). lia.
Qed.

Lemma b2a_not_pad (n : nat) : (n < 64)%nat -> Ascii.eqb (b2a n) PAD = false.
Proof.
  intros H.
  do 64 (destruct n as [|n]; [reflexivity|]). lia.
Qed.

Lemma b2a_not_colon (n : nat) : Ascii.eqb (b2a n) ":"%char = false.
Proof.
  do 64 (destruct n as [|n]; [reflexivity|]). reflexivity.
Qed.

Lemma b2a_ascii (n : nat) : (nat_of_ascii (b2a n) <? 128)%nat = true.
Proof.
  do 64 (destruct n as [|n]; [reflexivity|]). reflexivity.
Qed.

Lemma byte_of_to_nat (x : Byte.byte) : byte_of_nat (Byte.to_nat x) = x.
Proof.
  unfold byte_of_nat. pose proof (Byte.to_nat_bounded x).
  rewrite Nat.mod_small by lia. now rewrite Byte.of_to_nat.
Qed.

(** One step of the decoding loop on an alphabet character. *)
Lemma a2b_loop_alpha (v : nat) (rest : string) (q lc pads : nat) (acc : bytes) :
  (v < 64)%nat ->
  a2b_loop (String (b2a v) rest) q lc pads acc
  = match q with
    | 0 => a2b_loop rest 1 v 0 acc
    | 1 => a2b_loop rest 2 (v mod 16) 0 (byte_of_nat (lc * 4 + v / 16) :: acc)
    | 2 => a2b_loop rest 3 (v mod 4) 0 (byte_of_nat (lc * 16 + v / 4) :: acc)
    | _ => a2b_loop rest 0 0 0 (byte_of_nat (lc * 64 + v) :: acc)
    end%nat.
Proof.
  intros H. cbn [a2b_loop]. rewrite (b2a_not_pad v H), (a2b_b2a v H). reflexivity.
Qed.

Lemma a2b_loop_pad2 (rest : string) (lc : nat) (acc : bytes) :
  a2b_loop (String PAD (String PAD rest)) 2 lc 0 acc = Returned (rev acc).
Proof. reflexivity. Qed.

Lemma a2b_loop_pad1 (rest : string) (lc : nat) (acc : bytes) :
  a2b_loop (String PAD rest) 3 lc 0 acc = Returned (rev acc).
Proof. reflexivity. Qed.

Ltac nat_div_lia := zify; Z.div_mod_to_equations; lia.

Ltac sextet :=
  match goal with
  | |- (_ < 64)%nat => nat_div_lia
  end.

Lemma list_ind3 (A : Type) (Q : list A -> Prop) :
  Q [] -> (forall x, Q [x]) -> (forall x y, Q [x; y]) ->
  (forall x y z l, Q l -> Q (x :: y :: z :: l)) ->
  forall l, Q l.
Proof.
  intros H0 H1 H2 H3.
  fix IH 1.
  intros [|x [|y [|z l]]];
    [exact H0 | apply H1 | apply H2 | apply H3; apply IH].
Qed.

(** The decoding loop, started at a quad boundary on an encoding, writes
    back the encoded bytes. *)
Lemma a2b_loop_b64encode (l : bytes) :
  forall acc, a2b_loop (b64encode l) 0 0 0 acc = Returned (rev acc ++ l).
Proof.
  induction l as [| x | x y | x y z l IH] using list_ind3; intros acc.
  - cbn. now rewrite app_nil_r.
  - pose proof (Byte.to_nat_bounded x) as Hx.
    cbn [b64encode].
    rewrite a2b_loop_alpha by sextet. rewrite a2b_loop_alpha by sextet.
    rewrite a2b_loop_pad2. cbn [rev].
    replace (Byte.to_nat x / 4 * 4 + Byte.to_nat x mod 4 * 16 / 16)%nat
      with (Byte.to_nat x) by nat_div_lia.
    rewrite byte_of_to_nat. reflexivity.
  - pose proof (Byte.to_nat_bounded x) as Hx.
    pose proof (Byte.to_nat_bounded y) as Hy.
    cbn [b64encode].
    rewrite a2b_loop_alpha by sextet. rewrite a2b_loop_alpha by sextet.
    rewrite a2b_loop_alpha by sextet.
    rewrite a2b_loop_pad1. cbn [rev].
    replace (Byte.to_nat x / 4 * 4
             + (Byte.to_nat x mod 4 * 16 + Byte.to_nat y / 16) / 16)%nat
      with (Byte.to_nat x) by nat_div_lia.
    replace ((Byte.to_nat x mod 4 * 16 + Byte.to_nat y / 16) mod 16 * 16
             + Byte.to_nat y mod 16 * 4 / 4)%nat
      with (Byte.to_nat y) by nat_div_lia.
    rewrite !byte_of_to_nat. rewrite <- ?app_assoc. reflexivity.
  - pose proof (Byte.to_nat_bounded x) as Hx.
    pose proof (Byte.to_nat_bounded y) as Hy.
    pose proof (Byte.to_nat_bounded z) as Hz.
    cbn [b64encode].
    rewrite a2b_loop_alpha by sextet. rewrite a2b_loop_alpha by sextet.
    rewrite a2b_loop_alpha by sextet. rewrite a2b_loop_alpha by sextet.
    rewrite IH.
    replace (Byte.to_nat x / 4 * 4
             + (Byte.to_nat x mod 4 * 16 + Byte.to_nat y / 16) / 16)%nat
      with (Byte.to_nat x) by nat_div_lia.
    replace ((Byte.to_nat x mod 4 * 16 + Byte.to_nat y / 16) mod 16 * 16
             + (Byte.to_nat y mod 16 * 4 + Byte.to_nat z / 64) / 4)%nat
      with (Byte.to_nat y) by nat_div_lia.
    replace ((Byte.to_nat y mod 16 * 4 + Byte.to_nat z / 64) mod 4 * 64
             + Byte.to_nat z mod 64)%nat
      with (Byte.to_nat z) by nat_div_lia.
    rewrite !byte_of_to_nat. cbn [rev]. rewrite <- ?app_assoc. reflexivity.
Qed.

Lemma all_ascii_b64encode (l : bytes) : all_ascii (b64encode l) = true.
Proof.
  induction l as [| x | x y | x y z l IH] using list_ind3;
    cbn [b64encode all_ascii]; rewrite ?b2a_ascii, ?IH; reflexivity.
Qed.

(** [b64decode] inverts [b64encode]. *)
Lemma b64decode_b64encode (l : bytes) : b64decode (b64encode l) = Returned l.
Proof.
  unfold b64decode. rewrite all_ascii_b64encode.
  now rewrite a2b_loop_b64encode.
Qed.

(** No colon occurs in an encoding. *)
Lemma b64encode_no_colon (l : bytes) : count_colon (b64encode l) = 0%nat.
Proof.
  induction l as [| x | x y | x y z l IH] using list_ind3;
    cbn [b64encode count_colon]; rewrite ?b2a_not_colon, ?IH; reflexivity.
Qed.

(** ** Hybrid encryption *)

Import crypto_utils.

Lemma count_colon_append (a b : string) :
  count_colon (a ++ b)%string = (count_colon a + count_colon b)%nat.
Proof.
  induction a as [|c a IH]; cbn [String.append count_colon];
    [reflexivity | rewrite IH; lia].
Qed.

(** Splitting at the first colon a text whose first part has none. *)
Lemma split_colon_append (a b : string) :
  count_colon a = 0%nat ->
  split_colon (a ++ String ":"%char b)%string = (a, Some b).
Proof.
  induction a as [|c a IH]; cbn [String.append count_colon split_colon]; intros H.
  - reflexivity.
  - destruct (Ascii.eqb c ":"%char); [discriminate|].
    rewrite IH by exact H. reflexivity.
Qed.

Lemma urandom_length (n : nat) (e : entropy) :
  List.length (fst (urandom n e)) = n.
Proof. unfold urandom. cbn [fst]. now rewrite length_map, length_seq. Qed.

Lemma firstn_exact {A} (a b : list A) (n : nat) :
  List.length a = n -> firstn n (a ++ b) = a.
Proof.
  intros <-. rewrite firstn_app, Nat.sub_diag, firstn_all. cbn.
  apply app_nil_r.
Qed.

Lemma skipn_exact {A} (a b : list A) (n : nat) :
  List.length a = n -> skipn n (a ++ b) = b.
Proof.
  intros <-. rewrite skipn_app, Nat.sub_diag, skipn_all. reflexivity.
Qed.

(** ** White space and lookups *)

Lemma rstrip_no_space (s : string) : no_space s = true -> rstrip s = s.
Proof.
  induction s as [|c r IH]; cbn [no_space rstrip]; intros H; [reflexivity|].
  apply andb_true_iff in H. destruct H as [Hc Hr].
  rewrite (IH Hr). destruct r; [|reflexivity].
  apply negb_true_iff in Hc. now rewrite Hc.
Qed.

Lemma strip_no_space (s : string) : no_space s = true -> strip s = s.
Proof.
  intros H. unfold strip.
  assert (Hl : lstrip s = s).
  { destruct s as [|c r]; [reflexivity|]. cbn [no_space] in H.
    apply andb_true_iff in H. destruct H as [Hc _].
    apply negb_true_iff in Hc. cbn [lstrip]. now rewrite Hc. }
  rewrite Hl. now apply rstrip_no_space.
Qed.

Lemma no_space_append (a b : string) :
  no_space (a ++ b)%string = no_space a && no_space b.
Proof.
  induction a as [|c a IH]; cbn [String.append no_space]; [reflexivity|].
  rewrite IH. apply andb_assoc.
Qed.

Lemma b2a_not_space (n : nat) : is_space (b2a n) = false.
Proof.
  do 64 (destruct n as [|n]; [reflexivity|]). reflexivity.
Qed.

Lemma b64encode_no_space (l : bytes) : no_space (b64encode l) = true.
Proof.
  induction l as [| x | x y | x y z l IH] using list_ind3;
    cbn [b64encode no_space]; rewrite ?b2a_not_space, ?IH; reflexivity.
Qed.

Lemma license_by_key_found (db : Db) (k : string) (l : License) :
  license_by_key db k = Some l -> license_key l = k /\ In l (licenses db).
Proof.
  unfold license_by_key. intros H. apply find_some in H.
  destruct H as [Hin He]. apply String.eqb_eq in He. auto.
Qed.

(** [hybrid_encrypt] under the public half of a key, and
    [hybrid_decrypt] of the result under its private half. *)
Lemma hybrid_encrypt_spec {P : Primitives} (L : PrimitiveLaws P)
    (sk : private_key_t) (e_enc : entropy) (payload : string) :
  exists artifact aes_key iv tag ciphertext encrypted_aes_key plain e_oaep,
    hybrid_encrypt e_enc payload (b64encode (public_bytes (public_key_of sk)))
    = Returned artifact
    /\ artifact = (b64encode encrypted_aes_key ++ ":"
                   ++ b64encode (iv ++ tag ++ ciphertext)%list)%string
    /\ List.length aes_key = 32%nat
    /\ List.length iv = 12%nat
    /\ List.length tag = 16%nat
    /\ oaep_encrypt (public_key_of sk) e_oaep aes_key = Returned encrypted_aes_key
    /\ utf8_encode payload = Returned plain
    /\ aes_gcm_encrypt aes_key iv plain = Returned (ciphertext, tag)
    /\ hybrid_decrypt artifact (b64encode (private_bytes sk)) = Returned payload.
Proof.
  unfold hybrid_encrypt.
  pose proof (urandom_length 32 e_enc) as Lk.
  destruct (urandom 32 e_enc) as [aes_key e2]. cbn [fst] in Lk.
  pose proof (urandom_length 12 e2) as Li.
  destruct (urandom 12 e2) as [iv e3]. cbn [fst] in Li.
  destruct (utf8_roundtrip payload) as (plain & Henc & Hdec).
  destruct (gcm_roundtrip aes_key iv plain Lk Li) as (c & tag & Hg & Lt & Hgd).
  destruct (oaep_roundtrip sk e3 aes_key ltac:(lia)) as (ek & Ho & Hod).
  exists (b64encode ek ++ ":" ++ b64encode (iv ++ tag ++ c)%list)%string,
         aes_key, iv, tag, c, ek, plain, e3.
  rewrite Henc. cbn [bind]. rewrite Hg. cbn [bind].
  rewrite b64decode_b64encode. cbn [bind].
  rewrite load_public_bytes. cbn [bind]. rewrite Ho. cbn [bind].
  repeat split; try assumption.
  unfold hybrid_decrypt.
  change (":" ++ b64encode (iv ++ tag ++ c)%list)%string
    with (String ":"%char (b64encode (iv ++ tag ++ c))).
  rewrite split_colon_append by apply b64encode_no_colon.
  rewrite b64decode_b64encode. cbn [bind].
  rewrite load_private_bytes. cbn [bind].
  rewrite b64decode_b64encode. cbn [bind].
  rewrite Hod. cbn [bind].
  rewrite b64decode_b64encode. cbn [bind].
  rewrite (firstn_exact iv (tag ++ c) 12 Li).
  rewrite (skipn_exact iv (tag ++ c) 12 Li).
  rewrite (firstn_exact tag c 16 Lt).
  replace (skipn 28 (iv ++ tag ++ c)) with c.
  - rewrite Hgd. cbn [bind]. exact Hdec.
  - rewrite app_assoc. symmetry. apply skipn_exact.
    rewrite length_app. lia.
Qed.

Lemma artifact_shape (a b : bytes) :
  count_colon (b64encode a ++ ":" ++ b64encode b)%string = 1%nat
  /\ no_space (b64encode a ++ ":" ++ b64encode b)%string = true.
Proof.
  split.
  - rewrite !count_colon_append, !b64encode_no_colon. reflexivity.
  - rewrite !no_space_append, !b64encode_no_space. reflexivity.
Qed.


(** ** The file-based verifier *)

Ltac break_match :=
  match goal with
  | |- context [match ?x with _ => _ end] => destruct x eqn:?
  | H : context [match ?x with _ => _ end] |- _ => destruct x eqn:?
  end.

Ltac inv H := inversion H; subst; clear H.

(** One step through a hypothesis [H] that says a chain of calls
    returned: the first call returned too. *)
Ltac run_bind H :=
  match type of H with
  | bind ?m _ = Returned _ =>
      let E := fresh "E" in
      destruct m eqn:E; cbn [bind] in H; [| discriminate H]
  | (if ?c then _ else _) = Returned _ => destruct c eqn:?
  | Returned _ = Returned _ => inv H
  end.

Lemma file_validity_linked_cases (db : Db) (now : datetime) (sid r : string) :
  file_validity_linked db now sid = Returned r -> r = "valid" \/ r = "invalid".
Proof.
  unfold file_validity_linked, bind. intros H.
  repeat break_match; inv H; auto.
Qed.

Section Verifier.
Context {P : Primitives} {R : Runtime}.

Lemma file_validity_own_cases (now : datetime) (info : json) (r : string) :
  file_validity_own now info = Returned r -> r = "valid" \/ r = "invalid".
Proof.
  unfold file_validity_own, bind. intros H.
  repeat break_match; inv H; auto.
Qed.

Lemma file_validity_cases (db : Db) (now : datetime) (info : json) :
  file_validity db now info = "valid" \/ file_validity db now info = "invalid".
Proof.
  unfold file_validity.
  destruct (PyJson.get info "linked_subscription") as [ls|]; cbn [bind]; [|auto].
  destruct (PyJson.truthy ls).
  - unfold try_except.
    destruct (file_validity_linked db now _) eqn:E; [|auto].
    apply file_validity_linked_cases in E. exact E.
  - destruct (file_validity_own now info) eqn:E; [|auto].
    apply file_validity_own_cases in E. exact E.
Qed.

Lemma failed_reply_tri_state (msg : string) : tri_state (failed_reply msg).
Proof. unfold tri_state, failed_reply. do 4 eexists. split; [reflexivity|]. auto. Qed.

Lemma validate_license_data_tri_state
    (db : Db) (now : datetime) (l : License) (data r : json) :
  validate_license_data db now l data = Returned r -> tri_state r.
Proof.
  unfold validate_license_data. intros H.
  repeat run_bind H.
  assert (Hs : a1 = "verified" \/ a1 = "verification_failed").
  { repeat run_bind E1; try break_match; auto. }
  assert (Hv : a2 = "valid" \/ a2 = "invalid").
  { repeat run_bind E2; auto. apply file_validity_cases. }
  do 4 eexists. split; [reflexivity|]. auto.
Qed.

End Verifier.

Lemma try_except_failed_reply (body : outcome json) (prefix : string) :
  (forall r, body = Returned r -> tri_state r) ->
  exists r,
    try_except body
      (fun e => Returned (failed_reply (prefix ++ str_exn e)%string)) = Returned r
    /\ tri_state r.
Proof.
  intros H. destruct body as [r|e]; cbn [try_except].
  - exists r. auto.
  - eexists. split; [reflexivity | apply failed_reply_tri_state].
Qed.

(** C7: whatever the form field, the uploaded bytes, the tables and the
    primitives answer, [validate_license_file] returns (it raises
    nothing) a reply of the tri-state shape; and when the hybrid
    decryption of the uploaded text fails, the reply has
    [parsing = failed], [signature = verification_failed] and
    [validity = invalid]. *)
Theorem C7_validate_license_file_never_raises
    {P : Primitives} {R : Runtime}
    (db : Db) (clock : datetime) (license_key : string) (file : bytes) :
  (exists r,
     validate_license_file db clock license_key file = Returned r
     /\ tri_state r)
  /\ (forall search_key db_license text mk e,
        (b <- Base64.b64decode license_key ;; utf8_decode b) = Returned search_key ->
        license_by_key db search_key = Some db_license ->
        utf8_decode file = Returned text ->
        first_master_key db = Some mk ->
        hybrid_decrypt (strip text) (private_key mk) = Raised e ->
        exists r,
          validate_license_file db clock license_key file = Returned r
          /\ PyJson.getitem r "parsing" = Returned (JStr "failed")
          /\ PyJson.getitem r "signature" = Returned (JStr "verification_failed")
          /\ PyJson.getitem r "validity" = Returned (JStr "invalid")).
Proof.
  split.
  - unfold validate_license_file. apply try_except_failed_reply.
    intros r H.
    destruct (b <- Base64.b64decode license_key ;; utf8_decode b) as [k|e];
      [| inv H; apply failed_reply_tri_state].
    destruct (license_by_key db k) as [l|];
      [| inv H; apply failed_reply_tri_state].
    destruct (utf8_decode file) as [text|e]; cbn [bind] in H; [| discriminate H].
    destruct (first_master_key db) as [mk|];
      [| inv H; apply failed_reply_tri_state].
    destruct (decrypted_content <- hybrid_decrypt (strip text) (private_key mk) ;;
              json_loads decrypted_content) as [data|e];
      [| inv H; apply failed_reply_tri_state].
    eapply validate_license_data_tri_state. exact H.
  - intros k l text mk e Hk Hl Ht Hm Hd.
    unfold validate_license_file.
    rewrite Hk, Hl, Ht. cbn [bind]. rewrite Hm, Hd. cbn [bind try_except].
    eexists. split; [reflexivity|]. repeat split; reflexivity.
Qed.


(** ** From issuance to verification *)

Section Chain.
Context {P : Primitives} {R : Runtime} (L : PrimitiveLaws P).

Lemma utf8_decode_encode (s : string) (b : bytes) :
  utf8_encode s = Returned b -> utf8_decode b = Returned s.
Proof.
  intros H. destruct (utf8_roundtrip s) as (b' & He & Hd).
  rewrite H in He. inv He. exact Hd.
Qed.

(** A signature made with the secret of a key pair verifies under its
    public half. *)
Lemma verify_signature_sign_payload
    (lsk : private_key_t) (pub priv payload sg : string) (e : entropy) :
  key_pair_of lsk pub priv ->
  sign_payload e payload priv = Returned sg ->
  verify_signature payload (JStr sg) pub = Returned true.
Proof.
  intros [Hpub Hpriv] Hs. subst pub priv.
  unfold sign_payload in Hs. rewrite b64decode_b64encode in Hs. cbn [bind] in Hs.
  rewrite load_private_bytes in Hs. cbn [bind] in Hs.
  destruct (utf8_encode payload) as [m|] eqn:Hm; cbn [bind] in Hs; [|discriminate].
  destruct (pss_roundtrip lsk e m) as (sg' & Hsign & Hver).
  rewrite Hsign in Hs. cbn [bind] in Hs. inv Hs.
  unfold verify_signature. rewrite b64decode_b64encode. cbn [bind].
  rewrite load_public_bytes. cbn [bind b64decode_json].
  rewrite b64decode_b64encode. cbn [bind]. rewrite Hm. cbn [bind].
  rewrite Hver. reflexivity.
Qed.

(** What [validate_license_data] answers on an envelope whose signature
    verifies. *)
Lemma validate_license_data_envelope
    (db : Db) (now : datetime) (l : License) (claims : json) (sg : string) :
  verify_signature (json_dumps claims) (JStr sg) (license_key l) = Returned true ->
  validate_license_data db now l (envelope claims sg)
  = Returned (opened_reply (file_validity db now claims) "verified" claims).
Proof.
  intros Hv. unfold validate_license_data, envelope.
  cbn [PyJson.contains PyJson.assoc String.eqb Ascii.eqb Bool.eqb bind andb
       PyJson.getitem PyJson.get_default].
  rewrite Hv. reflexivity.
Qed.

(** An artifact that [issue_license_file] returns, uploaded as a file
    with the same encoded key, is opened by [validate_license_file]: the
    reply has [parsing = success], [signature = verified], the issued
    claims as [license_info], and as [validity] what step 6 computes on
    those claims. *)
Lemma issue_then_validate
    (db : Db) (clock : datetime) (e_sign e_enc : entropy)
    (encoded_key key artifact : string) (file : bytes)
    (l : License) (mk : MasterKey) (msk lsk : private_key_t) :
  (b <- Base64.b64decode encoded_key ;; utf8_decode b) = Returned key ->
  license_by_key db key = Some l ->
  first_master_key db = Some mk ->
  key_pair_of msk (public_key mk) (private_key mk) ->
  key_pair_of lsk (license_key l) (license_secret l) ->
  codec_faithful_on_issue db e_sign l ->
  issue_license_file db e_sign e_enc encoded_key = Returned artifact ->
  utf8_encode artifact = Returned file ->
  exists w,
    issue_window db l = Returned w
    /\ validate_license_file db clock encoded_key file
       = Returned (opened_reply
                     (file_validity db (now_utc clock)
                        (issue_claims l (fst w) (snd w)))
                     "verified"
                     (issue_claims l (fst w) (snd w))).
Proof.
  intros Hkey Hl Hmk [Hmpub Hmpriv] Hlk Hcodec Hissue Hfile.
  unfold issue_license_file in Hissue.
  rewrite Hkey in Hissue. cbn [try_except bind] in Hissue.
  rewrite Hl in Hissue.
  destruct (issue_window db l) as [w|] eqn:Hw; cbn [bind] in Hissue; [|discriminate].
  destruct (sign_payload e_sign _ (license_secret l)) as [sg|] eqn:Hsg;
    cbn [bind] in Hissue; [|discriminate].
  rewrite Hmk in Hissue.
  exists w. split; [reflexivity|].
  destruct (hybrid_encrypt_spec L msk e_enc
              (json_dumps (envelope (issue_claims l (fst w) (snd w)) sg)))
    as (a & aes_key & iv & tag & c & ek & plain & eo
        & He & Ha & _ & _ & _ & _ & _ & _ & Hd).
  rewrite Hmpub in Hissue. unfold envelope in He.
  rewrite He in Hissue. inv Hissue.
  unfold validate_license_file.
  rewrite Hkey, Hl. rewrite (utf8_decode_encode _ _ Hfile). cbn [bind].
  rewrite (strip_no_space _ (proj2 (artifact_shape _ _))).
  rewrite Hmk, Hmpriv, Hd. cbn [bind].
  rewrite (Hcodec w sg Hw Hsg).
  rewrite validate_license_data_envelope.
  - reflexivity.
  - exact (verify_signature_sign_payload lsk _ _ _ _ e_sign Hlk Hsg).
Qed.

End Chain.

(** ** What step 6 answers *)

Import crud.

(** The branch for an end date computes the window and returns without
    a comparison: never ["valid"]. *)
Lemma file_validity_linked_end_date
    (db : Db) (now : datetime) (sid : string) (sub : Subscription) (e : datetime) :
  get_subscription db sid = Some sub ->
  end_date sub = Some e ->
  file_validity_linked db now sid <> Returned "valid".
Proof.
  intros Hs He. unfold file_validity_linked. rewrite Hs, He.
  destruct (negb (String.eqb (status sub) "active")); [discriminate|].
  destruct (issue_date sub) as [i|]; cbn [attr_of_date bind]; [|discriminate].
  destruct (end_minus_issue_days e (Some i)); cbn [bind]; discriminate.
Qed.

(** Without a subscription, or with one that is not active, the answer
    is ["invalid"]. *)
Lemma file_validity_linked_missing (db : Db) (now : datetime) (sid : string) :
  get_subscription db sid = None ->
  file_validity_linked db now sid = Returned "invalid".
Proof. intros H. unfold file_validity_linked. now rewrite H. Qed.

Lemma file_validity_linked_inactive
    (db : Db) (now : datetime) (sid : string) (sub : Subscription) :
  get_subscription db sid = Some sub ->
  String.eqb (status sub) "active" = false ->
  file_validity_linked db now sid = Returned "invalid".
Proof. intros H Hs. unfold file_validity_linked. now rewrite H, Hs. Qed.

Section Verdicts.
Context {P : Primitives} {R : Runtime}.

(** The standard branch reaches [timedelta] before the name has a
    value: never ["valid"]. *)
Lemma file_validity_own_never_valid (now : datetime) (info : json) :
  file_validity_own now info <> Returned "valid".
Proof.
  unfold file_validity_own.
  destruct (PyJson.contains "issued_at" info) as [hi|]; cbn [bind]; [|discriminate].
  destruct (if hi then PyJson.contains "validity_days" info else Returned false)
    as [hd|]; cbn [bind]; [|discriminate].
  destruct (hi && hd); [|discriminate].
  destruct (PyJson.getitem info "issued_at") as [s|]; cbn [bind]; [|discriminate].
  destruct (PyJson.getitem info "validity_days") as [d|]; cbn [bind]; [|discriminate].
  match goal with |- bind ?m _ <> _ => destruct m end; cbn [bind local_timedelta];
    discriminate.
Qed.

(** Step 6 on claims that name the subscription [sid]. *)
Lemma file_validity_named (db : Db) (now : datetime) (info : json) (sid : string) :
  PyJson.get info "linked_subscription" = Returned (JStr sid) ->
  sid <> EmptyString ->
  file_validity db now info
  = match file_validity_linked db now sid with
    | Returned v => v
    | Raised _ => "invalid"
    end.
Proof.
  intros Hg Hne. unfold file_validity. rewrite Hg. cbn [bind PyJson.truthy].
  rewrite (truthy_nonempty _ Hne). unfold try_except.
  destruct (file_validity_linked db now sid); reflexivity.
Qed.

(** Step 6 on claims that name no subscription. *)
Lemma file_validity_unnamed (db : Db) (now : datetime) (info ls : json) :
  PyJson.get info "linked_subscription" = Returned ls ->
  PyJson.truthy ls = false ->
  file_validity db now info = "invalid".
Proof.
  intros Hg Ht. unfold file_validity. rewrite Hg. cbn [bind]. rewrite Ht.
  pose proof (file_validity_own_never_valid now info) as Hn.
  destruct (file_validity_own now info) as [v|] eqn:E; [|reflexivity].
  destruct (file_validity_own_cases now info v E); congruence.
Qed.

Lemma validate_license_data_shape
    (db : Db) (now : datetime) (l : License) (data r : json) :
  validate_license_data db now l data = Returned r ->
  exists v s li,
    r = opened_reply v s li /\ (v = file_validity db now li \/ v = "invalid").
Proof.
  unfold validate_license_data. intros H.
  repeat run_bind H.
  exists a2, a1, a3. split; [reflexivity|].
  destruct data; cbn in E3; try discriminate. inv E3.
  cbn [PyJson.contains] in E. inv E.
  destruct (PyJson.assoc "license" fields) as [x|] eqn:Ea.
  - cbn [PyJson.getitem bind] in E2. rewrite Ea in E2. cbn [bind] in E2.
    inv E2. auto.
  - inv E2. auto.
Qed.

(** A reply of [validate_license_file] is either the failed reply or
    the reply on an opened artifact. *)
Lemma validate_license_file_shape
    (db : Db) (clock : datetime) (license_key : string) (file : bytes) (r : json) :
  validate_license_file db clock license_key file = Returned r ->
  (exists msg, r = failed_reply msg)
  \/ (exists v s li,
        r = opened_reply v s li
        /\ (v = file_validity db (now_utc clock) li \/ v = "invalid")).
Proof.
  unfold validate_license_file. intros H.
  match type of H with try_except ?b _ = _ => destruct b as [x|e] eqn:Hb end;
    cbn [try_except] in H; [| inv H; eauto].
  inv H.
  destruct (b <- Base64.b64decode license_key ;; utf8_decode b) as [k|e];
    [| inv Hb; eauto].
  destruct (license_by_key db k) as [l|]; [| inv Hb; eauto].
  destruct (utf8_decode file) as [text|e]; cbn [bind] in Hb; [| discriminate].
  destruct (first_master_key db) as [mk|]; [| inv Hb; eauto].
  destruct (decrypted_content <- hybrid_decrypt (strip text) (private_key mk) ;;
            json_loads decrypted_content) as [data|e]; [| inv Hb; eauto].
  right. eapply validate_license_data_shape. exact Hb.
Qed.

End Verdicts.

(** C2, as the code has it: whenever the claims of an uploaded artifact
    name a subscription that exists and carries an end date, the reply of
    [validate_license_file] has [validity = invalid]; this also when the
    subscription is active and the end date lies in the future. *)
Theorem C2_end_date_reported_invalid {P : Primitives} {R : Runtime}
    (db : Db) (clock : datetime) (license_key : string) (file : bytes)
    (r info : json) (sid : string) (sub : Subscription) (e : datetime) :
  validate_license_file db clock license_key file = Returned r ->
  PyJson.getitem r "license_info" = Returned info ->
  PyJson.get info "linked_subscription" = Returned (JStr sid) ->
  sid <> EmptyString ->
  get_subscription db sid = Some sub ->
  end_date sub = Some e ->
  PyJson.getitem r "validity" = Returned (JStr "invalid").
Proof.
  intros Hr Hi Hg Hne Hs He.
  destruct (validate_license_file_shape _ _ _ _ _ Hr)
    as [[msg ->] | (v & s & li & -> & Hv)].
  - reflexivity.
  - cbn in Hi. inv Hi. destruct Hv as [-> | ->]; [|reflexivity].
    rewrite (file_validity_named db _ info sid Hg Hne).
    pose proof (file_validity_linked_end_date db (now_utc clock) sid sub e Hs He) as Hn.
    destruct (file_validity_linked db (now_utc clock) sid) as [v|] eqn:E;
      [|reflexivity].
    destruct (file_validity_linked_cases _ _ _ _ E) as [-> | ->];
      [congruence | reflexivity].
Qed.

(** ** The validity window at issuance and at creation *)

Lemma issue_claims_validity_days (l : License) (v : option Z) (x : option string) :
  PyJson.getitem (issue_claims l v x) "validity_days"
  = Returned (PyJson.of_opt_int v).
Proof.
  unfold issue_claims. destruct x as [s|]; [destruct (PyStr.truthy s)|];
    reflexivity.
Qed.

Lemma issue_claims_linked (l : License) (v : option Z) (x : option string) :
  PyJson.get (issue_claims l v x) "linked_subscription"
  = Returned (PyJson.of_opt_str (linked_subscription l)).
Proof.
  unfold issue_claims. destruct x as [s|]; [destruct (PyStr.truthy s)|];
    reflexivity.
Qed.

(** A row whose stored interval is outside the [Enum] cannot be read. *)
Lemma get_plan_definition_outside_enum
    (db : Db) (pid : string) (row : PlanDefinitionRow) :
  find (fun p => String.eqb (row_id p) pid) (plan_definitions db) = Some row ->
  row_billing_interval row <> "monthly" ->
  row_billing_interval row <> "yearly" ->
  get_plan_definition db pid = Raised LookupError.
Proof.
  intros Hf Hm Hy. apply String.eqb_neq in Hm. apply String.eqb_neq in Hy.
  unfold get_plan_definition, PlanDefinition_of_row, Enum_billing_interval.
  rewrite Hf, Hm, Hy. reflexivity.
Qed.

(** C5, as amended: for a license linked to a subscription without end
    date whose plan row holds a billing interval that is neither
    monthly nor yearly, no call site gets to a day count: the column is
    an [Enum] of the two values, so reading the plan raises
    [LookupError] at license creation, where nothing is stored, at
    artifact issuance, where nothing is issued, and in the record-based
    verifier; the file-based verifier catches it and reports
    [invalid].  The 30-day branches are not reached, since a plan that
    was read is monthly or yearly. *)
Theorem C5_other_interval_is_not_read
    {P : Primitives} {R : Runtime}
    (db : Db) (l : License) (sid : string) (sub : Subscription)
    (row : PlanDefinitionRow) (i : datetime) :
  linked_subscription l = Some sid ->
  sid <> EmptyString ->
  get_subscription db sid = Some sub ->
  end_date sub = None ->
  issue_date sub = Some i ->
  find (fun p => String.eqb (row_id p) (subscription_plan_id sub))
    (plan_definitions db) = Some row ->
  row_billing_interval row <> "monthly" ->
  row_billing_interval row <> "yearly" ->
  create_license_window db sid = Raised LookupError
  /\ (forall license keypair new_id,
        schemas.linked_subscription license = Some sid ->
        crud.create_license db license keypair new_id = Raised LookupError)
  /\ issue_window db l = Raised LookupError
  /\ (forall e_sign e_enc encoded_key key,
        (b <- Base64.b64decode encoded_key ;; utf8_decode b) = Returned key ->
        license_by_key db key = Some l ->
        issue_license_file db e_sign e_enc encoded_key = Raised LookupError)
  /\ (forall now, validate_license_linked db now l sub = Raised LookupError)
  /\ (forall clock key t,
        license_by_key db key = Some l ->
        get_tenant db (license_tenant_id l) = Some t ->
        tenant_is_active t = true ->
        status sub = "active" ->
        exists detail,
          validate_license db clock key = Raised (HTTPException 500 detail))
  /\ (forall now info,
        PyJson.get info "linked_subscription" = Returned (JStr sid) ->
        file_validity db now info = "invalid")
  /\ (forall pid plan,
        get_plan_definition db pid = Returned (Some plan) ->
        exists r,
          find (fun p => String.eqb (row_id p) pid) (plan_definitions db) = Some r
          /\ (row_billing_interval r = "monthly"
              \/ row_billing_interval r = "yearly")).
Proof.
  intros Hl Hne Hs He Hi Hf Hm Hy.
  pose proof (get_plan_definition_outside_enum db _ row Hf Hm Hy) as Hp.
  assert (Hw : create_license_window db sid = Raised LookupError).
  { unfold create_license_window. rewrite Hs, He, Hp. reflexivity. }
  assert (Hiw : issue_window db l = Raised LookupError).
  { unfold issue_window. rewrite Hl, (truthy_nonempty _ Hne). cbn [negb].
    rewrite Hs, He. unfold subscription_plan. rewrite Hp. reflexivity. }
  split; [exact Hw|].
  split.
  { intros license [k sk] new_id Hls. unfold crud.create_license.
    rewrite Hls, (truthy_nonempty _ Hne), Hw. reflexivity. }
  split; [exact Hiw|].
  split.
  { intros e_sign e_enc encoded_key key Hk Hlk. unfold issue_license_file.
    rewrite Hk. cbn [try_except bind]. rewrite Hlk, Hiw. reflexivity. }
  assert (Hvl : forall now,
             validate_license_linked db now l sub = Raised LookupError).
  { intros now. unfold validate_license_linked.
    rewrite Hi. cbn [attr_of_date bind]. rewrite He.
    unfold subscription_plan. rewrite Hp. reflexivity. }
  split; [exact Hvl|].
  split.
  { intros clock key t Hlk Ht Ha Hst. unfold validate_license.
    rewrite Hlk, Ht, Ha, Hl, (truthy_nonempty _ Hne), Hs, Hst.
    cbn [negb String.eqb Ascii.eqb Bool.eqb]. rewrite Hvl.
    cbn [try_except is_http_exception]. eauto. }
  split.
  { intros now info Hg. rewrite (file_validity_named db now info sid Hg Hne).
    unfold file_validity_linked. rewrite Hs.
    destruct (String.eqb (status sub) "active"); cbn [negb]; [|reflexivity].
    rewrite Hi. cbn [attr_of_date bind]. rewrite He.
    unfold subscription_plan. rewrite Hp. reflexivity. }
  intros pid plan Hr. unfold get_plan_definition in Hr.
  destruct (find (fun p => String.eqb (row_id p) pid) (plan_definitions db))
    as [r|]; [|discriminate].
  exists r. split; [reflexivity|].
  unfold PlanDefinition_of_row, Enum_billing_interval in Hr.
  destruct (String.eqb (row_billing_interval r) "monthly") eqn:Em;
    [left; now apply String.eqb_eq|].
  destruct (String.eqb (row_billing_interval r) "yearly") eqn:Ey;
    [right; now apply String.eqb_eq | discriminate].
Qed.

(** C4, as the code has it: [issue_license_file] takes the first record
    of the master-key table, whatever its [is_active] flag and whatever
    records follow, and encrypts under its public key; the
    key-not-configured error needs an empty table.  And a license whose
    subscription does not exist is issued all the same, with the day
    count stored on the license, without an error. *)
Theorem C4_issue_ignores_active_flag_and_lost_subscription
    {P : Primitives} {R : Runtime}
    (db : Db) (e_sign e_enc : entropy) (encoded_key key : string) (l : License) :
  (b <- Base64.b64decode encoded_key ;; utf8_decode b) = Returned key ->
  license_by_key db key = Some l ->
  (forall w sg mk rest,
     issue_window db l = Returned w ->
     sign_payload e_sign (json_dumps (issue_claims l (fst w) (snd w)))
       (license_secret l) = Returned sg ->
     master_keys db = mk :: rest ->
     issue_license_file db e_sign e_enc encoded_key
     = hybrid_encrypt e_enc
         (json_dumps (envelope (issue_claims l (fst w) (snd w)) sg))
         (public_key mk))
  /\ (forall w sg,
        issue_window db l = Returned w ->
        sign_payload e_sign (json_dumps (issue_claims l (fst w) (snd w)))
          (license_secret l) = Returned sg ->
        master_keys db = [] ->
        issue_license_file db e_sign e_enc encoded_key
        = Raised (HTTPException 500 "Master key not configured"))
  /\ (forall sid,
        linked_subscription l = Some sid ->
        get_subscription db sid = None ->
        issue_window db l = Returned (validity_days l, None)).
Proof.
  intros Hk Hl. split; [|split].
  - intros w sg mk rest Hw Hs Hm. unfold issue_license_file.
    rewrite Hk. cbn [try_except bind]. rewrite Hl, Hw. cbn [bind].
    rewrite Hs. cbn [bind]. unfold first_master_key. rewrite Hm. reflexivity.
  - intros w sg Hw Hs Hm. unfold issue_license_file.
    rewrite Hk. cbn [try_except bind]. rewrite Hl, Hw. cbn [bind].
    rewrite Hs. cbn [bind]. unfold first_master_key. rewrite Hm. reflexivity.
  - intros sid Hls Hg. unfold issue_window. rewrite Hls, Hg.
    destruct (negb (PyStr.truthy sid)); reflexivity.
Qed.

(** ** License creation *)


(** The field validator runs before [issued_at] and [validity_days] are
    in [values.data]: a request that names a subscription and gives
    dates as well passes. *)
Lemma validate_accepts_link_with_dates :
  schemas.validate Toy.body_both
  = Returned (schemas.mkLicenseCreate "tenant-1" None (Some "sub-yearly")
                (Some (Toy.utc 2020 1 1)) (Some 5) (JObj [])).
Proof. reflexivity. Qed.



(** ** The record-based verifier against the file-based one *)

Lemma valid_shape_not_tri_state (r : json) (b : bool) :
  valid_shape r b -> ~ tri_state r.
Proof.
  intros [rest ->] (p & v & s & rest' & H & _). discriminate H.
Qed.

Lemma validate_license_verdict_shape
    (l : License) (now i : datetime) (v : option Z) (x : datetime) (r : json) :
  validate_license_verdict l now i v x = Returned r ->
  exists b, valid_shape r b.
Proof.
  unfold validate_license_verdict. intros H. run_bind H.
  destruct a; inv H; eexists; eexists; reflexivity.
Qed.

(** A reply of [validate_license] has the shape [{valid: ..., ...}]. *)
Lemma validate_license_shape (db : Db) (clock : datetime) (key : string) (r : json) :
  validate_license db clock key = Returned r -> exists b, valid_shape r b.
Proof.
  unfold validate_license. intros H.
  match type of H with try_except ?b _ = _ => destruct b as [x|e] eqn:Hb end;
    cbn [try_except] in H; [inv H | destruct (is_http_exception e); discriminate].
  assert (Hinv : forall a b, exists c, valid_shape (invalid_reply a b) c)
    by (intros; eexists; eexists; reflexivity).
  destruct (license_by_key db key) as [l|]; [|discriminate].
  destruct (get_tenant db (license_tenant_id l)) as [t|]; [|inv Hb; apply Hinv].
  destruct (negb (tenant_is_active t)); [inv Hb; apply Hinv|].
  assert (Hown : forall y, validate_license_own (now_utc clock) l = Returned y ->
                           exists c, valid_shape y c).
  { unfold validate_license_own. intros y Hy. repeat run_bind Hy.
    eapply validate_license_verdict_shape; eassumption. }
  destruct (linked_subscription l) as [sid|]; [|eauto].
  destruct (negb (PyStr.truthy sid)); [eauto|].
  destruct (get_subscription db sid) as [sub|]; [|inv Hb; apply Hinv].
  destruct (negb (String.eqb (status sub) "active")); [inv Hb; apply Hinv|].
  unfold validate_license_linked in Hb. repeat run_bind Hb.
  eapply validate_license_verdict_shape; eassumption.
Qed.

(** The record-based reply for a linked license whose subscription is
    missing or not active, the tenant being active. *)
Lemma validate_license_rejects_lost_subscription
    (db : Db) (clock : datetime) (key sid : string) (l : License) (t : Tenant) :
  license_by_key db key = Some l ->
  get_tenant db (license_tenant_id l) = Some t ->
  tenant_is_active t = true ->
  linked_subscription l = Some sid ->
  sid <> EmptyString ->
  (get_subscription db sid = None
   \/ exists sub, get_subscription db sid = Some sub
                  /\ String.eqb (status sub) "active" = false) ->
  exists r, validate_license db clock key = Returned r /\ valid_shape r false.
Proof.
  intros Hl Ht Ha Hs Hne Hsub. unfold validate_license.
  rewrite Hl, Ht, Ha, Hs, (truthy_nonempty _ Hne). cbn [negb].
  destruct Hsub as [Hn | (sub & Hg & Hst)].
  - rewrite Hn. cbn [try_except]. eexists. split; [reflexivity|].
    eexists. reflexivity.
  - rewrite Hg, Hst. cbn [negb try_except]. eexists. split; [reflexivity|].
    eexists. reflexivity.
Qed.

(** The shapes of the two replies, and the rejections they share: for
    a stored license and an artifact freshly issued for it, a reply of
    [validate_license] has the shape [{valid, ...}], which is not the
    tri-state shape, and [validate_license_file] answers in the
    tri-state shape, with the artifact opened and its signature
    verified; and for a license linked to a subscription that is missing
    or not active, under an active tenant, both reject:
    [valid = false] and [validity = invalid]. *)
Lemma shapes_and_shared_rejections
    {P : Primitives} {R : Runtime} (L : PrimitiveLaws P)
    (db : Db) (clock : datetime) (e_sign e_enc : entropy)
    (encoded_key key artifact : string) (file : bytes)
    (l : License) (mk : MasterKey) (msk lsk : private_key_t) :
  (b <- Base64.b64decode encoded_key ;; utf8_decode b) = Returned key ->
  license_by_key db key = Some l ->
  first_master_key db = Some mk ->
  key_pair_of msk (public_key mk) (private_key mk) ->
  key_pair_of lsk (license_key l) (license_secret l) ->
  codec_faithful_on_issue db e_sign l ->
  issue_license_file db e_sign e_enc encoded_key = Returned artifact ->
  utf8_encode artifact = Returned file ->
  (forall r, validate_license db clock key = Returned r ->
     exists b, valid_shape r b /\ ~ tri_state r)
  /\ (exists v claims,
        validate_license_file db clock encoded_key file
        = Returned (opened_reply v "verified" claims)
        /\ tri_state (opened_reply v "verified" claims))
  /\ (forall sid t,
        get_tenant db (license_tenant_id l) = Some t ->
        tenant_is_active t = true ->
        linked_subscription l = Some sid ->
        sid <> EmptyString ->
        (get_subscription db sid = None
         \/ exists sub, get_subscription db sid = Some sub
                        /\ String.eqb (status sub) "active" = false) ->
        (exists r, validate_license db clock key = Returned r
                   /\ valid_shape r false)
        /\ (exists claims,
              validate_license_file db clock encoded_key file
              = Returned (opened_reply "invalid" "verified" claims))).
Proof.
  intros Hkey Hl Hmk Hm Hlk Hcodec Hissue Hfile.
  destruct (issue_then_validate L db clock e_sign e_enc encoded_key key artifact
              file l mk msk lsk Hkey Hl Hmk Hm Hlk Hcodec Hissue Hfile)
    as (w & Hw & Hv).
  split; [|split].
  - intros r Hr. destruct (validate_license_shape _ _ _ _ Hr) as [b Hb].
    exists b. split; [exact Hb | eapply valid_shape_not_tri_state; exact Hb].
  - eexists. eexists. split; [exact Hv|].
    do 4 eexists. split; [reflexivity|].
    repeat split; auto. apply file_validity_cases.
  - intros sid t Ht Ha Hs Hne Hsub. split.
    + eapply validate_license_rejects_lost_subscription; eassumption.
    + eexists. rewrite Hv. do 2 f_equal.
      rewrite (file_validity_named db _ _ sid);
        [| rewrite issue_claims_linked, Hs; reflexivity | exact Hne].
      destruct Hsub as [Hn | (sub & Hg & Hst)].
      * now rewrite file_validity_linked_missing.
      * now rewrite (file_validity_linked_inactive _ _ _ sub).
Qed.

(** C1, as the code has it, on a license with its own dates: for every
    stored license of an active tenant that is linked to no
    subscription, and the artifact freshly issued for it, the
    record-based endpoint gives no verdict, it ends in HTTP 500 at
    [datetime.timedelta] (line 502), and the file-based endpoint opens
    the artifact, verifies its signature and reports [invalid], since
    its [timedelta] is an unbound local name (line 686).  This is so at
    every clock, also while [now <= issued_at + (validity_days - 1)
    days]. *)
Theorem C1_own_dates_get_no_valid_verdict
    {P : Primitives} {R : Runtime} (L : PrimitiveLaws P)
    (db : Db) (clock : datetime) (e_sign e_enc : entropy)
    (encoded_key key artifact : string) (file : bytes)
    (l : License) (mk : MasterKey) (msk lsk : private_key_t) (t : Tenant) :
  (b <- Base64.b64decode encoded_key ;; utf8_decode b) = Returned key ->
  license_by_key db key = Some l ->
  first_master_key db = Some mk ->
  key_pair_of msk (public_key mk) (private_key mk) ->
  key_pair_of lsk (license_key l) (license_secret l) ->
  codec_faithful_on_issue db e_sign l ->
  issue_license_file db e_sign e_enc encoded_key = Returned artifact ->
  utf8_encode artifact = Returned file ->
  get_tenant db (license_tenant_id l) = Some t ->
  tenant_is_active t = true ->
  truthy_opt (linked_subscription l) = false ->
  (exists detail,
     validate_license db clock key = Raised (HTTPException 500 detail))
  /\ validate_license_file db clock encoded_key file
     = Returned (opened_reply "invalid" "verified"
                   (issue_claims l (validity_days l) None)).
Proof.
  intros Hkey Hl Hmk Hm Hlk Hcodec Hissue Hfile Ht Ha Hs.
  split.
  - unfold validate_license. rewrite Hl, Ht, Ha. cbn [negb].
    assert (Hown : exists e, validate_license_own (now_utc clock) l = Raised e
                             /\ is_http_exception e = false).
    { unfold validate_license_own.
      destruct (issued_at l); cbn; eexists; split; reflexivity. }
    destruct Hown as (e & He & Hh).
    destruct (linked_subscription l) as [sid|]; cbn [truthy_opt] in Hs.
    + rewrite Hs. cbn [negb]. rewrite He. cbn [try_except]. rewrite Hh. eauto.
    + rewrite He. cbn [try_except]. rewrite Hh. eauto.
  - destruct (issue_then_validate L db clock e_sign e_enc encoded_key key artifact
                file l mk msk lsk Hkey Hl Hmk Hm Hlk Hcodec Hissue Hfile)
      as (w & Hw & Hv).
    assert (w = (validity_days l, None)) as ->.
    { unfold issue_window in Hw.
      destruct (linked_subscription l) as [sid|]; cbn [truthy_opt] in Hs;
        [rewrite Hs in Hw|]; cbn [negb] in Hw; now inv Hw. }
    rewrite Hv. cbn [fst snd]. do 2 f_equal.
    eapply file_validity_unnamed; [apply issue_claims_linked|].
    destruct (linked_subscription l); exact Hs.
Qed.

(** ** The concrete setting *)

Lemma bytes_eqb_refl (a : bytes) : Toy.bytes_eqb a a = true.
Proof.
  induction a as [|x a IH]; cbn; [reflexivity|].
  rewrite IH. now rewrite (Byte.byte_dec_lb (eq_refl x)).
Qed.

(** The stand-ins meet the contracts of the primitives. *)
Lemma toy_laws : PrimitiveLaws Toy.toy_primitives.
Proof.
  constructor; cbn.
  - reflexivity.
  - reflexivity.
  - intros sk e m _. exists (rev m). now rewrite rev_involutive.
  - intros sk e m. exists (sk ++ m). now rewrite bytes_eqb_refl.
  - intros key iv m _ _. exists (rev m), Toy.toy_tag.
    rewrite rev_involutive. repeat split.
  - intros s. eexists. split; [reflexivity|].
    now rewrite string_of_list_byte_of_string.
Qed.

(** ** The statements at concrete inputs *)

Lemma toy_key_pair (a b c d : Byte.byte) :
  key_pair_of (P := Toy.toy_primitives) [a; b; c; d]
    (Toy.key_of a b c d) (Toy.key_of a b c d).
Proof. split; reflexivity. Qed.

Lemma toy_codec_faithful_gone :
  codec_faithful_on_issue (P := Toy.toy_primitives) (R := Toy.toy_runtime)
    Toy.db0 Toy.constant_entropy Toy.lic_gone.
Proof.
  intros w sg Hw Hs. vm_compute in Hw. inv Hw.
  vm_compute in Hs. inv Hs. vm_compute. reflexivity.
Qed.

Lemma toy_codec_faithful_own :
  codec_faithful_on_issue (P := Toy.toy_primitives) (R := Toy.toy_runtime)
    Toy.db0 Toy.constant_entropy Toy.lic_own.
Proof.
  intros w sg Hw Hs. vm_compute in Hw. inv Hw.
  vm_compute in Hs. inv Hs. vm_compute. reflexivity.
Qed.

(** C1 on the license of [db0] that has its own dates (issued
    2024-01-01 for 30 days), checked on 2024-01-10: the window the claim
    names is open, yet the record-based endpoint ends in HTTP 500 and
    the file-based endpoint, on the artifact just issued, reports
    [invalid]. *)
Lemma C1_own_dates_get_no_valid_verdict_witness :
  issued_at Toy.lic_own = Some (Toy.utc 2024 1 1)
  /\ validity_days Toy.lic_own = Some 30
  /\ (t <- timedelta_days (30 - 1) ;;
      expiry <- dt_add (Toy.utc 2024 1 1) t ;;
      dt_le (now_utc (Toy.utc 2024 1 10)) expiry) = Returned true
  /\ (exists detail,
        validate_license Toy.db0 (Toy.utc 2024 1 10) (license_key Toy.lic_own)
        = Raised (HTTPException 500 detail))
  /\ Toy.verify_issued Toy.lic_own (Toy.utc 2024 1 10)
     = Returned (opened_reply "invalid" "verified"
                   (issue_claims Toy.lic_own (Some 30) None)).
Proof.
  split; [reflexivity|]. split; [reflexivity|].
  split; [vm_compute; reflexivity|].
  assert (Ha : exists a, Toy.artifact_of Toy.lic_own = Returned a)
    by (eexists; vm_compute; reflexivity).
  destruct Ha as [a Ha].
  assert (Hf : utf8_encode (Primitives := Toy.toy_primitives) a
               = Returned (Toy.file_of Toy.lic_own))
    by (unfold Toy.file_of; rewrite Ha; reflexivity).
  apply (C1_own_dates_get_no_valid_verdict
           (P := Toy.toy_primitives) (R := Toy.toy_runtime) toy_laws
           Toy.db0 (Toy.utc 2024 1 10) Toy.constant_entropy Toy.constant_entropy
           (Toy.encoded (license_key Toy.lic_own)) (license_key Toy.lic_own)
           a (Toy.file_of Toy.lic_own) Toy.lic_own Toy.master_old
           [Byte.x01; Byte.x02; Byte.x03; Byte.x04]
           [Byte.x11; Byte.x12; Byte.x13; Byte.x14] Toy.tenant1
           ltac:(vm_compute; reflexivity) ltac:(reflexivity) ltac:(reflexivity)
           (toy_key_pair _ _ _ _) (toy_key_pair _ _ _ _)
           toy_codec_faithful_own Ha Hf ltac:(reflexivity) ltac:(reflexivity)
           ltac:(reflexivity)).
Defined.

Lemma shapes_and_shared_rejections_on_lost_subscription :
  get_subscription Toy.db0 "sub-gone" = None
  /\ (exists r,
        validate_license Toy.db0 (Toy.utc 2024 1 2) (license_key Toy.lic_gone)
        = Returned r /\ valid_shape r false)
  /\ (exists claims,
        Toy.verify_issued Toy.lic_gone (Toy.utc 2024 1 2)
        = Returned (opened_reply "invalid" "verified" claims)).
Proof.
  split; [reflexivity|].
  assert (Ha : exists a, Toy.artifact_of Toy.lic_gone = Returned a)
    by (eexists; vm_compute; reflexivity).
  destruct Ha as [a Ha].
  assert (Hf : utf8_encode (Primitives := Toy.toy_primitives) a
               = Returned (Toy.file_of Toy.lic_gone))
    by (unfold Toy.file_of; rewrite Ha; reflexivity).
  destruct (shapes_and_shared_rejections
              (P := Toy.toy_primitives) (R := Toy.toy_runtime) toy_laws
              Toy.db0 (Toy.utc 2024 1 2) Toy.constant_entropy Toy.constant_entropy
              (Toy.encoded (license_key Toy.lic_gone)) (license_key Toy.lic_gone)
              a (Toy.file_of Toy.lic_gone) Toy.lic_gone Toy.master_old
              [Byte.x01; Byte.x02; Byte.x03; Byte.x04]
              [Byte.x41; Byte.x42; Byte.x43; Byte.x44]
              ltac:(vm_compute; reflexivity) ltac:(reflexivity) ltac:(reflexivity)
              (toy_key_pair _ _ _ _) (toy_key_pair _ _ _ _)
              toy_codec_faithful_gone Ha Hf)
    as (_ & _ & H).
  apply (H "sub-gone" Toy.tenant1); try reflexivity.
  - discriminate.
  - left. reflexivity.
Defined.

Lemma C2_end_date_reported_invalid_witness :
  String.eqb (status Toy.sub_end) "active" = true
  /\ dt_le (now_utc (Toy.utc 2024 1 10)) (Toy.utc 2030 1 1) = Returned true
  /\ dt_le (Toy.utc 2030 1 1) (now_utc (Toy.utc 2024 1 10)) = Returned false
  /\ exists r,
       Toy.verify_issued Toy.lic_end (Toy.utc 2024 1 10) = Returned r
       /\ PyJson.getitem r "validity" = Returned (JStr "invalid").
Proof.
  split; [reflexivity|]. split; [reflexivity|]. split; [reflexivity|].
  eexists. split; [vm_compute; reflexivity|].
  apply (C2_end_date_reported_invalid
           (P := Toy.toy_primitives) (R := Toy.toy_runtime)
           Toy.db0 (Toy.utc 2024 1 10) (Toy.encoded (license_key Toy.lic_end))
           (Toy.file_of Toy.lic_end) _
           (issue_claims Toy.lic_end (Some 2192)
              (Some (isoformat (Toy.utc 2030 1 1))))
           "sub-end" Toy.sub_end (Toy.utc 2030 1 1)).
  - vm_compute. reflexivity.
  - vm_compute. reflexivity.
  - reflexivity.
  - discriminate.
  - reflexivity.
  - reflexivity.
Defined.

Lemma C4_issue_witness :
  is_active Toy.master_old = false
  /\ active_master_key Toy.db0 = Some Toy.master_new
  /\ get_subscription Toy.db0 "sub-gone" = None
  /\ issue_window Toy.db0 Toy.lic_gone = Returned (Some 7, None)
  /\ exists sg,
       Toy.artifact_of Toy.lic_gone
       = hybrid_encrypt (P := Toy.toy_primitives) Toy.constant_entropy
           (Toy.dumps (envelope (issue_claims Toy.lic_gone (Some 7) None) sg))
           (public_key Toy.master_old).
Proof.
  destruct (C4_issue_ignores_active_flag_and_lost_subscription
              (P := Toy.toy_primitives) (R := Toy.toy_runtime)
              Toy.db0 Toy.constant_entropy Toy.constant_entropy
              (Toy.encoded (license_key Toy.lic_gone)) (license_key Toy.lic_gone)
              Toy.lic_gone ltac:(vm_compute; reflexivity) ltac:(reflexivity))
    as (H1 & _ & H3).
  split; [reflexivity|]. split; [reflexivity|]. split; [reflexivity|].
  split; [exact (H3 "sub-gone" eq_refl eq_refl)|].
  eexists.
  apply (H1 (Some 7, None) _ Toy.master_old [Toy.master_new]).
  - reflexivity.
  - vm_compute. reflexivity.
  - reflexivity.
Defined.

(** C5 at the row [plan-w], whose stored interval is [weekly]: the
    claim has 30 days at every call site and in the artifact; creation
    and issuance raise instead. *)
Lemma C5_counterexample :
  linked_subscription Cases.lic_weekly = Some "sub-weekly"
  /\ get_subscription Cases.db_weekly "sub-weekly" = Some Cases.sub_weekly
  /\ end_date Cases.sub_weekly = None
  /\ find (fun p => String.eqb (row_id p) (subscription_plan_id Cases.sub_weekly))
       (plan_definitions Cases.db_weekly) = Some Cases.plan_weekly
  /\ row_billing_interval Cases.plan_weekly = "weekly"
  /\ (forall issued,
        create_license_window Cases.db_weekly "sub-weekly"
        <> Returned (issued, Some 30))
  /\ crud.create_license Cases.db_weekly Cases.request_weekly
       (Toy.key_of Byte.x61 Byte.x62 Byte.x63 Byte.x64,
        Toy.key_of Byte.x61 Byte.x62 Byte.x63 Byte.x64) "lic-new"
     = Raised LookupError
  /\ (forall w, issue_window Cases.db_weekly Cases.lic_weekly <> Returned w)
  /\ issue_license_file (P := Toy.toy_primitives) (R := Toy.toy_runtime)
       Cases.db_weekly Toy.constant_entropy Toy.constant_entropy
       (Toy.encoded (license_key Cases.lic_weekly))
     = Raised LookupError.
Proof.
  repeat (split; [reflexivity|]).
  split; [intros issued H; vm_compute in H; discriminate|].
  split; [vm_compute; reflexivity|].
  split; [intros w H; vm_compute in H; discriminate|].
  vm_compute. reflexivity.
Qed.

Lemma C5_other_interval_is_not_read_witness :
  create_license_window Cases.db_weekly "sub-weekly" = Raised LookupError
  /\ issue_window Cases.db_weekly Cases.lic_weekly = Raised LookupError
  /\ validate_license_linked Cases.db_weekly (Toy.utc 2024 1 10)
       Cases.lic_weekly Cases.sub_weekly = Raised LookupError
  /\ file_validity (R := Toy.toy_runtime) Cases.db_weekly (Toy.utc 2024 1 10)
       (issue_claims Cases.lic_weekly (Some 10) None) = "invalid".
Proof.
  destruct (C5_other_interval_is_not_read
              (P := Toy.toy_primitives) (R := Toy.toy_runtime)
              Cases.db_weekly Cases.lic_weekly "sub-weekly" Cases.sub_weekly
              Cases.plan_weekly (Toy.utc 2024 1 1)
              ltac:(reflexivity) ltac:(discriminate) ltac:(reflexivity)
              ltac:(reflexivity) ltac:(reflexivity) ltac:(reflexivity)
              ltac:(discriminate) ltac:(discriminate))
    as (H1 & _ & H3 & _ & H5 & _ & H6 & _).
  split; [exact H1|]. split; [exact H3|]. split; [apply H5|].
  apply H6. reflexivity.
Defined.


Lemma C7_decryption_failure_witness :
  exists r,
    validate_license_file (P := Toy.toy_primitives) (R := Toy.toy_runtime)
      Toy.db0 (Toy.utc 2024 1 2) (Toy.encoded (license_key Toy.lic_own))
      (list_byte_of_string "not an artifact") = Returned r
    /\ PyJson.getitem r "parsing" = Returned (JStr "failed")
    /\ PyJson.getitem r "signature" = Returned (JStr "verification_failed")
    /\ PyJson.getitem r "validity" = Returned (JStr "invalid").
Proof.
  destruct (C7_validate_license_file_never_raises
              (P := Toy.toy_primitives) (R := Toy.toy_runtime)
              Toy.db0 (Toy.utc 2024 1 2) (Toy.encoded (license_key Toy.lic_own))
              (list_byte_of_string "not an artifact")) as [_ H].
  apply (H (license_key Toy.lic_own) Toy.lic_own "not an artifact"
           Toy.master_old ValueError); vm_compute; reflexivity.
Defined.


Lemma C10_get_master_keys_mask_witness :
  exists masked entries,
    get_master_keys Toy.db0 true = Returned entries
    /\ List.length entries = 2%nat
    /\ masked = private_key Toy.master_old
    /\ Forall (fun e => PyJson.getitem e "private_key_masked"
                        = Returned (JStr masked)) entries.
Proof.
  destruct (C10_get_master_keys_mask Toy.db0 Toy.master_old [Toy.master_new]
              eq_refl)
    as (masked & entries & He & Hf & _ & Hs & _).
  exists masked, entries. split; [exact He|].
  split; [apply Forall2_length in Hf; rewrite <- Hf; reflexivity|].
  split; [apply Hs; [discriminate | cbn; lia]|].
  clear He. induction Hf; constructor; [tauto | assumption].
Defined.

(** ** The renewal loop *)

Section RenewalLoop.
Import license_controller common_models.
Variable json_loads : string -> outcome json.
Variable json_dumps : json -> string.
Variable isoparse : string -> outcome datetime.
Variable settings : Settings.

Abbreviation read_license := (read_license json_loads isoparse).
Abbreviation check_license := (check_license json_loads isoparse).
Abbreviation fetch_license := (fetch_license json_dumps settings).
Abbreviation tick := (tick json_loads json_dumps isoparse settings).
Abbreviation loop := (loop json_loads json_dumps isoparse settings).

(** [SignedLicense] declares no attribute [payload]: reading an
    existing file never gets to a day count. *)
Lemma read_license_never_returns (env : TickEnv) (text : string) :
  exists e, read_license env text = Raised e.
Proof.
  unfold license_controller.read_license.
  destruct (read_error env) as [e|]; [eauto|].
  destruct (json_loads text) as [d|e]; cbn [bind]; [|eauto].
  destruct (SignedLicense_init d) as [sl|e]; cbn [bind]; [|eauto].
  exists AttributeError. reflexivity.
Qed.

Lemma check_license_remaining (env : TickEnv) (w : World) :
  fst (check_license env w) = -1
  /\ exists msg, snd (check_license env w) = [LogInfo msg].
Proof.
  unfold license_controller.check_license.
  destruct (artifact w) as [text|]; [|cbn; eauto].
  destruct (read_license_never_returns env text) as [e He].
  rewrite He. cbn. eauto.
Qed.

Lemma needs_fetch_minus_one : needs_fetch settings (-1) = true.
Proof. reflexivity. Qed.

Lemma fetch_license_posts (env : TickEnv) (w : World) :
  exists url body rest, snd (fetch_license env w) = HttpPost url body :: rest.
Proof.
  unfold license_controller.fetch_license.
  destruct (post env) as [resp|]; [|cbn; eauto].
  destruct (status_code resp =? 200); [|cbn; eauto].
  destruct (json_body resp); [|cbn; eauto].
  destruct (write env); cbn; eauto.
Qed.

(** What one iteration does, written out. *)
Lemma tick_unfold (env : TickEnv) (w : World) :
  tick env w
  = Returned (fst (fetch_license env w),
              snd (check_license env w)
              ++ (LogInfo "Fetching new license from server"
                  :: snd (fetch_license env w))
              ++ [Sleep (CHECK_INTERVAL_SECONDS settings)]).
Proof.
  unfold license_controller.tick.
  destruct (check_license_remaining env w) as [Hr _].
  destruct (check_license env w) as [r l1]. cbn [fst snd] in *. subst r.
  rewrite needs_fetch_minus_one.
  destruct (fetch_license env w) as [w' l2]. reflexivity.
Qed.

(** Every iteration asks the issuance endpoint. *)
Lemma tick_always_fetches (env : TickEnv) (w : World) :
  exists w' trace, tick env w = Returned (w', trace) /\ fetch_attempted trace.
Proof.
  rewrite tick_unfold. do 2 eexists. split; [reflexivity|].
  destruct (fetch_license_posts env w) as (url & body & rest & Hp).
  exists url, body. rewrite Hp.
  apply in_or_app. right. apply in_or_app. left. right. left. reflexivity.
Qed.

(** The loop is still running after any number of iterations. *)
Lemma loop_runs (fuel : nat) :
  forall envs k w trace,
    exists w' trace', loop fuel envs k w trace = Running w' trace'.
Proof.
  induction fuel as [|n IH]; intros envs k w trace; cbn [license_controller.loop].
  - eauto.
  - rewrite tick_unfold. apply IH.
Qed.

(** C9, as the code has it: an iteration of the loop never raises and
    ends with the pause before the next one, and it asks the issuance
    endpoint on every iteration, whatever the local artifact holds.
    Reading an existing artifact never gets to a day count, because
    [SignedLicense] declares no attribute [payload] (line 22): the
    count is always [-1] and the threshold is never compared with the
    days an artifact has left.  When the request is answered with
    status 200 and a JSON body and the file can be written, the local
    artifact becomes that body; when the request fails (the call
    raises, the status is not 200, or the body is not JSON) the
    artifact is left as it was and an error is logged; what was found
    locally is logged; and after any number of iterations the loop is
    still running. *)
Theorem C9_renewal_tick (env : TickEnv) (w : World) :
  exists w' trace,
    tick env w = Returned (w', trace)
    /\ ends_with_sleep trace
    /\ fetch_attempted trace
    /\ fst (check_license env w) = -1
    /\ (forall text, artifact w = Some text ->
          exists e, read_license env text = Raised e)
    /\ (forall resp new_lic,
          post env = Returned resp -> status_code resp = 200 ->
          json_body resp = Returned new_lic -> write env = WriteOk ->
          artifact w' = Some (json_dumps new_lic))
    /\ ((exists e, post env = Raised e)
        \/ (exists resp, post env = Returned resp /\ status_code resp <> 200)
        \/ (exists resp e, post env = Returned resp /\ status_code resp = 200
                           /\ json_body resp = Raised e) ->
        artifact w' = artifact w /\ exists msg, In (LogError msg) trace)
    /\ (exists msg, In (LogInfo msg) trace)
    /\ (forall fuel envs, exists w'' trace'',
          loop fuel envs 0%nat w [] = Running w'' trace'').
Proof.
  rewrite tick_unfold. do 2 eexists. split; [reflexivity|].
  split; [|split; [|split; [|split; [|split; [|split; [|split]]]]]].
  - eexists. eexists. rewrite app_assoc. reflexivity.
  - destruct (fetch_license_posts env w) as (url & body & rest & Hp).
    exists url, body. rewrite Hp.
    apply in_or_app. right. apply in_or_app. left. right. left. reflexivity.
  - apply check_license_remaining.
  - intros text _. apply read_license_never_returns.
  - intros resp new_lic Hp Hs Hj Hw. unfold license_controller.fetch_license.
    rewrite Hp, Hs, Hj, Hw. reflexivity.
  - intros Hfail. unfold license_controller.fetch_license.
    assert (Hin : forall msg l1 l3 q,
               In (LogError msg) (l1 ++ (LogInfo "Fetching new license from server"
                                         :: [q; LogError msg]) ++ l3)).
    { intros. apply in_or_app. right. apply in_or_app. left.
      right. right. left. reflexivity. }
    destruct Hfail as [[e Hp] | [(resp & Hp & Hs) | (resp & e & Hp & Hs & Hj)]].
    + rewrite Hp. cbn [fst snd]. split; [reflexivity|]. eexists. apply Hin.
    + rewrite Hp. apply Z.eqb_neq in Hs. rewrite Hs. cbn [fst snd].
      split; [reflexivity|]. eexists. apply Hin.
    + rewrite Hp, Hs, Hj. cbn [Z.eqb Pos.eqb fst snd].
      split; [reflexivity|]. eexists. apply Hin.
  - destruct (check_license_remaining env w) as [_ [msg Hm]].
    exists msg. rewrite Hm. left. reflexivity.
  - intros fuel envs. apply loop_runs.
Qed.

End RenewalLoop.

(** ** Where the verifiers stop *)

(** The file-based verifier reports ["valid"] for a linked license only
    on the yearly branch: the subscription is active, has no end date,
    and its plan is yearly. *)
Lemma file_validity_linked_valid_inv (db : Db) (now : datetime) (sid : string) :
  file_validity_linked db now sid = Returned "valid" ->
  exists sub plan,
    get_subscription db sid = Some sub
    /\ status sub = "active"
    /\ end_date sub = None
    /\ get_plan_definition db (subscription_plan_id sub) = Returned (Some plan)
    /\ billing_interval plan = yearly.
Proof.
  unfold file_validity_linked. intros H.
  destruct (get_subscription db sid) as [sub|]; [|discriminate].
  destruct (String.eqb (status sub) "active") eqn:Hs; cbn [negb] in H;
    [|discriminate].
  run_bind H.
  destruct (end_date sub) as [e|] eqn:He; [repeat run_bind H|].
  unfold subscription_plan in H.
  destruct (get_plan_definition db (subscription_plan_id sub)) as [[plan|]|]
    eqn:Hp; cbn [bind] in H; try discriminate.
  exists sub, plan. apply String.eqb_eq in Hs.
  repeat split; auto.
  destruct (billing_interval plan); [|reflexivity].
  cbn [BillingInterval_value String.eqb Ascii.eqb Bool.eqb] in H.
  destruct (monthly_days a); cbn [bind local_timedelta] in H; discriminate H.
Qed.

(** The record-based verifier returns no reply for a license with its
    own dates: it stops at [datetime.timedelta]. *)
Lemma validate_license_own_raises (now : datetime) (l : License) :
  exists e, validate_license_own now l = Raised e.
Proof.
  unfold validate_license_own.
  destruct (issued_at l); cbn; eauto.
Qed.

(** Nor for a linked license whose subscription has no end date. *)
Lemma validate_license_linked_raises
    (db : Db) (now : datetime) (l : License) (sub : Subscription) :
  end_date sub = None ->
  exists e, validate_license_linked db now l sub = Raised e.
Proof.
  intros He. unfold validate_license_linked. rewrite He.
  destruct (issue_date sub) as [i|]; cbn [attr_of_date bind]; [|eauto].
  match goal with |- exists e, bind ?m _ = _ => destruct m end;
    cbn [bind datetime_class_timedelta]; eauto.
Qed.

(** C9 on an artifact whose [expires_at] lies 366 days ahead, with a
    threshold of 7 days: [days_until] on that date gives 366, which the
    threshold test would let pass; the reading of the artifact raises
    before it gets there, and the iteration posts to the issuance
    endpoint and overwrites the artifact.  The iteration after it posts
    again, on the artifact just fetched. *)
Lemma C9_renewal_tick_witness :
  Toy.loads (Toy.dumps Cases.local_license) = Returned Cases.local_license
  /\ license_controller.days_until Toy.toy_fromisoformat
       (license_controller.utcnow Cases.tick_env) (JStr "2025-01-01T00:00:00")
     = Returned 366
  /\ license_controller.needs_fetch Cases.controller_settings 366 = false
  /\ exists w1 trace1 w2 trace2,
       license_controller.tick Toy.loads Toy.dumps Toy.toy_fromisoformat
         Cases.controller_settings Cases.tick_env
         (license_controller.mkWorld (Some (Toy.dumps Cases.local_license)))
       = Returned (w1, trace1)
       /\ fetch_attempted trace1
       /\ license_controller.artifact w1
          = Some (Toy.dumps (JObj [("encrypted_payload", JStr "00");
                                   ("signature", JStr "11")]))
       /\ license_controller.tick Toy.loads Toy.dumps Toy.toy_fromisoformat
            Cases.controller_settings Cases.tick_env w1
          = Returned (w2, trace2)
       /\ fetch_attempted trace2.
Proof.
  split; [vm_compute; reflexivity|].
  split; [vm_compute; reflexivity|].
  split; [vm_compute; reflexivity|].
  destruct (C9_renewal_tick Toy.loads Toy.dumps Toy.toy_fromisoformat
              Cases.controller_settings Cases.tick_env
              (license_controller.mkWorld (Some (Toy.dumps Cases.local_license))))
    as (w1 & trace1 & Ht1 & _ & Hf1 & _ & _ & Hok & _).
  destruct (C9_renewal_tick Toy.loads Toy.dumps Toy.toy_fromisoformat
              Cases.controller_settings Cases.tick_env w1)
    as (w2 & trace2 & Ht2 & _ & Hf2 & _).
  exists w1, trace1, w2, trace2.
  split; [exact Ht1|]. split; [exact Hf1|].
  split; [eapply Hok; reflexivity|].
  split; [exact Ht2 | exact Hf2].
Defined.

(** * Further properties: the rest of the cited files *)

(** ** The RSA helpers of [app/crypto_utils.py] *)

(** X15: [rsa_decrypt] under the private half of a key pair gives back the
    text that [rsa_encrypt] took under its public half, for a text of
    at most 190 bytes in UTF-8 (the room OAEP with SHA-256 leaves in a
    2048-bit key). *)
Theorem rsa_decrypt_rsa_encrypt {P : Primitives} (L : PrimitiveLaws P)
    (sk : private_key_t) (pub priv data : string) (m : bytes) (e : entropy) :
  key_pair_of sk pub priv ->
  utf8_encode data = Returned m ->
  (List.length m <= 190)%nat ->
  exists c,
    rsa_helpers.rsa_encrypt e data pub = Returned c
    /\ rsa_helpers.rsa_decrypt c priv = Returned data.
Proof.
  intros [Hpub Hpriv] Hm Hlen. subst pub priv.
  destruct (oaep_roundtrip sk e m Hlen) as (c & Henc & Hdec).
  exists (b64encode c). split.
  - unfold rsa_helpers.rsa_encrypt.
    rewrite b64decode_b64encode. cbn [bind].
    rewrite load_public_bytes. cbn [bind].
    rewrite Hm. cbn [bind]. rewrite Henc. reflexivity.
  - unfold rsa_helpers.rsa_decrypt.
    rewrite b64decode_b64encode. cbn [bind].
    rewrite load_private_bytes. cbn [bind].
    rewrite b64decode_b64encode. cbn [bind].
    rewrite Hdec. cbn [bind]. exact (utf8_decode_encode L data m Hm).
Qed.

Lemma rsa_decrypt_rsa_encrypt_witness :
  exists c,
    rsa_helpers.rsa_encrypt (P := Toy.toy_primitives) Toy.constant_entropy
      "seats=5" (Toy.key_of Byte.x01 Byte.x02 Byte.x03 Byte.x04) = Returned c
    /\ rsa_helpers.rsa_decrypt (P := Toy.toy_primitives) c
         (Toy.key_of Byte.x01 Byte.x02 Byte.x03 Byte.x04) = Returned "seats=5".
Proof.
  apply (rsa_decrypt_rsa_encrypt toy_laws
           [Byte.x01; Byte.x02; Byte.x03; Byte.x04] _ _ "seats=5"
           (list_byte_of_string "seats=5") Toy.constant_entropy).
  - split; reflexivity.
  - reflexivity.
  - cbn. lia.
Defined.

(** X16: The secret half of a generated license key pair gives back its
    public half: [get_public_key_from_secret] of the second component
    of [generate_license_keypair()] is the first component; a secret
    that is not base64 of a private key is an error. *)
Theorem get_public_key_from_generated_secret {P : Primitives}
    (L : PrimitiveLaws P) (e : entropy) :
  rsa_helpers.get_public_key_from_secret
    (snd (fst (generate_license_keypair e)))
  = Returned (fst (fst (generate_license_keypair e))).
Proof.
  unfold generate_license_keypair.
  destruct (generate_private_key e) as [sk e']. cbn [fst snd].
  unfold rsa_helpers.get_public_key_from_secret.
  rewrite b64decode_b64encode. cbn [bind].
  rewrite load_private_bytes. reflexivity.
Qed.

Lemma get_public_key_from_generated_secret_witness :
  rsa_helpers.get_public_key_from_secret (P := Toy.toy_primitives)
    (snd (fst (generate_license_keypair (P := Toy.toy_primitives)
                 Toy.constant_entropy)))
  = Returned (fst (fst (generate_license_keypair (P := Toy.toy_primitives)
                          Toy.constant_entropy))).
Proof.
  exact (get_public_key_from_generated_secret toy_laws Toy.constant_entropy).
Defined.

(** X17: Signing with the secret half of a generated license key pair
    succeeds on every payload, and the signature verifies under the
    public half. *)
Theorem verify_signature_of_signed {P : Primitives} (L : PrimitiveLaws P)
    (e e_sign : entropy) (payload : string) :
  exists sg,
    sign_payload e_sign payload (snd (fst (generate_license_keypair e)))
    = Returned sg
    /\ verify_signature payload (JStr sg)
         (fst (fst (generate_license_keypair e))) = Returned true.
Proof.
  unfold generate_license_keypair.
  destruct (generate_private_key e) as [sk e']. cbn [fst snd].
  destruct (utf8_roundtrip payload) as (m & Hm & _).
  destruct (pss_roundtrip sk e_sign m) as (sg & Hsign & Hver).
  exists (b64encode sg). split.
  - unfold sign_payload. rewrite b64decode_b64encode. cbn [bind].
    rewrite load_private_bytes. cbn [bind].
    rewrite Hm. cbn [bind]. rewrite Hsign. reflexivity.
  - unfold verify_signature. rewrite b64decode_b64encode. cbn [bind].
    rewrite load_public_bytes. cbn [bind b64decode_json].
    rewrite b64decode_b64encode. cbn [bind try_except].
    rewrite Hm. cbn [bind]. rewrite Hver. reflexivity.
Qed.

Lemma verify_signature_of_signed_witness :
  exists sg,
    sign_payload (P := Toy.toy_primitives) Toy.constant_entropy "claims"
      (snd (fst (generate_license_keypair (P := Toy.toy_primitives)
                   Toy.constant_entropy))) = Returned sg
    /\ verify_signature (P := Toy.toy_primitives) "claims" (JStr sg)
         (fst (fst (generate_license_keypair (P := Toy.toy_primitives)
                      Toy.constant_entropy))) = Returned true.
Proof.
  exact (verify_signature_of_signed toy_laws Toy.constant_entropy
           Toy.constant_entropy "claims").
Defined.

(** X18: Once the license key decodes to a public key, [verify_signature]
    never raises: it answers [True] exactly when the signature is
    base64 text whose bytes the RSA-PSS check accepts for the UTF-8
    bytes of the payload, and [False] in every other case (a signature
    that is not text, bad base64, a payload that cannot be encoded, a
    failed check). *)
Theorem verify_signature_answers {P : Primitives}
    (payload : string) (signature : json) (license_key : string)
    (der : bytes) (pk : public_key_t) :
  b64decode license_key = Returned der ->
  load_der_public_key der = Returned pk ->
  exists b,
    verify_signature payload signature license_key = Returned b
    /\ (b = true <->
        exists sg m,
          b64decode_json signature = Returned sg
          /\ utf8_encode payload = Returned m
          /\ pss_verify pk sg m = Returned tt).
Proof.
  intros Hk Hl. unfold verify_signature. rewrite Hk. cbn [bind].
  rewrite Hl. cbn [bind].
  destruct (b64decode_json signature) as [sg|x] eqn:Hs; cbn [bind try_except].
  - destruct (utf8_encode payload) as [m|y] eqn:Hm; cbn [bind try_except].
    + destruct (pss_verify pk sg m) as [[]|z] eqn:Hv; cbn [bind try_except].
      * exists true. split; [reflexivity|]. split; [|reflexivity].
        intros _. exists sg, m. auto.
      * exists false. split; [reflexivity|]. split; [discriminate|].
        intros (sg' & m' & H1 & H2 & H3). inv H1. inv H2. congruence.
    + exists false. split; [reflexivity|]. split; [discriminate|].
      intros (sg' & m' & H1 & H2 & H3). discriminate.
  - exists false. split; [reflexivity|]. split; [discriminate|].
    intros (sg' & m' & H1 & H2 & H3). discriminate.
Qed.

Lemma verify_signature_answers_witness :
  exists b,
    verify_signature (P := Toy.toy_primitives) "claims" (JInt 7)
      (Toy.key_of Byte.x01 Byte.x02 Byte.x03 Byte.x04) = Returned b
    /\ (b = true <->
        exists sg m,
          b64decode_json (JInt 7) = Returned sg
          /\ utf8_encode (Primitives := Toy.toy_primitives) "claims" = Returned m
          /\ pss_verify (Primitives := Toy.toy_primitives)
               [Byte.x01; Byte.x02; Byte.x03; Byte.x04] sg m = Returned tt).
Proof.
  apply (verify_signature_answers (P := Toy.toy_primitives) "claims" (JInt 7)
           (Toy.key_of Byte.x01 Byte.x02 Byte.x03 Byte.x04)
           [Byte.x01; Byte.x02; Byte.x03; Byte.x04]
           [Byte.x01; Byte.x02; Byte.x03; Byte.x04]); reflexivity.
Defined.

(** ** Characters that base64 decoding skips *)

Lemma a2b_loop_skips (c : ascii) (x y : string) :
  Ascii.eqb c PAD = false -> a2b c = None ->
  forall q lc pads acc,
    a2b_loop (x ++ String c y) q lc pads acc = a2b_loop (x ++ y) q lc pads acc.
Proof.
  intros Hp Ha. induction x as [|ch x IH]; intros q lc pads acc.
  - cbn [String.append a2b_loop]. rewrite Hp, Ha. reflexivity.
  - cbn [String.append a2b_loop].
    destruct (Ascii.eqb ch PAD).
    + destruct (Nat.leb 2 q); [|apply IH].
      destruct (Nat.leb 4 (q + S pads)); [reflexivity|apply IH].
    + destruct (a2b ch) as [v|]; [|apply IH].
      destruct q as [|[|[|q]]]; apply IH.
Qed.

Lemma all_ascii_append (a b : string) :
  all_ascii (a ++ b) = all_ascii a && all_ascii b.
Proof.
  induction a as [|c a IH]; cbn [String.append all_ascii]; [reflexivity|].
  rewrite IH. apply andb_assoc.
Qed.

Lemma b64decode_skips (c : ascii) (x y : string) :
  skipped_by_base64 c = true ->
  b64decode (x ++ String c y) = b64decode (x ++ y).
Proof.
  unfold skipped_by_base64. intros H.
  apply andb_true_iff in H. destruct H as [H Ha].
  apply andb_true_iff in H. destruct H as [Hasc Hp].
  apply negb_true_iff in Hp.
  destruct (a2b c) eqn:Ea; [discriminate|].
  unfold b64decode. rewrite !all_ascii_append. cbn [all_ascii].
  rewrite Hasc. cbn [andb].
  destruct (all_ascii x && all_ascii y); [|reflexivity].
  now apply a2b_loop_skips.
Qed.

Lemma split_colon_app (x s : string) :
  split_colon (x ++ s)
  = match split_colon x with
    | (a, Some b) => (a, Some (b ++ s)%string)
    | (a, None) => let '(a', r) := split_colon s in ((a ++ a')%string, r)
    end.
Proof.
  induction x as [|ch x IH]; cbn [String.append split_colon].
  - destruct (split_colon s). reflexivity.
  - destruct (Ascii.eqb ch ":"%char); [reflexivity|].
    rewrite IH. destruct (split_colon x) as [a [b|]]; [reflexivity|].
    destruct (split_colon s). reflexivity.
Qed.

Lemma split_colon_no_colon (s : string) :
  count_colon s = 0%nat -> split_colon s = (s, None).
Proof.
  induction s as [|c s IH]; cbn [count_colon split_colon]; intros H;
    [reflexivity|].
  destruct (Ascii.eqb c ":"%char); [discriminate|].
  rewrite IH by exact H. reflexivity.
Qed.

(** X19: A text without a colon is not an artifact: [hybrid_decrypt] raises
    [ValueError] on it, whatever the key (which it does not look at). *)
Theorem hybrid_decrypt_needs_colon {P : Primitives}
    (encrypted_data rsa_private_key_b64 : string) :
  count_colon encrypted_data = 0%nat ->
  hybrid_decrypt encrypted_data rsa_private_key_b64 = Raised ValueError.
Proof.
  intros H. unfold hybrid_decrypt.
  rewrite (split_colon_no_colon _ H). reflexivity.
Qed.

Lemma hybrid_decrypt_needs_colon_witness :
  count_colon "QUJD" = 0%nat
  /\ hybrid_decrypt (P := Toy.toy_primitives) "QUJD" "AQIDBA==" = Raised ValueError.
Proof.
  split; [reflexivity|].
  apply (hybrid_decrypt_needs_colon (P := Toy.toy_primitives)). reflexivity.
Defined.

(** X20: [hybrid_decrypt] does not see the ASCII characters that base64
    decoding skips (white space, line breaks, any character outside the
    alphabet other than the colon that separates the two parts):
    putting one anywhere into the artifact changes neither the result
    nor the error. *)
Theorem hybrid_decrypt_skips_foreign_characters {P : Primitives}
    (x y rsa_private_key_b64 : string) (c : ascii) :
  skipped_by_base64 c = true ->
  Ascii.eqb c ":"%char = false ->
  hybrid_decrypt (x ++ String c y) rsa_private_key_b64
  = hybrid_decrypt (x ++ y) rsa_private_key_b64.
Proof.
  intros Hs Hc. unfold hybrid_decrypt.
  rewrite !split_colon_app. cbn [split_colon]. rewrite Hc.
  destruct (split_colon x) as [a [b|]].
  - now rewrite (b64decode_skips c b y Hs).
  - destruct (split_colon y) as [a' [r|]]; [|reflexivity].
    now rewrite (b64decode_skips c a a' Hs).
Qed.

Lemma hybrid_decrypt_skips_foreign_characters_witness :
  skipped_by_base64 (ascii_of_nat 10) = true
  /\ hybrid_decrypt (P := Toy.toy_primitives)
       ("QUJD" ++ String (ascii_of_nat 10) "RA==:QUJD") "AQIDBA=="
     = hybrid_decrypt (P := Toy.toy_primitives)
         ("QUJD" ++ "RA==:QUJD") "AQIDBA==".
Proof.
  split; [reflexivity|].
  apply (hybrid_decrypt_skips_foreign_characters (P := Toy.toy_primitives));
    reflexivity.
Defined.

(** ** The master-key endpoints *)

Lemma filter_active_deactivate (now : datetime) (l : list MasterKey) :
  filter is_active (map (licenses_endpoints.deactivate now) l) = [].
Proof.
  induction l as [|mk l IH]; [reflexivity|].
  cbn [map filter]. unfold licenses_endpoints.deactivate at 1.
  destruct (is_active mk) eqn:E; cbn [is_active]; rewrite ?E; exact IH.
Qed.

Lemma find_active_deactivate (now : datetime) (l : list MasterKey) :
  find is_active (map (licenses_endpoints.deactivate now) l) = None.
Proof.
  induction l as [|mk l IH]; [reflexivity|].
  cbn [map find]. unfold licenses_endpoints.deactivate at 1.
  destruct (is_active mk) eqn:E; cbn [is_active]; rewrite ?E; exact IH.
Qed.

Lemma find_app_none {A} (f : A -> bool) (l1 l2 : list A) :
  find f l1 = None -> find f (l1 ++ l2) = find f l2.
Proof.
  induction l1 as [|a l1 IH]; [reflexivity|].
  cbn [find app]. destruct (f a); [discriminate|exact IH].
Qed.

Lemma deactivate_keeps_keys (now : datetime) (l : list MasterKey) :
  map (fun mk => (mk_id mk, public_key mk, private_key mk))
      (map (licenses_endpoints.deactivate now) l)
  = map (fun mk => (mk_id mk, public_key mk, private_key mk)) l.
Proof.
  rewrite map_map. apply map_ext. intros mk.
  unfold licenses_endpoints.deactivate. now destruct (is_active mk).
Qed.

Lemma replace_active_key_spec (now : datetime) (db : Db) (mk : MasterKey) :
  is_active mk = true ->
  let db' := licenses_endpoints.replace_active_key now db mk in
  filter is_active (master_keys db') = [mk]
  /\ active_master_key db' = Some mk
  /\ map (fun mk => (mk_id mk, public_key mk, private_key mk)) (master_keys db')
     = map (fun mk => (mk_id mk, public_key mk, private_key mk)) (master_keys db)
       ++ [(mk_id mk, public_key mk, private_key mk)]
  /\ tenants db' = tenants db /\ licenses db' = licenses db
  /\ plan_definitions db' = plan_definitions db
  /\ subscriptions db' = subscriptions db.
Proof.
  intros Ha. cbn zeta. unfold licenses_endpoints.replace_active_key, active_master_key.
  cbn [master_keys tenants licenses plan_definitions subscriptions].
  repeat split.
  - rewrite filter_app, filter_active_deactivate. cbn [filter app]. now rewrite Ha.
  - rewrite find_app_none by apply find_active_deactivate. cbn [find]. now rewrite Ha.
  - rewrite map_app, deactivate_keeps_keys. reflexivity.
Qed.


(** X4: [override_master_key] checks the caller first (403), then that
    neither key is empty (400); both refusals leave the tables alone.
    With two non-empty keys the given pair becomes the one active
    master key, and the earlier records stay, inactive. *)
Theorem override_master_key_checks_then_replaces
    (db : Db) (now : datetime) (new_id public_key private_key : string) :
  licenses_endpoints.override_master_key db false now new_id public_key private_key
  = (Raised (HTTPException 403 "Superuser access required"), db)
  /\ (public_key = "" \/ private_key = "" ->
      licenses_endpoints.override_master_key db true now new_id public_key private_key
      = (Raised (HTTPException 400 "Both public_key and private_key are required"),
         db))
  /\ (public_key <> "" -> private_key <> "" ->
      let db' :=
        snd (licenses_endpoints.override_master_key db true now new_id
               public_key private_key) in
      let new_master_key :=
        mkMasterKey new_id public_key private_key true (Some now) (Some now) in
      filter is_active (master_keys db') = [new_master_key]
      /\ map (fun mk => (mk_id mk, models.public_key mk, models.private_key mk))
           (master_keys db')
         = map (fun mk => (mk_id mk, models.public_key mk, models.private_key mk))
             (master_keys db)
           ++ [(new_id, public_key, private_key)]
      /\ licenses db' = licenses db).
Proof.
  unfold licenses_endpoints.override_master_key. cbn [negb].
  split; [reflexivity|]. split.
  - intros [H|H]; subst; cbn [PyStr.truthy negb orb]; [reflexivity|].
    now rewrite orb_true_r.
  - intros Hp Hs. cbn zeta.
    rewrite (truthy_nonempty _ Hp), (truthy_nonempty _ Hs). cbn [negb orb snd].
    pose proof (replace_active_key_spec now db
                  (mkMasterKey new_id public_key private_key true (Some now)
                     (Some now)) eq_refl) as H.
    cbn zeta in H. cbn [mk_id models.public_key models.private_key] in H.
    destruct H as (H1 & H2 & H3 & H4 & H5 & H6 & H7). auto.
Qed.

Lemma override_master_key_checks_then_replaces_witness :
  filter is_active
    (master_keys
       (snd (licenses_endpoints.override_master_key Toy.db0 true
               (Toy.utc 2025 1 1) "mk-3" "cHVi" "cHJpdg==")))
  = [mkMasterKey "mk-3" "cHVi" "cHJpdg==" true
       (Some (Toy.utc 2025 1 1)) (Some (Toy.utc 2025 1 1))].
Proof.
  destruct (override_master_key_checks_then_replaces Toy.db0 (Toy.utc 2025 1 1)
              "mk-3" "cHVi" "cHJpdg==") as (_ & _ & H).
  destruct H as (H & _); [discriminate | discriminate | exact H].
Defined.

(** X5: The private key that [get_current_master_private_key] hands out is
    that of the first active record: right after a rotation it is the
    private key just generated; when no record is active the answer is
    404; a caller who is no superuser gets 403. *)
Theorem current_private_key_follows_rotation {P : Primitives}
    (db : Db) (now : datetime) (e : entropy) (new_id : string) :
  licenses_endpoints.get_current_master_private_key
    (snd (licenses_endpoints.rotate_master_key db true now e new_id)) true
  = Returned (JObj [("private_key", JStr (snd (fst (generate_rsa_keypair e))))])
  /\ (filter is_active (master_keys db) = [] ->
      licenses_endpoints.get_current_master_private_key db true
      = Raised (HTTPException 404 "No active master key found"))
  /\ licenses_endpoints.get_current_master_private_key db false
     = Raised (HTTPException 403 "Superuser access required").
Proof.
  split; [|split].
  - unfold licenses_endpoints.rotate_master_key. cbn [negb].
    destruct (generate_rsa_keypair e) as [[pub priv] e']. cbn [fst snd].
    destruct (replace_active_key_spec now db
                (mkMasterKey new_id pub priv true (Some now) (Some now))
                eq_refl) as (_ & H & _).
    unfold licenses_endpoints.get_current_master_private_key.
    cbn [negb]. rewrite H. reflexivity.
  - intros H. unfold licenses_endpoints.get_current_master_private_key.
    cbn [negb]. unfold active_master_key.
    destruct (find is_active (master_keys db)) as [mk|] eqn:F; [|reflexivity].
    apply find_some in F. destruct F as [Hin Ha].
    assert (Hf : In mk (filter is_active (master_keys db)))
      by (apply filter_In; auto).
    rewrite H in Hf. destruct Hf.
  - reflexivity.
Qed.

(** X6: Issuance and the file-based verification read the master key with
    [first()], without a filter on [is_active]: while an earlier record
    exists, a rotation changes nothing in what [issue_license_file]
    writes nor in what [validate_license_file] answers; both keep using
    the key pair of the oldest record. *)
Theorem rotation_does_not_reach_issuance {P : Primitives} {R : Runtime}
    (db : Db) (now : datetime) (e : entropy) (new_id : string) :
  master_keys db <> [] ->
  let db' := snd (licenses_endpoints.rotate_master_key db true now e new_id) in
  (forall e_sign e_enc encoded_license_key,
      issue_license_file db' e_sign e_enc encoded_license_key
      = issue_license_file db e_sign e_enc encoded_license_key)
  /\ (forall clock license_key file,
        validate_license_file db' clock license_key file
        = validate_license_file db clock license_key file).
Proof.
  intros Hne. cbn zeta. unfold licenses_endpoints.rotate_master_key. cbn [negb].
  destruct (generate_rsa_keypair e) as [[pub priv] e']. cbn [fst snd].
  destruct db as [ts ls mks ps ss]. cbn [master_keys] in Hne.
  destruct mks as [|[i pk sk act c u] rest]; [contradiction|].
  unfold licenses_endpoints.replace_active_key.
  cbn [master_keys tenants licenses plan_definitions subscriptions map app].
  split; intros; destruct act; reflexivity.
Qed.

Lemma rotation_does_not_reach_issuance_witness :
  master_keys Toy.db0 <> []
  /\ issue_license_file (P := Toy.toy_primitives) (R := Toy.toy_runtime)
       (snd (licenses_endpoints.rotate_master_key (P := Toy.toy_primitives)
               Toy.db0 true (Toy.utc 2025 1 1) Toy.constant_entropy "mk-3"))
       Toy.constant_entropy Toy.constant_entropy
       (Toy.encoded (license_key Toy.lic_own))
     = issue_license_file (P := Toy.toy_primitives) (R := Toy.toy_runtime)
         Toy.db0 Toy.constant_entropy Toy.constant_entropy
         (Toy.encoded (license_key Toy.lic_own)).
Proof.
  split; [discriminate|].
  destruct (rotation_does_not_reach_issuance
              (P := Toy.toy_primitives) (R := Toy.toy_runtime)
              Toy.db0 (Toy.utc 2025 1 1) Toy.constant_entropy "mk-3")
    as [H _]; [discriminate|].
  apply H.
Defined.

(** ** Creating, reading and deleting licenses *)

Lemma count_after_add (db : Db) (l : License) (tid : string) :
  get_tenant_license_count
    (mkDb (tenants db) (licenses db ++ [l]) (master_keys db)
       (plan_definitions db) (subscriptions db) (templates db)) tid
  = get_tenant_license_count db tid
    + (if String.eqb (license_tenant_id l) tid then 1 else 0).
Proof.
  unfold get_tenant_license_count. cbn [licenses].
  rewrite filter_app, length_app. cbn [filter].
  destruct (String.eqb (license_tenant_id l) tid); cbn [List.length]; lia.
Qed.

Lemma create_license_adds (db db' : Db) (license : schemas.LicenseCreate)
    (keypair : string * string) (new_id : string) (l : License) :
  crud.create_license db license keypair new_id = Returned (l, db') ->
  db' = mkDb (tenants db) (licenses db ++ [l]) (master_keys db)
          (plan_definitions db) (subscriptions db) (templates db)
  /\ id l = new_id /\ license_key l = fst keypair
  /\ license_secret l = snd keypair
  /\ license_tenant_id l = schemas.tenant_id license
  /\ linked_subscription l = schemas.linked_subscription license.
Proof.
  unfold crud.create_license. destruct keypair as [k s]. intros H.
  match type of H with bind ?w _ = _ => destruct w as [window|]; [|discriminate] end.
  cbn [bind] in H. inv H. cbn. auto 10.
Qed.

(** X7: The creation endpoint keeps every tenant within its limit: if a
    tenant holds at most [max_licenses] licenses before the request, it
    does so after it, whatever the request and however it ends; a
    request that is answered adds exactly one license to its tenant,
    and one for a tenant at its limit is refused with 400 and changes
    nothing. *)
Theorem create_license_keeps_the_limit
    (db : Db) (license : schemas.LicenseCreate) (keypair : string * string)
    (new_id tid : string) (tenant : Tenant) :
  get_tenant db tid = Some tenant ->
  get_tenant_license_count db tid <= max_licenses tenant ->
  let answer := fst (licenses_endpoints.create_license db license keypair new_id) in
  let db' := snd (licenses_endpoints.create_license db license keypair new_id) in
  get_tenant_license_count db' tid <= max_licenses tenant
  /\ tenants db' = tenants db
  /\ (forall r, answer = Returned r ->
        get_tenant_license_count db' (schemas.tenant_id license)
        = get_tenant_license_count db (schemas.tenant_id license) + 1)
  /\ (tid = schemas.tenant_id license ->
      max_licenses tenant <= get_tenant_license_count db tid ->
      answer = Raised (HTTPException 400 "Maximum licenses reached for this tenant")
      /\ db' = db).
Proof.
  intros Ht Hc. cbn zeta. unfold licenses_endpoints.create_license.
  destruct (get_tenant db (schemas.tenant_id license)) as [t|] eqn:Et.
  2:{ cbn [fst snd]. split; [assumption|]. split; [reflexivity|].
      split; [discriminate|]. intros ->. congruence. }
  destruct (Z.leb_spec (max_licenses t)
              (get_tenant_license_count db (schemas.tenant_id license)))
    as [Hfull|Hroom].
  { cbn [fst snd]. split; [assumption|]. split; [reflexivity|].
    split; [discriminate|]. intros _ _. split; reflexivity. }
  destruct (crud.create_license db license keypair new_id)
    as [[l db1]|x] eqn:Ec.
  2:{ cbn [fst snd]. split; [assumption|]. split; [reflexivity|].
      split; [discriminate|].
      intros ->. rewrite Ht in Et. inv Et. lia. }
  apply create_license_adds in Ec.
  destruct Ec as (-> & _ & _ & _ & Htid & _).
  cbn [fst snd]. rewrite !count_after_add, Htid, String.eqb_refl.
  split; [|split; [reflexivity|split]].
  - destruct (String.eqb_spec (schemas.tenant_id license) tid) as [E|E]; [|lia].
    subst tid. rewrite Ht in Et. inv Et. lia.
  - reflexivity.
  - intros ->. rewrite Ht in Et. inv Et. lia.
Qed.

Lemma create_license_keeps_the_limit_witness :
  get_tenant_license_count
    (snd (licenses_endpoints.create_license Toy.db0 Toy.request_linked
            Toy.new_keypair "lic-new")) "tenant-1"
  <= max_licenses Toy.tenant1.
Proof.
  apply (create_license_keeps_the_limit Toy.db0 Toy.request_linked
           Toy.new_keypair "lic-new" "tenant-1" Toy.tenant1).
  - reflexivity.
  - vm_compute. discriminate.
Defined.

(** X8: The creation endpoint stores the record before it builds its
    answer.  For a request that names a subscription whose end date
    lies less than one whole day after its issue date, the day count
    written on the record is not positive; [LicenseResponse] refuses it
    ([gt=0]), so the request fails with a validation error, and the
    license is in the table all the same. *)
Theorem create_license_stores_before_it_answers
    (db : Db) (license : schemas.LicenseCreate) (keypair : string * string)
    (new_id sid : string) (tenant : Tenant) (s : Subscription)
    (e i : datetime) (t : timedelta) :
  get_tenant db (schemas.tenant_id license) = Some tenant ->
  get_tenant_license_count db (schemas.tenant_id license) < max_licenses tenant ->
  schemas.linked_subscription license = Some sid ->
  PyStr.truthy sid = true ->
  get_subscription db sid = Some s ->
  end_date s = Some e ->
  issue_date s = Some i ->
  dt_sub e i = Returned t ->
  td_days t <= 0 ->
  exists l,
    licenses_endpoints.create_license db license keypair new_id
    = (Raised ValueError,
       mkDb (tenants db) (licenses db ++ [l]) (master_keys db)
         (plan_definitions db) (subscriptions db) (templates db))
    /\ id l = new_id
    /\ linked_subscription l = Some sid
    /\ validity_days l = Some (td_days t).
Proof.
  intros Ht Hroom Hl Hsid Hs He Hi Hsub Hd.
  unfold licenses_endpoints.create_license. rewrite Ht.
  destruct (Z.leb_spec (max_licenses tenant)
              (get_tenant_license_count db (schemas.tenant_id license)));
    [lia|].
  unfold crud.create_license. destruct keypair as [k sec].
  rewrite Hl, Hsid. unfold create_license_window. rewrite Hs, He.
  unfold end_minus_issue_days. rewrite Hi, Hsub. cbn [bind fst snd].
  eexists. split.
  - unfold schemas_license.LicenseResponse_init.
    cbn [models.validity_days].
    destruct (Z.ltb_spec 0 (td_days t)); [lia|]. reflexivity.
  - cbn. auto.
Qed.

Lemma create_license_stores_before_it_answers_witness :
  exists l,
    licenses_endpoints.create_license Cases.db_short Cases.request_short
      Toy.new_keypair "lic-new"
    = (Raised ValueError,
       mkDb (tenants Cases.db_short) (licenses Cases.db_short ++ [l])
         (master_keys Cases.db_short) (plan_definitions Cases.db_short)
         (subscriptions Cases.db_short) (templates Cases.db_short))
    /\ id l = "lic-new"
    /\ linked_subscription l = Some "sub-short"
    /\ validity_days l = Some 0.
Proof.
  apply (create_license_stores_before_it_answers Cases.db_short
           Cases.request_short Toy.new_keypair "lic-new" "sub-short"
           Toy.tenant1 Cases.sub_short (Toy.utc 2024 1 1) (Toy.utc 2024 1 1) 0);
    reflexivity.
Defined.


Lemma find_filter_other {A} (f g : A -> bool) (l : list A) :
  (forall a, f a = true -> g a = true) ->
  find f (filter g l) = find f l.
Proof.
  intros H. induction l as [|a l IH]; [reflexivity|].
  cbn [filter find]. destruct (f a) eqn:Ef.
  - rewrite (H a Ef). cbn [find]. now rewrite Ef.
  - destruct (g a); cbn [find]; rewrite ?Ef; exact IH.
Qed.

Lemma find_filter_none {A} (f g : A -> bool) (l : list A) :
  (forall a, f a = true -> g a = false) ->
  find f (filter g l) = None.
Proof.
  intros H. induction l as [|a l IH]; [reflexivity|].
  cbn [filter]. destruct (g a) eqn:Eg; [|exact IH].
  cbn [find]. destruct (f a) eqn:Ef; [|exact IH].
  rewrite (H a Ef) in Eg. discriminate.
Qed.

(** X10: [delete_license] answers whether a license with that identifier
    was there; after it none is, and every license with another
    identifier is found as before.  The template the deleted license
    refers to is deleted with it (the relationship [License.template]
    cascades), every other template is found as before, and the
    tenants, master keys, plans and subscriptions are as they were.
    When no license was there, nothing changes. *)
Theorem delete_license_then_get (db : Db) (license_id : string) :
  let success := fst (crud_licenses.delete_license db license_id) in
  let db' := snd (crud_licenses.delete_license db license_id) in
  (success = true <-> crud_licenses.get_license db license_id <> None)
  /\ crud_licenses.get_license db' license_id = None
  /\ (forall other, other <> license_id ->
        crud_licenses.get_license db' other = crud_licenses.get_license db other)
  /\ (forall l t, crud_licenses.get_license db license_id = Some l ->
        template_id l = Some t ->
        crud_licenses.get_template db' t = None)
  /\ (forall l t, crud_licenses.get_license db license_id = Some l ->
        template_id l <> Some t ->
        crud_licenses.get_template db' t = crud_licenses.get_template db t)
  /\ (success = false -> db' = db)
  /\ tenants db' = tenants db
  /\ master_keys db' = master_keys db
  /\ plan_definitions db' = plan_definitions db
  /\ subscriptions db' = subscriptions db.
Proof.
  cbn zeta.
  unfold crud_licenses.delete_license, crud_licenses.get_license,
    crud_licenses.get_template.
  destruct (find (fun l => String.eqb (id l) license_id) (licenses db))
    as [l|] eqn:F; cbn [fst snd].
  - apply find_some in F. destruct F as [_ E]. apply String.eqb_eq in E.
    rewrite E.
    cbn [licenses tenants master_keys plan_definitions subscriptions templates].
    split; [split; [discriminate|reflexivity]|].
    split.
    { apply find_filter_none. intros a Ha. now rewrite Ha. }
    split.
    { intros other Ho. apply find_filter_other. intros a Ha.
      apply String.eqb_eq in Ha. apply negb_true_iff. apply String.eqb_neq.
      congruence. }
    split.
    { intros l0 t Hl Ht. inv Hl. unfold crud_licenses.cascade_template.
      rewrite Ht. apply find_filter_none. intros a Ha. now rewrite Ha. }
    split.
    { intros l0 t Hl Ht. inv Hl. unfold crud_licenses.cascade_template.
      destruct (template_id l0) as [t0|]; [|reflexivity].
      apply find_filter_other. intros a Ha.
      apply String.eqb_eq in Ha. apply negb_true_iff. apply String.eqb_neq.
      congruence. }
    split; [discriminate|]. auto.
  - split; [split; [discriminate|congruence]|].
    rewrite F.
    split; [reflexivity|]. split; [reflexivity|].
    split; [discriminate|]. split; [discriminate|]. auto.
Qed.

Lemma find_app_last {A} (f : A -> bool) (l : list A) (a : A) :
  find f l = None -> f a = true -> find f (l ++ [a]) = Some a.
Proof.
  intros Hn Ha. rewrite find_app_none by exact Hn. cbn [find]. now rewrite Ha.
Qed.

Lemma find_app_other {A} (f : A -> bool) (l : list A) (a : A) :
  f a = false -> find f (l ++ [a]) = find f l.
Proof.
  intros Ha. induction l as [|b l IH]; cbn [app find].
  - now rewrite Ha.
  - destruct (f b); [reflexivity|exact IH].
Qed.

(** X9: A license that [crud.create_license] has stored is found again:
    when the generated key and the identifier are new to the table (the
    two columns are unique), the lookup by key that issuance and
    verification make and the lookup by identifier both return the new
    record, which carries the generated key pair; every other key is
    looked up as before. *)
Theorem create_license_then_lookup
    (db db' : Db) (license : schemas.LicenseCreate) (keypair : string * string)
    (new_id : string) (l : License) :
  crud.create_license db license keypair new_id = Returned (l, db') ->
  license_by_key db (fst keypair) = None ->
  crud_licenses.get_license db new_id = None ->
  license_by_key db' (fst keypair) = Some l
  /\ crud_licenses.get_license db' new_id = Some l
  /\ license_key l = fst keypair
  /\ license_secret l = snd keypair
  /\ (forall k, k <> fst keypair -> license_by_key db' k = license_by_key db k)
  /\ (forall i, i <> new_id ->
        crud_licenses.get_license db' i = crud_licenses.get_license db i).
Proof.
  intros Hc Hk Hi. apply create_license_adds in Hc.
  destruct Hc as (-> & Hid & Hkey & Hsec & _ & _).
  unfold license_by_key, crud_licenses.get_license in *. cbn [licenses].
  split; [apply find_app_last; [exact Hk | now rewrite Hkey, String.eqb_refl]|].
  split; [apply find_app_last; [exact Hi | now rewrite Hid, String.eqb_refl]|].
  split; [exact Hkey|]. split; [exact Hsec|]. split.
  - intros k Hne. apply find_app_other. apply String.eqb_neq. congruence.
  - intros i Hne. apply find_app_other. apply String.eqb_neq. congruence.
Qed.

Lemma create_license_then_lookup_witness :
  match crud.create_license Toy.db0 Toy.request_linked Toy.new_keypair "lic-new" with
  | Returned (l, db') =>
      license_by_key db' (fst Toy.new_keypair) = Some l
      /\ crud_licenses.get_license db' "lic-new" = Some l
  | Raised _ => False
  end.
Proof.
  destruct (crud.create_license Toy.db0 Toy.request_linked Toy.new_keypair
              "lic-new") as [[l db']|x] eqn:E.
  - destruct (create_license_then_lookup Toy.db0 db' Toy.request_linked
                Toy.new_keypair "lic-new" l E eq_refl eq_refl)
      as (H1 & H2 & _).
    split; assumption.
  - vm_compute in E. discriminate.
Defined.

(** ** What the reading endpoints show *)



Lemma replace_year_feb29 (i : datetime) :
  valid_date (year i) (month i) (day i) = true ->
  month i = 2 -> day i = 29 ->
  replace_year i (year i + 1) = Raised ValueError.
Proof.
  intros Hv Hm Hd. unfold replace_year.
  assert (Hl : is_leap (year i) = true).
  { unfold valid_date in Hv. rewrite Hm, Hd in Hv.
    apply andb_true_iff in Hv. destruct Hv as [_ Hv].
    unfold days_in_month in Hv. cbn [Z.eqb andb] in Hv.
    destruct (is_leap (year i)); [reflexivity | discriminate]. }
  unfold valid_date. rewrite Hm, Hd. unfold days_in_month.
  rewrite (is_leap_succ _ Hl). cbn [Z.eqb andb]. cbn.
  now rewrite andb_false_r.
Qed.

Lemma collect_responses_raises (db : Db) (l : License) (e : exn)
    (page : list License) :
  In l page ->
  crud_licenses.license_response db l = Raised e ->
  exists e', crud_licenses.collect_responses db page = Raised e'.
Proof.
  intros Hin Hr. induction page as [|a page IH]; [destruct Hin|].
  cbn [crud_licenses.collect_responses].
  destruct Hin as [->|Hin].
  - rewrite Hr. cbn [bind]. eauto.
  - destruct (crud_licenses.license_response db a); cbn [bind]; [|eauto].
    destruct (IH Hin) as [e' He']. rewrite He'. cbn [bind]. eauto.
Qed.

(** X12: One license is enough to take a whole page of the listing down:
    if a page of [get_licenses_with_tenant] holds a license linked to a
    subscription without end date, on a yearly plan, issued on a 29
    February, the call returns no list at all but raises (the
    [ValueError] of [replace(year=...)], unless an earlier license of
    the page failed first); the single read of that license raises the
    [ValueError] itself. *)
Theorem listing_fails_on_a_feb29_subscription
    (db : Db) (skip limit : nat) (tenant_id : option string)
    (l : License) (sid : string) (s : Subscription) (plan : PlanDefinition)
    (i : datetime) :
  In l (crud_licenses.get_licenses db skip limit tenant_id) ->
  linked_subscription l = Some sid ->
  PyStr.truthy sid = true ->
  get_subscription db sid = Some s ->
  end_date s = None ->
  issue_date s = Some i ->
  get_plan_definition db (subscription_plan_id s) = Returned (Some plan) ->
  billing_interval plan = yearly ->
  valid_date (year i) (month i) (day i) = true ->
  month i = 2 -> day i = 29 ->
  (exists e, crud_licenses.get_licenses_with_tenant db skip limit tenant_id
             = Raised e)
  /\ (crud_licenses.get_license db (id l) = Some l ->
      crud_licenses.get_license_with_tenant db (id l) = Raised ValueError).
Proof.
  intros Hin Hl Hsid Hs He Hi Hp Hb Hv Hm Hd.
  assert (Hr : crud_licenses.license_response db l = Raised ValueError).
  { unfold crud_licenses.license_response, crud_licenses.response_validity_days.
    rewrite Hl, Hsid. cbn [negb]. rewrite Hs, He.
    unfold subscription_plan. rewrite Hp. cbn [bind]. rewrite Hi, Hb.
    cbn [BillingInterval_value String.eqb Ascii.eqb Bool.eqb].
    unfold yearly_days. rewrite (replace_year_feb29 i Hv Hm Hd). reflexivity. }
  split.
  - unfold crud_licenses.get_licenses_with_tenant.
    eapply collect_responses_raises; [exact Hin | exact Hr].
  - unfold crud_licenses.get_license, crud_licenses.get_license_with_tenant.
    intros ->. rewrite Hr. reflexivity.
Qed.

Lemma listing_fails_on_a_feb29_subscription_witness :
  exists e,
    crud_licenses.get_licenses_with_tenant Cases.db_feb29 0 10 None = Raised e.
Proof.
  apply (listing_fails_on_a_feb29_subscription Cases.db_feb29 0 10 None
           Cases.lic_feb29 "sub-feb29" Toy.sub_feb29 (mkPlan "plan-y" yearly)
           (Toy.utc 2024 2 29)); try reflexivity.
  right. left. reflexivity.
Defined.

(** X13: The day count shown for a license is the one written into its
    artifact: whenever issuance computes its window for a license, the
    reading endpoints compute the same [validity_days] for it (before
    [LicenseResponse] checks that it is positive). *)
Theorem shown_validity_is_issued_validity
    (db : Db) (l : License) (w : option Z * option string) :
  issue_window db l = Returned w ->
  crud_licenses.response_validity_days db l = Returned (fst w).
Proof.
  unfold issue_window, crud_licenses.response_validity_days.
  destruct (linked_subscription l) as [sid|]; [|intros H; now inv H].
  destruct (PyStr.truthy sid); cbn [negb]; [|intros H; now inv H].
  destruct (get_subscription db sid) as [s|]; [|intros H; now inv H].
  destruct (end_date s) as [e|].
  - destruct (end_minus_issue_days e (issue_date s)); cbn [bind];
      intros H; now inv H.
  - unfold subscription_plan.
    destruct (get_plan_definition db (subscription_plan_id s)) as [[plan|]|];
      cbn [bind]; [| intros H; now inv H | discriminate].
    destruct (issue_date s) as [i|]; [|intros H; now inv H].
    destruct (billing_interval plan);
      cbn [BillingInterval_value String.eqb Ascii.eqb Bool.eqb].
    { destruct (monthly_days i) as [d|]; cbn [bind]; [|discriminate].
      destruct (timedelta_days (d - 1)) as [t|]; cbn [bind]; [|discriminate].
      destruct (dt_add i t); cbn [bind]; intros H; now inv H. }
    { destruct (yearly_days i) as [d|]; cbn [bind]; [|discriminate].
      destruct (timedelta_days (d - 1)) as [t|]; cbn [bind]; [|discriminate].
      destruct (dt_add i t); cbn [bind]; intros H; now inv H. }
Qed.

Lemma shown_validity_is_issued_validity_witness :
  crud_licenses.response_validity_days Toy.db0 Toy.lic_yearly
  = Returned (Some 365).
Proof.
  apply (shown_validity_is_issued_validity Toy.db0 Toy.lic_yearly
           (Some 365, Some "2025-02-28T00:00:00+00:00")).
  reflexivity.
Defined.

(** ** [LicenseUpdate] *)

(** X14: The rule of [LicenseUpdate] on [linked_subscription] never fires:
    its validator runs before [issued_at] and [validity_days] are
    validated and finds neither in [values.data].  A body is accepted
    exactly when its [validity_days], if given, is positive and its
    [payload], if given, is a mapping; in particular a body that sets a
    subscription together with both dates is accepted unchanged. *)
Theorem license_update_subscription_rule_never_fires
    (b : schemas_license.LicenseUpdate) :
  (forall v,
      schemas_license.validate_subscription_fields v
        [("tenant_id", schemas.FStr (schemas_license.flatten
                                       (schemas_license.tenant_id b)));
         ("template_id", schemas.FStr (schemas_license.flatten
                                         (schemas_license.template_id b)))]
      = Returned v)
  /\ (schemas_license.validate b = Returned b
      <-> (match schemas_license.validity_days b with
           | Some (Some n) => 0 < n
           | _ => True
           end)
          /\ (match schemas_license.payload b with
              | Some (Some (JObj _)) | Some None | None => True
              | Some (Some _) => False
              end))
  /\ (forall b', schemas_license.validate b = Returned b' -> b' = b).
Proof.
  assert (Hv : forall v,
             schemas_license.validate_subscription_fields v
               [("tenant_id", schemas.FStr (schemas_license.flatten
                                              (schemas_license.tenant_id b)));
                ("template_id", schemas.FStr (schemas_license.flatten
                                                (schemas_license.template_id b)))]
             = Returned v).
  { intros [v|]; reflexivity. }
  split; [exact Hv|].
  destruct b as [tid tpl ls ia vd pl].
  unfold schemas_license.validate.
  cbn [schemas_license.tenant_id schemas_license.template_id
       schemas_license.linked_subscription schemas_license.issued_at
       schemas_license.validity_days schemas_license.payload] in *.
  assert (Hl : (match ls with
                | None => Returned None
                | Some v =>
                    x <- schemas_license.validate_subscription_fields v
                           [("tenant_id", schemas.FStr (schemas_license.flatten tid));
                            ("template_id", schemas.FStr (schemas_license.flatten tpl))] ;;
                    Returned (Some x)
                end) = Returned ls).
  { destruct ls as [v|]; [|reflexivity]. now rewrite Hv. }
  rewrite Hl. cbn [bind].
  destruct vd as [[n|]|]; cbn [bind];
    [destruct (Z.ltb_spec 0 n) as [Hn|Hn]; cbn [bind]|..];
    (destruct pl as [[[]|]|]; cbn [bind];
     (split; [split; [intros H; first [discriminate | split; [lia|exact I]]
                     | intros [H1 H2]; first [reflexivity | lia | contradiction]]
             | intros b' H; first [discriminate | now inv H]])).
Qed.

(** ** What the two verification endpoints can answer *)

(** X1: The record-based endpoint gives no verdict on a license with its
    own dates: for every stored license of an active tenant that is
    linked to no subscription, [validate_license] ends in HTTP 500
    (the handler stops at [datetime.timedelta], or earlier when the
    record has no issue date), whatever the dates and the clock. *)
Theorem validate_license_own_dates_is_500
    (db : Db) (clock : datetime) (license_key : string) (l : License)
    (tenant : Tenant) :
  license_by_key db license_key = Some l ->
  get_tenant db (license_tenant_id l) = Some tenant ->
  tenant_is_active tenant = true ->
  truthy_opt (linked_subscription l) = false ->
  exists detail,
    validate_license db clock license_key
    = Raised (HTTPException 500 detail).
Proof.
  intros Hl Ht Ha Hs. unfold validate_license. rewrite Hl, Ht, Ha. cbn [negb].
  assert (Hown : exists e, validate_license_own (now_utc clock) l = Raised e
                           /\ is_http_exception e = false).
  { unfold validate_license_own.
    destruct (issued_at l); cbn; eexists; split; reflexivity. }
  destruct Hown as (e & He & Hh).
  destruct (linked_subscription l) as [sid|]; cbn [truthy_opt] in Hs.
  - rewrite Hs. cbn [negb]. rewrite He. cbn [try_except]. rewrite Hh. eauto.
  - rewrite He. cbn [try_except]. rewrite Hh. eauto.
Qed.

Lemma validate_license_own_dates_is_500_witness :
  exists detail,
    validate_license Toy.db0 (Toy.utc 2024 1 10) (license_key Toy.lic_own)
    = Raised (HTTPException 500 detail).
Proof.
  apply (validate_license_own_dates_is_500 Toy.db0 (Toy.utc 2024 1 10)
           (license_key Toy.lic_own) Toy.lic_own Toy.tenant1); reflexivity.
Defined.

(** X2: The file-based endpoint reports [validity = valid] on one path
    only: the claims of the artifact name a subscription that is
    stored, active, without end date, and on a yearly plan.  Artifacts
    with their own dates, with an end date, or on a monthly plan are
    never reported valid. *)
Theorem validate_license_file_valid_only_on_yearly
    {P : Primitives} {R : Runtime}
    (db : Db) (clock : datetime) (license_key : string) (file : bytes)
    (r : json) :
  validate_license_file db clock license_key file = Returned r ->
  PyJson.getitem r "validity" = Returned (JStr "valid") ->
  exists license_info ls sub plan,
    PyJson.getitem r "license_info" = Returned license_info
    /\ PyJson.get license_info "linked_subscription" = Returned ls
    /\ PyJson.truthy ls = true
    /\ get_subscription db (match ls with JStr x => x | v => py_str v end)
       = Some sub
    /\ status sub = "active"
    /\ end_date sub = None
    /\ get_plan_definition db (subscription_plan_id sub) = Returned (Some plan)
    /\ billing_interval plan = yearly.
Proof.
  intros Hr Hv.
  destruct (validate_license_file_shape db clock license_key file r Hr)
    as [[msg ->] | (v & s & li & -> & Hvl)]; [discriminate Hv|].
  cbn in Hv. inv Hv. destruct Hvl as [Hvl|]; [|discriminate].
  exists li. unfold file_validity in Hvl.
  destruct (PyJson.get li "linked_subscription") as [ls|] eqn:Hg;
    cbn [bind] in Hvl; [|discriminate].
  destruct (PyJson.truthy ls) eqn:Ht.
  - exists ls.
    destruct (file_validity_linked db (now_utc clock)
                (match ls with JStr x => x | v => py_str v end))
      as [v|] eqn:Hf; cbn [try_except] in Hvl; [|discriminate].
    subst v. symmetry in Hf.
    destruct (file_validity_linked_valid_inv _ _ _ (eq_sym Hf))
      as (sub & plan & H1 & H2 & H3 & H4 & H5).
    exists sub, plan. auto 10.
  - pose proof (file_validity_own_never_valid (now_utc clock) li) as Hn.
    destruct (file_validity_own (now_utc clock) li) as [v|]; [|discriminate].
    congruence.
Qed.

Lemma validate_license_file_valid_only_on_yearly_witness :
  exists sub plan,
    get_subscription Toy.db0 "sub-yearly" = Some sub
    /\ status sub = "active"
    /\ end_date sub = None
    /\ get_plan_definition Toy.db0 (subscription_plan_id sub) = Returned (Some plan)
    /\ billing_interval plan = yearly.
Proof.
  destruct (Toy.verify_issued Toy.lic_yearly (Toy.utc 2024 6 1)) as [r|x] eqn:E;
    [|vm_compute in E; discriminate].
  assert (E' := E). vm_compute in E'. inv E'.
  destruct (validate_license_file_valid_only_on_yearly
              (P := Toy.toy_primitives) (R := Toy.toy_runtime)
              Toy.db0 (Toy.utc 2024 6 1) (Toy.encoded (license_key Toy.lic_yearly))
              (Toy.file_of Toy.lic_yearly) _ E eq_refl)
    as (li & ls & sub & plan & H1 & H2 & H3 & H4 & H5 & H6 & H7 & H8).
  cbn in H1. inv H1. cbn in H2. inv H2.
  exists sub, plan. auto.
Defined.

(** ** [days_until] *)

(** X21: [days_until] counts whole days downwards: for an expiry time
    without time zone it returns the [n] with
    [n days <= expiry - now < n + 1 days], so the count is negative as
    soon as the expiry lies in the past, by however little, and 0
    during the last 24 hours.  For an expiry time that carries a time
    zone it raises [TypeError], since [utcnow()] has none. *)
Theorem days_until_counts_whole_days
    (isoparse : string -> outcome datetime) (now d : datetime) (s : string) :
  isoparse s = Returned d ->
  tzinfo now = None ->
  match tzinfo d with
  | Some _ => license_controller.days_until isoparse now (JStr s) = Raised TypeError
  | None =>
      exists n,
        license_controller.days_until isoparse now (JStr s) = Returned n
        /\ n * US_PER_DAY <= instant d 0 - instant now 0 < (n + 1) * US_PER_DAY
        /\ (n < 0 <-> instant d 0 < instant now 0)
  end.
Proof.
  intros Hp Hn. unfold license_controller.days_until. rewrite Hp. cbn [bind].
  unfold dt_sub. rewrite Hn.
  destruct (tzinfo d); [reflexivity|]. cbn [bind].
  eexists. split; [reflexivity|].
  unfold td_days, instant, US_PER_DAY.
  split; [split|split]; Z.div_mod_to_equations; lia.
Qed.

Lemma days_until_counts_whole_days_witness :
  exists n,
    license_controller.days_until Toy.toy_fromisoformat
      (mkdt 2024 1 10 1 None) (JStr "2024-01-10T00:00:00") = Returned n
    /\ (n < 0 <-> instant (mkdt 2024 1 10 0 None) 0
                  < instant (mkdt 2024 1 10 1 None) 0).
Proof.
  destruct (days_until_counts_whole_days Toy.toy_fromisoformat
              (mkdt 2024 1 10 1 None) (mkdt 2024 1 10 0 None)
              "2024-01-10T00:00:00" eq_refl eq_refl) as (n & H1 & _ & H3).
  exists n. split; assumption.
Defined.

(** ** [common/crypto.py] *)

Lemma hex_value_hex_digit (n : nat) :
  (n < 16)%nat -> common_crypto.hex_value (common_crypto.hex_digit n) = Some n.
Proof.
  intros H. do 16 (destruct n as [|n]; [reflexivity|]). lia.
Qed.

Lemma hex_digit_not_space (n : nat) :
  common_crypto.is_ascii_space (common_crypto.hex_digit n) = false.
Proof.
  do 16 (destruct n as [|n]; [reflexivity|]). reflexivity.
Qed.

(** [bytes.fromhex] reads back what [bytes.hex] writes. *)
Lemma fromhex_hex (b : bytes) :
  common_crypto.fromhex (common_crypto.hex b) = Returned b.
Proof.
  induction b as [|x b IH]; [reflexivity|].
  cbn [common_crypto.hex common_crypto.fromhex].
  pose proof (Byte.to_nat_bounded x) as Hx.
  rewrite hex_digit_not_space.
  rewrite !hex_value_hex_digit by nat_div_lia.
  rewrite IH. cbn [bind].
  replace (16 * (Byte.to_nat x / 16) + Byte.to_nat x mod 16)%nat
    with (Byte.to_nat x) by nat_div_lia.
  now rewrite byte_of_to_nat.
Qed.

(** X22: Decryption undoes encryption, through the hexadecimal text: for
    the two PEM halves of a generated RSA key and a payload whose
    canonical JSON has at most 190 bytes, [decrypt_payload] of what
    [encrypt_payload] returns is what [json.loads] reads from the
    canonical JSON of the payload. *)
Theorem decrypt_payload_encrypt_payload
    {P : common_crypto.Primitives} (L : common_crypto.PrimitiveLaws P)
    (e_key e : entropy) (payload : json) :
  (List.length (common_crypto.canonical_json payload) <= 190)%nat ->
  let private_pem := fst (fst (common_crypto.generate_rsa_keypair e_key)) in
  let public_pem := snd (fst (common_crypto.generate_rsa_keypair e_key)) in
  exists encrypted_hex,
    common_crypto.encrypt_payload e payload public_pem = Returned encrypted_hex
    /\ common_crypto.decrypt_payload encrypted_hex private_pem
       = common_crypto.loads_bytes (common_crypto.canonical_json payload).
Proof.
  intros Hlen. cbn zeta. unfold common_crypto.generate_rsa_keypair.
  destruct (common_crypto.rsa_generate e_key) as [sk e']. cbn [fst snd].
  destruct (common_crypto.public_pem_loads sk) as (bpub & pk & Hb & Hl & Henc).
  destruct (Henc e _ Hlen) as (c & Hc & Hd).
  destruct (common_crypto.private_pem_loads sk) as (bpriv & Hb' & Hl').
  exists (common_crypto.hex c). split.
  - unfold common_crypto.encrypt_payload. rewrite Hb. cbn [bind].
    rewrite Hl. cbn [bind]. rewrite Hc. reflexivity.
  - unfold common_crypto.decrypt_payload. rewrite Hb'. cbn [bind].
    rewrite Hl'. cbn [bind]. rewrite fromhex_hex. cbn [bind].
    rewrite Hd. reflexivity.
Qed.

(** X23: A signature made with the private half of a generated Ed25519 key
    pair verifies under its public half, for every payload. *)
Theorem verify_signature_of_sign_payload
    {P : common_crypto.Primitives} (L : common_crypto.PrimitiveLaws P)
    (e : entropy) (payload : json) :
  let private_key_hex := fst (fst (common_crypto.generate_keypair e)) in
  let public_key_hex := snd (fst (common_crypto.generate_keypair e)) in
  exists signature_hex,
    common_crypto.sign_payload payload (Some private_key_hex)
    = Returned signature_hex
    /\ common_crypto.verify_signature payload signature_hex public_key_hex = true.
Proof.
  cbn zeta. unfold common_crypto.generate_keypair.
  destruct (common_crypto.SigningKey_generate e) as [sk e']. cbn [fst snd].
  destruct (common_crypto.sign_verifies sk (common_crypto.canonical_json payload))
    as (vk & Hvk & Hv).
  eexists. split.
  - unfold common_crypto.sign_payload. rewrite fromhex_hex. cbn [bind].
    rewrite common_crypto.SigningKey_bytes. reflexivity.
  - unfold common_crypto.verify_signature. rewrite !fromhex_hex. cbn [bind].
    rewrite Hvk. cbn [bind]. rewrite Hv. reflexivity.
Qed.

Lemma toy_common_laws : common_crypto.PrimitiveLaws Cases.toy_common.
Proof.
  split; cbn -[list_byte_of_string string_of_list_byte].
  - reflexivity.
  - intros sk m. exists sk. split; [reflexivity|].
    now rewrite bytes_eqb_refl.
  - intros sk. exists sk, sk. rewrite list_byte_of_string_of_list_byte.
    split; [reflexivity|]. split; [reflexivity|].
    intros e m _. exists (rev m). split; [reflexivity|].
    now rewrite rev_involutive.
  - intros sk. exists sk. rewrite list_byte_of_string_of_list_byte.
    split; reflexivity.
Qed.

Lemma decrypt_payload_encrypt_payload_witness :
  exists encrypted_hex,
    common_crypto.encrypt_payload (P := Cases.toy_common) Toy.constant_entropy
      (JObj [("seats", JInt 5)])
      (snd (fst (common_crypto.generate_rsa_keypair (P := Cases.toy_common)
                   Toy.constant_entropy)))
    = Returned encrypted_hex
    /\ common_crypto.decrypt_payload (P := Cases.toy_common) encrypted_hex
         (fst (fst (common_crypto.generate_rsa_keypair (P := Cases.toy_common)
                      Toy.constant_entropy)))
       = Returned (JObj [("seats", JInt 5)]).
Proof.
  destruct (decrypt_payload_encrypt_payload toy_common_laws
              Toy.constant_entropy Toy.constant_entropy
              (JObj [("seats", JInt 5)])) as (c & H1 & H2).
  - vm_compute. lia.
  - exists c. split; [exact H1|]. rewrite H2. reflexivity.
Defined.

Lemma verify_signature_of_sign_payload_witness :
  exists signature_hex,
    common_crypto.sign_payload (P := Cases.toy_common)
      (JObj [("encrypted_payload", JStr "00")])
      (Some (fst (fst (common_crypto.generate_keypair (P := Cases.toy_common)
                         Toy.constant_entropy))))
    = Returned signature_hex
    /\ common_crypto.verify_signature (P := Cases.toy_common)
         (JObj [("encrypted_payload", JStr "00")]) signature_hex
         (snd (fst (common_crypto.generate_keypair (P := Cases.toy_common)
                      Toy.constant_entropy))) = true.
Proof.
  exact (verify_signature_of_sign_payload toy_common_laws Toy.constant_entropy
           (JObj [("encrypted_payload", JStr "00")])).
Defined.

(** ** The license server and the validator *)

(** X24: [/verify] never accepts what [/issue] returns: the payload of an
    issued license holds the encrypted text only, and [verify] wants
    [expires_at] in the clear, so it answers [{"valid": false}] for the
    payload and signature of every response of [issue_license],
    whatever the public key and the time.  It answers
    [{"valid": true}] only for a payload that carries [expires_at] as a
    text that parses to a time not before now, under a signature that
    verifies. *)
Theorem verify_rejects_what_issue_returns {P : common_crypto.Primitives}
    (MASTER_KEY : option string) (fromisoformat : string -> outcome datetime)
    (now now' : datetime) (e : entropy) (req : license_server.IssueRequest)
    (r : license_server.SignedResponse) (public_key : string) :
  license_server.issue_license MASTER_KEY now e req = Returned r ->
  license_server.verify fromisoformat now'
    (license_server.mkVerifyRequest public_key (license_server.payload r)
       (license_server.signature r))
  = Returned (license_server.valid_reply false)
  /\ (forall req',
        license_server.verify fromisoformat now' req'
        = Returned (license_server.valid_reply true) ->
        exists s d,
          PyJson.assoc "expires_at" (license_server.verify_payload req')
          = Some (JStr s)
          /\ fromisoformat (license_server.remove_Z s) = Returned d
          /\ dt_gt now' d = Returned false
          /\ common_crypto.verify_signature
               (JObj (license_server.verify_payload req'))
               (license_server.verify_signature_hex req')
               (license_server.public_key req') = true).
Proof.
  intros Hi. split.
  - unfold license_server.issue_license in Hi. repeat run_bind Hi.
    unfold license_server.verify.
    cbn [license_server.verify_payload license_server.payload PyJson.assoc
         String.eqb Ascii.eqb Bool.eqb].
    match goal with |- (if negb ?b then _ else _) = _ => destruct b end;
      reflexivity.
  - intros req' H. unfold license_server.verify in H.
    destruct (common_crypto.verify_signature _ _ _) eqn:Hv; cbn [negb] in H;
      [|discriminate].
    destruct (PyJson.assoc "expires_at" (license_server.verify_payload req'))
      as [x|]; [|discriminate].
    destruct x as [| | | |s| |]; cbn [bind] in H; try discriminate.
    destruct (fromisoformat (license_server.remove_Z s)) as [d|[]] eqn:Hf;
      cbn [bind] in H; try discriminate.
    destruct (dt_gt now' d) as [[]|[]] eqn:Hg; cbn [bind] in H; try discriminate.
    exists s, d. auto.
Qed.

Lemma verify_rejects_what_issue_returns_witness :
  match license_server.issue_license (P := Cases.toy_common) (Some "01020304")
          (mkdt 2024 1 1 0 None) Toy.constant_entropy Cases.issue_request with
  | Returned r =>
      license_server.verify (P := Cases.toy_common) Toy.toy_fromisoformat
        (mkdt 2024 1 2 0 None)
        (license_server.mkVerifyRequest "01020304" (license_server.payload r)
           (license_server.signature r))
      = Returned (license_server.valid_reply false)
  | Raised _ => False
  end.
Proof.
  destruct (license_server.issue_license (P := Cases.toy_common)
              (Some "01020304") (mkdt 2024 1 1 0 None) Toy.constant_entropy
              Cases.issue_request) as [r|x] eqn:E.
  - exact (proj1 (verify_rejects_what_issue_returns (P := Cases.toy_common)
                    (Some "01020304") Toy.toy_fromisoformat
                    (mkdt 2024 1 1 0 None) (mkdt 2024 1 2 0 None)
                    Toy.constant_entropy Cases.issue_request r "01020304" E)).
  - vm_compute in E. discriminate.
Defined.

(** X25: The validator never raises, and it does not accept the server's
    answer as a license file: for a file that holds a [SignedResponse]
    as JSON ([payload] and [signature] at the top, [encrypted_payload]
    inside [payload]) [validate] returns [False], because
    [SignedLicense] wants [encrypted_payload] at the top.  It returns
    [False] as well, without reading the file, when
    [TRUSTED_PUBLIC_KEY] is unset or empty. *)
Theorem validate_rejects_the_server_response {P : common_crypto.Primitives}
    (VALIDATOR_PRIVATE_KEY : string) (json_loads : string -> outcome json)
    (fromisoformat : string -> outcome datetime)
    (trusted_public_key : option string) (now : datetime)
    (r : license_server.SignedResponse) (text : string) :
  json_loads text = Returned (license_server.SignedResponse_json r) ->
  license_validator.validate VALIDATOR_PRIVATE_KEY json_loads fromisoformat
    trusted_public_key now (Returned text) = false
  /\ (forall file,
        license_validator.validate VALIDATOR_PRIVATE_KEY json_loads fromisoformat
          None now file = false
        /\ license_validator.validate VALIDATOR_PRIVATE_KEY json_loads
             fromisoformat (Some "") now file = false).
Proof.
  intros Hj. split; [|intros file; split; reflexivity].
  unfold license_validator.validate.
  destruct trusted_public_key as [k|]; [|reflexivity].
  destruct (PyStr.truthy k); cbn [negb]; [|reflexivity].
  unfold license_validator.validate_body. cbn [bind]. rewrite Hj. cbn [bind].
  reflexivity.
Qed.

Lemma validate_rejects_the_server_response_witness :
  license_validator.validate (P := Cases.toy_common) "pem" Toy.loads
    Toy.toy_fromisoformat (Some "01020304") (mkdt 2024 1 2 0 None)
    (Returned (Toy.dumps
                 (license_server.SignedResponse_json
                    (license_server.mkSignedResponse
                       [("encrypted_payload", JStr "00")] "11"))))
  = false.
Proof.
  apply (validate_rejects_the_server_response (P := Cases.toy_common) "pem"
           Toy.loads Toy.toy_fromisoformat (Some "01020304")
           (mkdt 2024 1 2 0 None)
           (license_server.mkSignedResponse [("encrypted_payload", JStr "00")] "11")).
  reflexivity.
Defined.

(** ** [k8s_client] *)



(** X27: What [/issue] returns is authentic and can be opened by the
    validator it was made for: when the master key is the private half
    of a generated Ed25519 pair, the validator key the public PEM of a
    generated RSA key, the expiry date exists and the payload with its
    [expires_at] fits into one RSA block (190 bytes of canonical JSON),
    [issue_license] returns a response whose payload is the encrypted
    text alone, whose signature [verify_signature] accepts under the
    master public key, and whose encrypted text [decrypt_payload]
    turns back into the payload with [expires_at] set to the expiry
    time followed by ["Z"]. *)
Theorem issue_license_is_authentic
    {P : common_crypto.Primitives} (L : common_crypto.PrimitiveLaws P)
    (e_master e_validator e : entropy) (now expiry : datetime)
    (t : timedelta) (items : list (string * json)) (days : Z) :
  let master_private := fst (fst (common_crypto.generate_keypair e_master)) in
  let master_public := snd (fst (common_crypto.generate_keypair e_master)) in
  let validator_private :=
    fst (fst (common_crypto.generate_rsa_keypair e_validator)) in
  let validator_public :=
    snd (fst (common_crypto.generate_rsa_keypair e_validator)) in
  let license_payload :=
    JObj (PyJson.setitem items "expires_at" (JStr (isoformat expiry ++ "Z"))) in
  timedelta_days days = Returned t ->
  dt_add now t = Returned expiry ->
  (List.length (common_crypto.canonical_json license_payload) <= 190)%nat ->
  exists encrypted_payload signature,
    license_server.issue_license (Some master_private) now e
      (license_server.mkIssueRequest validator_public items days)
    = Returned (license_server.mkSignedResponse
                  [("encrypted_payload", JStr encrypted_payload)] signature)
    /\ common_crypto.verify_signature
         (JObj [("encrypted_payload", JStr encrypted_payload)]) signature
         master_public = true
    /\ common_crypto.decrypt_payload encrypted_payload validator_private
       = common_crypto.loads_bytes (common_crypto.canonical_json license_payload).
Proof.
  cbn zeta. intros Ht Ha Hlen.
  unfold common_crypto.generate_keypair, common_crypto.generate_rsa_keypair.
  destruct (common_crypto.SigningKey_generate e_master) as [msk e1].
  destruct (common_crypto.rsa_generate e_validator) as [vsk e2]. cbn [fst snd].
  destruct (common_crypto.public_pem_loads vsk) as (bpub & pk & Hb & Hl & Henc).
  destruct (Henc e _ Hlen) as (c & Hc & Hd).
  destruct (common_crypto.private_pem_loads vsk) as (bpriv & Hb' & Hl').
  set (claims := JObj [("encrypted_payload", JStr (common_crypto.hex c))]).
  destruct (common_crypto.sign_verifies msk (common_crypto.canonical_json claims))
    as (vk & Hvk & Hv).
  exists (common_crypto.hex c),
         (common_crypto.hex
            (common_crypto.sign msk (common_crypto.canonical_json claims))).
  split; [|split].
  - unfold license_server.issue_license.
    cbn [license_server.expires_in_days license_server.issue_payload
         license_server.validator_public_key].
    rewrite Ht. cbn [bind]. rewrite Ha. cbn [bind].
    unfold common_crypto.encrypt_payload. rewrite Hb. cbn [bind].
    rewrite Hl. cbn [bind]. rewrite Hc. cbn [bind].
    unfold common_crypto.sign_payload. rewrite fromhex_hex. cbn [bind].
    rewrite common_crypto.SigningKey_bytes. reflexivity.
  - unfold common_crypto.verify_signature. rewrite !fromhex_hex. cbn [bind].
    rewrite Hvk. cbn [bind]. fold claims. rewrite Hv. reflexivity.
  - unfold common_crypto.decrypt_payload. rewrite Hb'. cbn [bind].
    rewrite Hl'. cbn [bind]. rewrite fromhex_hex. cbn [bind].
    rewrite Hd. reflexivity.
Qed.

Lemma issue_license_is_authentic_witness :
  exists encrypted_payload signature,
    license_server.issue_license (P := Cases.toy_common)
      (Some (fst (fst (common_crypto.generate_keypair (P := Cases.toy_common)
                         Toy.constant_entropy))))
      (mkdt 2024 1 1 0 None) Toy.constant_entropy
      (license_server.mkIssueRequest
         (snd (fst (common_crypto.generate_rsa_keypair (P := Cases.toy_common)
                      Toy.constant_entropy)))
         [("seats", JInt 5)] 30)
    = Returned (license_server.mkSignedResponse
                  [("encrypted_payload", JStr encrypted_payload)] signature)
    /\ common_crypto.verify_signature (P := Cases.toy_common)
         (JObj [("encrypted_payload", JStr encrypted_payload)]) signature
         (snd (fst (common_crypto.generate_keypair (P := Cases.toy_common)
                      Toy.constant_entropy))) = true.
Proof.
  destruct (issue_license_is_authentic toy_common_laws Toy.constant_entropy
              Toy.constant_entropy Toy.constant_entropy (mkdt 2024 1 1 0 None)
              (mkdt 2024 1 31 0 None) (30 * US_PER_DAY) [("seats", JInt 5)] 30)
    as (c & sg & H1 & H2 & _).
  - reflexivity.
  - reflexivity.
  - vm_compute. lia.
  - exists c, sg. split; assumption.
Defined.

(** ** The paths on which the verification endpoints do answer *)

Lemma instant_ensure_aware (d : datetime) (off : Z) :
  instant (ensure_aware d) off = instant d off.
Proof. unfold ensure_aware. now destruct (tzinfo d). Qed.

(** X28: On the one path where the record-based endpoint gives a
    verdict, the verdict is right: for a license of an active tenant
    linked to an active subscription with an end date, [validate_license]
    answers [valid: true] exactly when the clock has not passed the end
    date (read as UTC when it has no time zone), with [validity_days]
    the whole days from issue date to end date; after the end date it
    answers [valid: false], "License has expired". *)
Theorem validate_license_end_date_verdict
    (db : Db) (clock : datetime) (license_key sid : string) (l : License)
    (tenant : Tenant) (sub : Subscription) (i e : datetime) (days : Z) :
  license_by_key db license_key = Some l ->
  get_tenant db (license_tenant_id l) = Some tenant ->
  tenant_is_active tenant = true ->
  linked_subscription l = Some sid ->
  PyStr.truthy sid = true ->
  get_subscription db sid = Some sub ->
  status sub = "active" ->
  issue_date sub = Some i ->
  end_date sub = Some e ->
  end_minus_issue_days e (Some i) = Returned days ->
  validate_license db clock license_key
  = Returned
      (if instant clock 0
          <=? instant e (match tzinfo e with Some o => o | None => 0 end)
       then valid_reply l (ensure_aware i) (Some days) (ensure_aware e)
       else invalid_reply "License has expired"
              ("Expired on " ++ strftime_ymd (ensure_aware e))).
Proof.
  intros Hl Ht Ha Hs Hsid Hsub Hst Hi He Hd.
  unfold validate_license. rewrite Hl, Ht, Ha, Hs, Hsid, Hsub, Hst.
  cbn [negb String.eqb Ascii.eqb Bool.eqb].
  unfold validate_license_linked. rewrite Hi, He, Hd.
  cbn [attr_of_date bind]. unfold validate_license_verdict, dt_gt, dt_le.
  assert (Hz : tzinfo (ensure_aware e)
               = Some (match tzinfo e with Some o => o | None => 0 end)).
  { unfold ensure_aware. destruct (tzinfo e) eqn:E; [exact E|reflexivity]. }
  rewrite Hz. unfold now_utc at 1. cbn [tzinfo replace_tz_utc bind try_except].
  rewrite instant_ensure_aware.
  replace (instant (now_utc clock) 0) with (instant clock 0) by reflexivity.
  destruct (instant clock 0 <=? instant e _); reflexivity.
Qed.

Lemma validate_license_end_date_verdict_witness :
  validate_license Toy.db0 (Toy.utc 2024 6 1) (license_key Toy.lic_end)
  = Returned (valid_reply Toy.lic_end (Toy.utc 2024 1 1) (Some 2192)
                (Toy.utc 2030 1 1)).
Proof.
  apply (validate_license_end_date_verdict Toy.db0 (Toy.utc 2024 6 1)
           (license_key Toy.lic_end) "sub-end" Toy.lic_end Toy.tenant1
           Toy.sub_end (Toy.utc 2024 1 1) (Toy.utc 2030 1 1) 2192);
    reflexivity.
Defined.

(** X29: On the one path where the file-based endpoint can say
    [valid], the verdict is right: for claims that name an active
    subscription without end date on a yearly plan, step 6 of
    [validate_license_file] reports [valid] exactly when the clock has
    not passed the issue date plus one day less than the yearly day
    count, and [invalid] after it. *)
Theorem file_validity_yearly_verdict {R : Runtime}
    (db : Db) (now : datetime) (info : json) (sid : string)
    (sub : Subscription) (plan : PlanDefinition) (i x : datetime)
    (d : Z) (t : timedelta) (off : Z) :
  PyJson.get info "linked_subscription" = Returned (JStr sid) ->
  sid <> EmptyString ->
  get_subscription db sid = Some sub ->
  status sub = "active" ->
  end_date sub = None ->
  issue_date sub = Some i ->
  get_plan_definition db (subscription_plan_id sub) = Returned (Some plan) ->
  billing_interval plan = yearly ->
  yearly_days i = Returned d ->
  timedelta_days (d - 1) = Returned t ->
  dt_add (ensure_aware i) t = Returned x ->
  tzinfo now = Some 0 ->
  tzinfo x = Some off ->
  file_validity db now info
  = if instant now 0 <=? instant x off then "valid" else "invalid".
Proof.
  intros Hg Hne Hs Hst He Hi Hp Hb Hy Ht Ha Hn Hx.
  rewrite (file_validity_named db now info sid Hg Hne).
  unfold file_validity_linked, subscription_plan.
  rewrite Hs, Hst, He, Hi, Hp. cbn [negb String.eqb Ascii.eqb Bool.eqb].
  cbn [attr_of_date bind]. rewrite Hb.
  cbn [BillingInterval_value String.eqb Ascii.eqb Bool.eqb].
  rewrite Hy. cbn [bind local_timedelta].
  rewrite Ht. cbn [bind]. rewrite Ha. cbn [bind].
  unfold dt_le. rewrite Hn, Hx. cbn [bind].
  destruct (instant now 0 <=? instant x off); reflexivity.
Qed.

Lemma file_validity_yearly_verdict_witness :
  file_validity (R := Toy.toy_runtime) Toy.db0 (Toy.utc 2025 3 1)
    (JObj [("linked_subscription", JStr "sub-yearly")])
  = "invalid".
Proof.
  apply (file_validity_yearly_verdict (R := Toy.toy_runtime) Toy.db0
           (Toy.utc 2025 3 1) (JObj [("linked_subscription", JStr "sub-yearly")])
           "sub-yearly" Toy.sub_yearly (mkPlan "plan-y" yearly) (Toy.utc 2024 3 1)
           (Toy.utc 2025 2 28) 365 (364 * US_PER_DAY) 0);
    try reflexivity.
  discriminate.
Defined.

(** ** The day counts that creation stores *)

(** X30: For a license created on a subscription without end date,
    [create_license] stores the issue date of the subscription and, on
    a monthly plan, the number of days of the month of issue (28 to
    31); on a yearly plan, for every issue date but a 29 February, 365
    days, or 366 when a 29 February lies within the year that
    follows. *)
Theorem create_license_window_day_counts
    (db : Db) (sid : string) (sub : Subscription) (plan : PlanDefinition)
    (i : datetime) :
  get_subscription db sid = Some sub ->
  end_date sub = None ->
  issue_date sub = Some i ->
  get_plan_definition db (subscription_plan_id sub) = Returned (Some plan) ->
  valid_date (year i) (month i) (day i) = true ->
  year i < MAXYEAR ->
  (billing_interval plan = monthly ->
   create_license_window db sid
   = Returned (Some i, Some (days_in_month (year i) (month i)))
   /\ 28 <= days_in_month (year i) (month i) <= 31)
  /\ (billing_interval plan = yearly ->
      ~ (month i = 2 /\ day i = 29) ->
      create_license_window db sid
      = Returned (Some i,
                  Some (365 + (if month i <=? 2
                               then (if is_leap (year i) then 1 else 0)
                               else (if is_leap (year i + 1) then 1 else 0))))).
Proof.
  intros Hs He Hi Hp Hv Hy. unfold create_license_window.
  rewrite Hs, He, Hp. cbn [bind]. rewrite Hi. split.
  - intros Hb. rewrite Hb.
    cbn [BillingInterval_value String.eqb Ascii.eqb Bool.eqb].
    unfold valid_date in Hv.
    repeat (apply andb_true_iff in Hv; destruct Hv as [Hv ?]).
    repeat match goal with H : (_ <=? _) = true |- _ => apply Z.leb_le in H end.
    unfold monthly_days, monthrange_ndays.
    destruct (Z.leb_spec 1 (month i)); [|lia].
    destruct (Z.leb_spec (month i) 12); [|lia].
    cbn [andb bind]. split; [reflexivity|].
    unfold days_in_month.
    destruct ((month i =? 2) && is_leap (year i)); [lia|].
    assert (Hm : month i = 1 \/ month i = 2 \/ month i = 3 \/ month i = 4
                 \/ month i = 5 \/ month i = 6 \/ month i = 7 \/ month i = 8
                 \/ month i = 9 \/ month i = 10 \/ month i = 11 \/ month i = 12)
      by lia.
    repeat (destruct Hm as [Hm|Hm]; [rewrite Hm; cbn; lia|]).
    rewrite Hm. cbn. lia.
  - intros Hb Hn. rewrite Hb.
    cbn [BillingInterval_value String.eqb Ascii.eqb Bool.eqb].
    rewrite (yearly_days_value i Hv Hy Hn). reflexivity.
Qed.

Lemma create_license_window_day_counts_witness :
  create_license_window Toy.db0 "sub-yearly"
  = Returned (Some (Toy.utc 2024 3 1), Some 365).
Proof.
  destruct (create_license_window_day_counts Toy.db0 "sub-yearly"
              Toy.sub_yearly (mkPlan "plan-y" yearly) (Toy.utc 2024 3 1)
              eq_refl eq_refl eq_refl eq_refl eq_refl eq_refl) as [_ H].
  apply H; [reflexivity|]. intros [Hm _]. discriminate Hm.
Defined.
